(** * Rufus: relevance-guided crawl loop, scorer, link ranker, synthesizer

    A shallow embedding of the Python sources

      - [Rufus/ai/engine.py]        (module [Engine])
      - [Rufus/core/crawler.py]     (modules [WebCrawler] and [Crawler])
      - [Rufus/core/extractor.py]   (module [ContentExtractor])
      - [Rufus/core/synthesizer.py] (module [Synthesizer])
      - [Rufus/client.py]           (module [Client])
      - [Rufus/utils/helpers.py]    (module [Helpers])

    Python values that the code handles dynamically (page content, the LLM
    answer, the records given to the synthesizer) are values of [pyval];
    exceptions are values of [exn] carried by [result]; the loggers, the
    crawler's [self.links] and the wall clock form the mutable system state
    [Sys], threaded by the monad [M].  Third-party libraries (requests,
    selenium, BeautifulSoup, scikit-learn, the LLM, the file system) are the
    fields of the record [World].  A method that the sources call but that
    no class of the repository defines ([WebCrawler.get_links], the three
    [DocumentSynthesizer._format_*]) raises [AttributeError], as the call
    does in Python; a name that a module uses without importing it ([json]
    in [crawler.py]) raises [NameError].  The class [ContentExtractor]
    defines [extract] twice: the second definition, which is the one bound,
    is the one embedded.  [scrape] is written over the collaborators of the
    client ([Client.Components]); [Client.rufus] gives the ones the
    constructor creates.  The [while] loop of [scrape] is run for a given
    number of passes (fuel), and is shown to end.  Python floats are read as
    exact rationals ([Q]): rounding is not modelled, and a strict inequality
    between two computed floats need not survive it; module [Binary64] reads
    one function in IEEE arithmetic to show where rounding matters.  Module
    [Demo] holds scripted collaborators and worlds on which the definitions
    are run, module [Samples] further inputs, modules [Spec] and [Notions]
    the notions used to state the properties. *)

From Stdlib Require Import ZArith QArith String Ascii List Lia Lqa.
From Stdlib Require Import Uint63 PrimFloat.
From stdpp Require Import gmap strings list pretty sorting.

Set Warnings "-clear-no-such-hyp".

Open Scope string_scope.

(** ** Python exceptions and results *)

Module Py.

Inductive exn_class :=
| TypeError
| ValueError
| KeyError
| AttributeError
| ZeroDivisionError
| RequestException
| OtherException (name : string).

(** An exception object: its class and [str(e)].  The text of the messages
    that the interpreter writes itself differs between versions of Python. *)
Record exn := mkExn { exn_cls : exn_class; exn_msg : string }.

Inductive result (A : Type) :=
| Ok (a : A)
| Raise (e : exn).
Arguments Ok {A} a.
Arguments Raise {A} e.

(** ** Python values *)

#[warnings="-register-all"]
Inductive pyval :=
| PNone
| PBool (b : bool)
| PInt (z : Z)
| PFloat (q : Q)
| PStr (s : string)
| PList (l : list pyval)
| PDict (d : list (string * pyval))
| PObj (cls : string) (fields : list (string * pyval)).

(** Lookup in a dict with string keys (insertion-ordered association list). *)
Fixpoint dict_lookup (d : list (string * pyval)) (k : string) : option pyval :=
  match d with
  | [] => None
  | (k', v) :: d' => if String.eqb k' k then Some v else dict_lookup d' k
  end.

(** [v[k]] for a string literal [k].  Only a dict accepts a string subscript:
    [str] and [list] want integer indices, a dataclass instance and the scalars
    are not subscriptable. *)
Definition getitem_str (v : pyval) (k : string) : result pyval :=
  match v with
  | PDict d =>
      match dict_lookup d k with
      | Some x => Ok x
      | None => Raise (mkExn KeyError k)
      end
  | PStr _ => Raise (mkExn TypeError "string indices must be integers")
  | PList _ => Raise (mkExn TypeError "list indices must be integers or slices, not str")
  | _ => Raise (mkExn TypeError "object is not subscriptable")
  end.

(** [v.get(k, default)]: a dict method. *)
Definition dict_get (v : pyval) (k : string) (default : pyval) : result pyval :=
  match v with
  | PDict d => Ok (match dict_lookup d k with Some x => x | None => default end)
  | _ => Raise (mkExn AttributeError "object has no attribute 'get'")
  end.

(** [v[:n]] for [n >= 0]. *)
Definition slice_to (v : pyval) (n : nat) : result pyval :=
  match v with
  | PStr s => Ok (PStr (substring 0 n s))
  | PList l => Ok (PList (take n l))
  | _ => Raise (mkExn TypeError "object is not subscriptable")
  end.

(** Strings are sequences of code points below 256, one [ascii] each. *)
Definition is_space (c : ascii) : bool :=
  let n := nat_of_ascii c in
  (((9 <=? n) && (n <=? 13)) || ((28 <=? n) && (n <=? 32))
   || (n =? 133) || (n =? 160))%nat.

(** [s.split()]: maximal runs of non-whitespace; [tok] is the token being
    read. *)
Fixpoint split_from (s : string) (tok : string) : list string :=
  match s with
  | EmptyString => if String.eqb tok "" then [] else [tok]
  | String c s' =>
      if is_space c
      then (if String.eqb tok "" then split_from s' "" else tok :: split_from s' "")
      else split_from s' (tok ++ String c "")
  end.

Definition str_split (s : string) : list string := split_from s "".

Definition split (v : pyval) : result (list string) :=
  match v with
  | PStr s => Ok (str_split s)
  | _ => Raise (mkExn AttributeError "object has no attribute 'split'")
  end.

Definition lower_char (c : ascii) : ascii :=
  let n := nat_of_ascii c in
  if (((65 <=? n) && (n <=? 90))
      || ((192 <=? n) && (n <=? 222) && negb (n =? 215)))%nat
  then ascii_of_nat (n + 32) else c.

(** [s.lower()] *)
Fixpoint lower (s : string) : string :=
  match s with
  | EmptyString => EmptyString
  | String c s' => String (lower_char c) (lower s')
  end.

(** [sub in s] *)
Fixpoint contains (sub s : string) : bool :=
  String.prefix sub s ||
  match s with
  | EmptyString => false
  | String _ s' => contains sub s'
  end.

(** [a / b] on two [int]s (true division). *)
Definition truediv (a b : Z) : result Q :=
  if (b =? 0)%Z then Raise (mkExn ZeroDivisionError "division by zero")
  else Ok (inject_Z a / inject_Z b)%Q.

(** Sequencing of pure computations that may raise. *)
Definition and_then {A B} (r : result A) (k : A -> result B) : result B :=
  match r with
  | Ok a => k a
  | Raise e => Raise e
  end.

(** [a > b] and [a >= b] on floats. *)
Definition float_gt (a b : Q) : bool := negb (Qle_bool a b).
Definition float_ge (a b : Q) : bool := Qle_bool b a.

Notation "'let?' x := r 'in' k" := (and_then r (fun x => k))
  (at level 10, x name, r at level 100, k at level 200).

End Py.
Export Py.
(** ** System state and the effect monad *)

(** One record per call of a logger method. *)
Inductive level := DEBUG | INFO | WARNING | ERROR.
Record logrec := mkLog { log_level : level; log_msg : string }.

(** The mutable state shared by the components of one [RufusClient]:
    [WebCrawler.links], the records emitted through [logging], and the number
    of times the clock was read.  A timestamp is the index of the reading of
    [datetime.now()] that produced it. *)
Record Sys := mkSys {
  crawler_links : list string;
  log : list logrec;
  clock : nat
}.

(** State and exception monad: a raised exception keeps the state reached. *)
Definition M (A : Type) : Type := Sys -> result A * Sys.

Definition ret {A} (a : A) : M A := fun s => (Ok a, s).
Definition raise {A} (e : exn) : M A := fun s => (Raise e, s).
Definition bind {A B} (m : M A) (k : A -> M B) : M B :=
  fun s => match m s with
           | (Ok a, s') => k a s'
           | (Raise e, s') => (Raise e, s')
           end.
(** [try: m except Exception as e: h e] *)
Definition try_except {A} (m : M A) (h : exn -> M A) : M A :=
  fun s => match m s with
           | (Ok a, s') => (Ok a, s')
           | (Raise e, s') => h e s'
           end.
(** A pure computation that may raise. *)
Definition lift {A} (r : result A) : M A := fun s => (r, s).

Declare Scope py_scope.
Delimit Scope py_scope with py.
Notation "x <- m ;; k" := (bind m (fun x => k))
  (at level 100, m at next level, right associativity) : py_scope.
Notation "m ;;; k" := (bind m (fun _ => k))
  (at level 100, right associativity) : py_scope.

Definition emit (lvl : level) (msg : string) : M unit :=
  fun s => (Ok tt, mkSys (crawler_links s) (log s ++ [mkLog lvl msg]) (clock s)).
Definition set_links (l : list string) : M unit :=
  fun s => (Ok tt, mkSys l (log s) (clock s)).
Definition read_links : M (list string) := fun s => (Ok (crawler_links s), s).
(** [datetime.now()] *)
Definition now : M nat :=
  fun s => (Ok (clock s), mkSys (crawler_links s) (log s) (S (clock s))).

(** The handlers of the sources all have the shape
    [except Exception as e: logger.error(f"<ctx>{str(e)}"); raise]. *)
Definition log_and_reraise {A} (ctx : string) (m : M A) : M A :=
  try_except m (fun e => (emit ERROR (ctx ++ exn_msg e) ;;; raise e)%py).

(** ** Data exchanged between the components *)

(** An element of [available_links]: the keys read by
    [suggest_navigation_paths]. *)
Record Link := mkLink { link_url : string; link_text : string; link_depth : Z }.

(** The dicts built by [suggest_navigation_paths]. *)
Record Suggestion := mkSuggestion {
  sg_url : string;
  sg_text : string;
  sg_relevance_score : Q;
  sg_exploration_priority : Q
}.

(** [engine.ContentScore] *)
Record ContentScore := mkContentScore {
  relevance_score : Q;
  topic_match : Q;
  information_density : Q;
  cs_url : string;
  summary : pyval
}.

(** What [synthesize] is declared to return: [Union[List[Dict], str]]. *)
Inductive Output :=
| OutDocs (docs : list pyval)
| OutStr (s : string).

(** The two prompt templates of [RufusAIEngine], with their arguments. *)
Inductive prompt :=
| AnalysisPrompt (content : pyval) (query : string)
| NavigationPrompt (current_page : string) (links : list Link) (search_goal : string).

(** ** More of Python's [str] and [re] *)

Module Str.

(** [sep.join(l)] *)
Definition join (sep : string) (l : list string) : string := String.concat sep l.

(** [re.sub(r'C+', ' ', s)] for a character class [C]: every maximal run of
    characters of the class becomes one space.  [in_run] tells that the
    character before [s] was in the class. *)
Fixpoint sub_runs (cls : ascii -> bool) (in_run : bool) (s : string) : string :=
  match s with
  | EmptyString => EmptyString
  | String c s' =>
      if cls c
      then (if in_run then sub_runs cls true s' else String " " (sub_runs cls true s'))
      else String c (sub_runs cls false s')
  end.

(** The class [[\r\n\t]]. *)
Definition is_crlf_tab (c : ascii) : bool :=
  let n := nat_of_ascii c in ((n =? 13) || (n =? 10) || (n =? 9))%nat.

(** [s.replace(a, b)] for one-character strings [a] and [b]. *)
Fixpoint replace_char (a b : ascii) (s : string) : string :=
  match s with
  | EmptyString => EmptyString
  | String c s' => String (if Ascii.eqb c a then b else c) (replace_char a b s')
  end.

(** The double quote. *)
Definition dquote : ascii := ascii_of_nat 34.

(** [s.lstrip()], [s.rstrip()], [s.strip()] *)
Fixpoint lstrip (s : string) : string :=
  match s with
  | EmptyString => EmptyString
  | String c s' => if is_space c then lstrip s' else s
  end.

Fixpoint rstrip (s : string) : string :=
  match s with
  | EmptyString => EmptyString
  | String c s' =>
      match rstrip s' with
      | EmptyString => if is_space c then EmptyString else String c EmptyString
      | r => String c r
      end
  end.

Definition strip (s : string) : string := rstrip (lstrip s).

(** Truth value of a Python value in a condition. *)
Definition truthy (v : pyval) : bool :=
  match v with
  | PNone => false
  | PBool b => b
  | PInt z => negb (z =? 0)%Z
  | PFloat q => negb (Qeq_bool q 0)
  | PStr s => negb (String.eqb s EmptyString)
  | PList l => match l with [] => false | _ => true end
  | PDict d => match d with [] => false | _ => true end
  | PObj _ _ => true
  end.

(** [a / b] with a float on the left and an [int] on the right. *)
Definition float_div_int (a : Q) (b : Z) : result Q :=
  if (b =? 0)%Z then Raise (mkExn ZeroDivisionError "float division by zero")
  else Ok (a / inject_Z b)%Q.

(** [d[k] = v] on a dict with string keys: the value is replaced where the key
    stands, a new key goes to the end. *)
Fixpoint dict_set (d : list (string * pyval)) (k : string) (v : pyval)
  : list (string * pyval) :=
  match d with
  | [] => [(k, v)]
  | (k', v') :: d' =>
      if String.eqb k' k then (k', v) :: d' else (k', v') :: dict_set d' k v
  end.

End Str.
(** ** What the code reads from a parsed document *)

Module Bs4.

(** A tag, as its attributes: [tag.get(k)] is the lookup. *)
Abbreviation Tag := (gmap string string).

(** [tag.get(k)] in a condition: present and not empty. *)
Definition has_attr (tag : Tag) (k : string) : bool :=
  match tag !! k with
  | Some v => negb (String.eqb v EmptyString)
  | None => false
  end.

(** [tag.get(k, '')] *)
Definition attr_or_empty (tag : Tag) (k : string) : string :=
  match tag !! k with
  | Some v => v
  | None => EmptyString
  end.

(** A tag met by [find_next_sibling]: its name and its [get_text()]. *)
Record Sibling := mkSibling { sib_name : string; sib_text : string }.

(** A heading: its [get_text()] and the tags that follow it among its
    siblings, in document order. *)
Record Header := mkHeader { header_text : string; header_siblings : list Sibling }.

(** The answers of a [BeautifulSoup] object to the queries of the sources.
    [title] is [None] without a [title] tag, and else its [.string] (a string
    or [None]); a [find_*] field is the [get_text()] of the tag found, if
    any; [hrefs] are the [href]s of the anchors that have one;
    [schema_scripts] are the [.string]s of the [script] tags of type
    [application/ld+json]. *)
Record Soup := mkSoup {
  title : option pyval;
  metas : list Tag;
  find_main : option string;
  find_article : option string;
  find_div_role_main : option string;
  find_div_content_class : option string;
  find_body : option string;
  headers : list Header;
  hrefs : list string;
  schema_scripts : list pyval
}.

End Bs4.
(** ** The outside world *)

(** Third-party calls, as functions of their arguments. *)
Record World := mkWorld {
  (** [requests.get(url)], [raise_for_status()], [.text] *)
  requests_get : string -> result string;
  (** selenium: [driver.get(url)] and the wait for [body] *)
  driver_get : string -> result unit;
  (** selenium: [driver.page_source] after loading [url] *)
  driver_page_source : string -> result string;
  (** [BeautifulSoup(markup, 'html.parser')] *)
  bs_parse : pyval -> result Bs4.Soup;
  (** BeautifulSoup: the joined stripped strings of a document *)
  bs_text : pyval -> result string;
  (** scikit-learn: [TfidfVectorizer(stop_words='english')] fitted on the two
      documents, entry [0, 1] of the similarity matrix *)
  tfidf_cosine : pyval -> string -> result Q;
  (** [self.llm.agenerate([prompt])] and [.generations[0].text] *)
  llm_text : prompt -> result pyval;
  (** [float(s)] on a string *)
  parse_float : string -> option Q;
  (** [hash] on the hashable scalars *)
  hash_atom : pyval -> Z;
  (** [strftime] and [isoformat] of the timestamp read at a given index *)
  strftime : nat -> string;
  (** [open(output_file, 'w')] and the write *)
  fs_write : string -> Output -> result unit
}.

(** [float(v)] *)
Definition to_float (w : World) (v : pyval) : result Q :=
  match v with
  | PFloat q => Ok q
  | PInt z => Ok (inject_Z z)
  | PBool b => Ok (if b then 1 else 0)%Q
  | PStr s =>
      match parse_float w s with
      | Some q => Ok q
      | None => Raise (mkExn ValueError ("could not convert string to float: " ++ s))
      end
  | _ => Raise (mkExn TypeError "float() argument must be a string or a real number")
  end.

(** [hash(v)]: lists, dicts and instances of a non-frozen dataclass are
    unhashable. *)
Definition py_hash (w : World) (v : pyval) : result Z :=
  match v with
  | PList _ | PDict _ | PObj _ _ => Raise (mkExn TypeError "unhashable type")
  | _ => Ok (hash_atom w v)
  end.

Open Scope py_scope.

(** ** [Rufus/ai/engine.py] *)

Module Engine.

(** [_calculate_exploration_priority].  The product is the exact one: the
    float the code computes is its rounding (see [Binary64.priority]). *)
Definition _calculate_exploration_priority (relevance : Q) (depth : Z) : result Q :=
  let? depth_penalty := truediv 1 (1 + depth) in
  Ok (relevance * depth_penalty)%Q.

(** [_calculate_topic_match] *)
Definition _calculate_topic_match (w : World) (content : pyval) (query : string)
  : result Q :=
  tfidf_cosine w content query.

(** [len(set(content.split())) / len(content.split())] *)
Definition _information_density (content : pyval) : result Q :=
  let? distinct := split content in
  let? tokens := split content in
  truediv (Z.of_nat (size (list_to_set distinct : gset string)))
          (Z.of_nat (length tokens)).

(** [analyze_content_relevance]; [max_tokens] is the attribute of the engine.
    The arguments of [ContentScore(...)] are evaluated in the order written. *)
Definition analyze_content_relevance (w : World) (max_tokens : nat)
    (content : pyval) (query : string) (url : string) : M ContentScore :=
  log_and_reraise "Error analyzing content relevance: "
    (ml_relevance_score <- lift (tfidf_cosine w content query) ;;
     head <- lift (slice_to content max_tokens) ;;
     analysis <- lift (llm_text w (AnalysisPrompt head query)) ;;
     information_density <- lift (_information_density content) ;;
     topic_match <- lift (_calculate_topic_match w content query) ;;
     relevance <- lift (getitem_str analysis "relevance") ;;
     llm_relevance <- lift (to_float w relevance) ;;
     summary <- lift (getitem_str analysis "key_information") ;;
     ret (mkContentScore ((ml_relevance_score + llm_relevance) / 2)%Q
            topic_match information_density url summary)).

(** [_summarize_content] *)
Definition _summarize_content (w : World) (content : pyval) : result string :=
  let? main_content := bs_text w content in
  Ok (substring 0 500 main_content).

(** [_estimate_link_relevance] *)
Definition _estimate_link_relevance (w : World)
    (link_text url search_goal : string) : result Q :=
  tfidf_cosine w (PStr (link_text ++ " " ++ url)) search_goal.

(** The [for link in available_links] loop of [suggest_navigation_paths]. *)
Fixpoint score_links (w : World) (search_goal : string) (links : list Link)
  : result (list Suggestion) :=
  match links with
  | [] => Ok []
  | link :: rest =>
      let? relevance :=
        _estimate_link_relevance w (link_text link) (link_url link) search_goal in
      let? priority := _calculate_exploration_priority relevance (link_depth link) in
      let? scored := score_links w search_goal rest in
      Ok (mkSuggestion (link_url link) (link_text link) relevance priority :: scored)
  end.

(** [sorted(scored_links, key=lambda x: x['exploration_priority'],
    reverse=True)]: descending, and stable (equal keys keep the input order). *)
Fixpoint insert_desc (x : Suggestion) (l : list Suggestion) : list Suggestion :=
  match l with
  | [] => [x]
  | y :: l' =>
      if float_gt (sg_exploration_priority y) (sg_exploration_priority x)
      then y :: insert_desc x l'
      else x :: y :: l'
  end.

Definition sorted_by_priority (l : list Suggestion) : list Suggestion :=
  fold_right insert_desc [] l.

(** [suggest_navigation_paths] *)
Definition suggest_navigation_paths (w : World) (current_content : pyval)
    (available_links : list Link) (search_goal : string) : M (list Suggestion) :=
  log_and_reraise "Error suggesting navigation paths: "
    (current_summary <- lift (_summarize_content w current_content) ;;
     suggestions <-
       lift (llm_text w (NavigationPrompt current_summary available_links search_goal)) ;;
     scored_links <- lift (score_links w search_goal available_links) ;;
     ret (sorted_by_priority scored_links)).

End Engine.

(** ** [_calculate_exploration_priority] in IEEE arithmetic *)

Module Binary64.

(** [relevance * (1 / (1 + depth))] on a binary64 relevance, for a depth with
    [0 <= 1 + depth < 2^53]: the quotient of the two integers and the product
    are each rounded to the nearest float. *)
Definition priority (relevance : float) (depth : Z) : float :=
  let depth_penalty := (1 / of_uint63 (Uint63.of_Z (1 + depth)))%float in
  (relevance * depth_penalty)%float.

(** The smallest positive float, [5e-324]. *)
Definition tiny : float := 0x1p-1074%float.

End Binary64.

(** ** [Rufus/core/crawler.py] *)

(** The methods of [WebCrawler] that read the fetched page. *)
Module WebCrawler.
Import Bs4.

(** [_extract_links] *)
Definition _extract_links (w : World) (content : string) : result (list string) :=
  let? soup := bs_parse w (PStr content) in
  Ok (hrefs soup).

(** The [for tag in schema_tags] loop of [_extract_schema_org].  The module
    never imports [json]: evaluating [json.loads] raises [NameError] for every
    tag, and the handler inside the loop logs it. *)
Fixpoint schema_org_from (schema_tags : list pyval) : M unit :=
  match schema_tags with
  | [] => ret tt
  | tag :: rest =>
      let e := mkExn (OtherException "NameError") "name 'json' is not defined" in
      emit ERROR ("Error parsing schema data: " ++ exn_msg e) ;;;
      schema_org_from rest
  end.

(** [_extract_schema_org]: [schema_data] is returned as it was created. *)
Definition _extract_schema_org (soup : Soup) : M pyval :=
  schema_org_from (schema_scripts soup) ;;;
  ret (PDict []).

(** [_extract_meta_tags]; a value is [None] when the tag has no [content]. *)
Definition _extract_meta_tags (soup : Soup) : gmap string (option string) :=
  fold_left
    (fun meta_tags tag =>
       let name := tag !! "name" in
       let property_name := tag !! "property" in
       let content := tag !! "content" in
       if has_attr tag "name" then <[attr_or_empty tag "name" := content]> meta_tags
       else if has_attr tag "property"
       then <[attr_or_empty tag "property" := content]> meta_tags
       else meta_tags)
    (metas soup) ∅.

(** [_extract_open_graph] *)
Definition _extract_open_graph (soup : Soup) : gmap string (option string) :=
  fold_left
    (fun og_data tag =>
       if String.prefix "og:" (attr_or_empty tag "property")
       then <[attr_or_empty tag "property" := tag !! "content"]> og_data
       else og_data)
    (metas soup) ∅.

(** A dict of optional strings as a Python value; the keys come in the order
    of the map, not in the order of insertion, which nothing here reads. *)
Definition as_dict (m : gmap string (option string)) : pyval :=
  PDict (map (fun kv => (fst kv, match snd kv with Some s => PStr s | None => PNone end))
           (map_to_list m)).

(** [_extract_structured_data] *)
Definition _extract_structured_data (w : World) (content : string) : M pyval :=
  soup <- lift (bs_parse w (PStr content)) ;;
  schema_org <- _extract_schema_org soup ;;
  ret (PDict [("schema_org", schema_org);
              ("meta_tags", as_dict (_extract_meta_tags soup));
              ("open_graph", as_dict (_extract_open_graph soup))]).

End WebCrawler.

(** The methods of [WebCrawler] that fetch. *)
Module Crawler.

(** [_make_request]: only a [requests.RequestException] is logged here. *)
Definition _make_request (w : World) (url : string) : M string :=
  try_except (lift (requests_get w url))
    (fun e =>
       match exn_cls e with
       | RequestException =>
           emit ERROR ("Error making request to " ++ url ++ ": " ++ exn_msg e) ;;;
           raise e
       | _ => raise e
       end).

(** [_might_have_dynamic_content] *)
Definition _might_have_dynamic_content (content : string) : bool :=
  contains "<script" (lower content).

(** [_handle_dynamic_content]; the two-second sleep between the wait and the
    reading of the page source changes nothing here. *)
Definition _handle_dynamic_content (w : World) (url : string) : M string :=
  log_and_reraise "Error handling dynamic content: "
    (lift (driver_get w url) ;;;
     lift (driver_page_source w url)).

(** [crawl] *)
Definition crawl (w : World) (url : string) : M pyval :=
  log_and_reraise ("Error crawling " ++ url ++ ": ")
    (response <- _make_request w url ;;
     content <- (if _might_have_dynamic_content response
                 then _handle_dynamic_content w url
                 else ret response) ;;
     links <- lift (WebCrawler._extract_links w content) ;;
     set_links links ;;;
     structured_data <- WebCrawler._extract_structured_data w content ;;
     ret (PDict [("url", PStr url); ("content", PStr content);
                 ("structured_data", structured_data);
                 ("links", PList (map PStr links))])).

(** [self.crawler.get_links()]: [WebCrawler] has no method and no attribute
    of that name, so reading the attribute raises. *)
Definition get_links : M (list Link) :=
  raise (mkExn AttributeError "'WebCrawler' object has no attribute 'get_links'").

End Crawler.

(** ** [Rufus/core/extractor.py] *)

(** The class body defines [extract] twice; the second definition is the one
    bound.  [__init__] sets the logger only: the assignments of
    [self.instructions] and [self.important_tags] stand in a string literal. *)
Module ContentExtractor.
Import Str Bs4.

(** An instance: the [warning] method of its logger and the attributes the
    methods read; [None] for an attribute that is not set. *)
Record Self := mkSelf {
  logger_warning : string -> Sys -> Sys;
  instructions : option pyval;
  important_tags : option (list string)
}.

Definition __init__ (logger_warning : string -> Sys -> Sys) : Self :=
  mkSelf logger_warning None None.

Definition warn (self : Self) (msg : string) : M unit :=
  fun s => (Ok tt, logger_warning self msg s).

Definition get_instructions (self : Self) : result pyval :=
  match instructions self with
  | Some v => Ok v
  | None => Raise (mkExn AttributeError
                     "'ContentExtractor' object has no attribute 'instructions'")
  end.

Definition get_important_tags (self : Self) : result (list string) :=
  match important_tags self with
  | Some v => Ok v
  | None => Raise (mkExn AttributeError
                     "'ContentExtractor' object has no attribute 'important_tags'")
  end.

(** [ContentCleaningError(msg)] and [ContentExtractionError(msg)]: both
    constructors need a second argument, [error_detail], so the call raises
    [TypeError] in place of the exception meant. *)
Definition ContentCleaningError (msg : string) : exn :=
  mkExn TypeError
    "RufusException.__init__() missing 1 required positional argument: 'error_detail'".
Definition ContentExtractionError (msg : string) : exn :=
  mkExn TypeError
    "ContentExtractionError.__init__() missing 1 required positional argument: 'error_detail'".

(** The steps of [_clean_text] on a string. *)
Definition clean (text : string) : string :=
  let text := join " " (str_split text) in
  let text := sub_runs is_crlf_tab false text in
  let text := replace_char dquote dquote (replace_char dquote dquote text) in
  let text := sub_runs is_space false text in
  strip text.

(** [_clean_text] *)
Definition _clean_text (text : pyval) : M string :=
  try_except
    (tokens <- lift (split text) ;;
     let text := join " " tokens in
     let text := sub_runs is_crlf_tab false text in
     let text := replace_char dquote dquote (replace_char dquote dquote text) in
     let text := sub_runs is_space false text in
     ret (strip text))
    (fun e =>
       emit ERROR ("Text cleaning failed: " ++ exn_msg e) ;;;
       raise (ContentCleaningError ("Failed to clean text: " ++ exn_msg e))).

(** The first loop of [_extract_metadata]. *)
Fixpoint metadata_by_name (tags : list Tag) (metadata : list (string * pyval))
  : list (string * pyval) :=
  match tags with
  | [] => metadata
  | tag :: rest =>
      metadata_by_name rest
        (if has_attr tag "name"
         then dict_set metadata (attr_or_empty tag "name")
                (PStr (attr_or_empty tag "content"))
         else if has_attr tag "property"
         then dict_set metadata (attr_or_empty tag "property")
                (PStr (attr_or_empty tag "content"))
         else metadata)
  end.

(** [soup.find_all('meta', property=re.compile(r'^og:'))] *)
Definition og_tags (tags : list Tag) : list Tag :=
  List.filter (fun tag => match tag !! "property" with
                          | Some p => String.prefix "og:" p
                          | None => false
                          end) tags.

(** The second loop of [_extract_metadata]. *)
Fixpoint metadata_by_property (tags : list Tag) (metadata : list (string * pyval))
  : list (string * pyval) :=
  match tags with
  | [] => metadata
  | tag :: rest =>
      metadata_by_property rest
        (dict_set metadata (attr_or_empty tag "property")
           (PStr (attr_or_empty tag "content")))
  end.

(** [_extract_metadata]; nothing in its [try] block can raise here. *)
Definition _extract_metadata (soup : Soup) : list (string * pyval) :=
  metadata_by_property (og_tags (metas soup)) (metadata_by_name (metas soup) []).

(** The tag [_extract_main_content] settles on, as its text. *)
Definition main_container (soup : Soup) : option string :=
  let main_content :=
    match find_main soup with
    | Some t => Some t
    | None =>
        match find_article soup with
        | Some t => Some t
        | None => find_div_role_main soup
        end
    end in
  let main_content :=
    match main_content with Some t => Some t | None => find_div_content_class soup end in
  match main_content with Some t => Some t | None => find_body soup end.

(** [_extract_main_content] *)
Definition _extract_main_content (soup : Soup) : M string :=
  try_except
    (let content_text :=
       match main_container soup with Some t => t | None => EmptyString end in
     _clean_text (PStr content_text))
    (fun e =>
       emit ERROR ("Main content extraction failed: " ++ exn_msg e) ;;;
       raise (ContentExtractionError ("Failed to extract main content: " ++ exn_msg e))).

Definition is_heading (name : string) : bool :=
  String.eqb name "h1" || String.eqb name "h2" || String.eqb name "h3".

(** The [while] loop of [_extract_sections] over the siblings that follow a
    heading; the list returned is [section_content]. *)
Fixpoint section_content (self : Self) (siblings : list Sibling) : M (list string) :=
  match siblings with
  | [] => ret []
  | current :: rest =>
      if is_heading (sib_name current) then ret []
      else
        tags <- lift (get_important_tags self) ;;
        if existsb (String.eqb (sib_name current)) tags
        then
          text <- _clean_text (PStr (sib_text current)) ;;
          more <- section_content self rest ;;
          ret (text :: more)
        else section_content self rest
  end.

(** The [for header in headers] loop of [_extract_sections]. *)
Fixpoint sections_of (self : Self) (hs : list Header) : M (list pyval) :=
  match hs with
  | [] => ret []
  | header :: rest =>
      content <- section_content self (header_siblings header) ;;
      head <- _clean_text (PStr (header_text header)) ;;
      more <- sections_of self rest ;;
      ret (PDict [("header", PStr head); ("content", PStr (join " " content))] :: more)
  end.

(** [_extract_sections] *)
Definition _extract_sections (self : Self) (soup : Soup) : M (list pyval) :=
  try_except (sections_of self (headers soup))
    (fun e => emit ERROR ("Section extraction failed: " ++ exn_msg e) ;;; ret []).

(** [v.lower()] *)
Definition lower_of (v : pyval) : result string :=
  match v with
  | PStr s => Ok (lower s)
  | _ => Raise (mkExn AttributeError "object has no attribute 'lower'")
  end.

(** [sum(1 for keyword in keywords if keyword in text)] *)
Definition matches (keywords : list string) (text : string) : nat :=
  length (List.filter (fun keyword => contains keyword text) keywords).

(** The values of a dict of strings, in insertion order. *)
Definition string_values (d : list (string * pyval)) : result (list string) :=
  fold_right (fun kv acc =>
                let? l := acc in
                match snd kv with
                | PStr s => Ok (s :: l)
                | _ => Raise (mkExn TypeError "sequence item: expected str instance")
                end) (Ok []) d.

(** [_calculate_relevance]; the attribute is read before the [try]. *)
Definition _calculate_relevance (self : Self) (content : string)
    (metadata : list (string * pyval)) : M Q :=
  instr <- lift (get_instructions self) ;;
  if negb (truthy instr) then ret 1%Q
  else
    try_except
      (lowered <- lift (lower_of instr) ;;
       let keywords := str_split lowered in
       let content_lower := lower content in
       values <- lift (string_values metadata) ;;
       let metadata_text := lower (join " " values) in
       let content_matches := matches keywords content_lower in
       let metadata_matches := matches keywords metadata_text in
       let max_score := (Z.of_nat (length keywords) * 2)%Z in
       let actual_score :=
         (inject_Z (Z.of_nat content_matches)
          + inject_Z (Z.of_nat metadata_matches) * (1 # 2))%Q in
       ratio <- lift (float_div_int actual_score max_score) ;;
       ret (if Qle_bool ratio 1 then ratio else 1%Q))
      (fun e =>
         warn self ("Relevance calculation failed: " ++ exn_msg e) ;;;
         ret (1 # 2)%Q).

(** [extract], the second definition; [parse] is [BeautifulSoup(html_content,
    'html.parser')]. *)
Definition extract (parse : pyval -> result Soup) (self : Self)
    (html_content : pyval) (url : string) : M pyval :=
  try_except
    (soup <- lift (parse html_content) ;;
     title <- _clean_text (match title soup with Some v => v | None => PStr EmptyString end) ;;
     let metadata := _extract_metadata soup in
     main_content <- _extract_main_content soup ;;
     sections <- _extract_sections self soup ;;
     let links := hrefs soup in
     relevance_score <- _calculate_relevance self main_content metadata ;;
     emit INFO ("Successfully extracted content from " ++ url) ;;;
     ret (PObj "ExtractedContent"
            [("url", PStr url); ("title", PStr title);
             ("main_content", PStr main_content); ("metadata", PDict metadata);
             ("sections", PList sections); ("links", PList (map PStr links));
             ("relevance_score", PFloat relevance_score)]))
    (fun e =>
       emit ERROR ("Content extraction failed for " ++ url ++ ": " ++ exn_msg e) ;;;
       raise (ContentExtractionError
                ("Failed to extract content from " ++ url ++ ": " ++ exn_msg e))).

End ContentExtractor.
(** ** [Rufus/core/synthesizer.py] *)

Module Synthesizer.

(** [_process_results]: [seen_content] is the set of fingerprints met so far;
    the list returned is [processed_results]. *)
Fixpoint _process_results_from (w : World) (seen_content : gset Z)
    (results : list pyval) : result (list pyval) :=
  match results with
  | [] => Ok []
  | result :: rest =>
      let? content := getitem_str result "content" in
      let? content_hash := py_hash w content in
      if decide (content_hash ∈ seen_content)
      then _process_results_from w seen_content rest
      else
        let? processed := _process_results_from w ({[content_hash]} ∪ seen_content) rest in
        Ok (result :: processed)
  end.

Definition _process_results (w : World) (results : list pyval) : result (list pyval) :=
  _process_results_from w ∅ results.

(** [_structure_documents]; the clock is read once per document. *)
Fixpoint _structure_documents (results : list pyval) : M (list pyval) :=
  match results with
  | [] => ret []
  | result :: rest =>
      url <- lift (getitem_str result "url") ;;
      timestamp <- now ;;
      content <- lift (getitem_str result "content") ;;
      relevance <- lift (dict_get result "relevance_score" (PInt 0)) ;;
      extracted <- lift (dict_get result "structured_data" (PDict [])) ;;
      depth <- lift (dict_get result "depth" (PInt 0)) ;;
      parent_url <- lift (dict_get result "parent_url" (PStr "")) ;;
      let doc :=
        PDict [("url", url);
               ("timestamp", PInt (Z.of_nat timestamp));
               ("content", content);
               ("metadata",
                 PDict [("relevance_score", relevance);
                        ("source", PStr "web");
                        ("extracted_data", extracted);
                        ("crawler_metadata",
                          PDict [("depth", depth); ("parent_url", parent_url)])])] in
      documents <- _structure_documents rest ;;
      ret (doc :: documents)
  end.

(** [self._format_json], [self._format_markdown], [self._format_text]: the
    class defines none of them, so reading the attribute raises. *)
Definition no_method (name : string) : exn :=
  mkExn AttributeError
    ("'DocumentSynthesizer' object has no attribute '" ++ name ++ "'").

(** [synthesize] *)
Definition synthesize (w : World) (results : list pyval) (format : string) : M Output :=
  log_and_reraise "Error synthesizing documents: "
    (processed_results <- lift (_process_results w results) ;;
     documents <- _structure_documents processed_results ;;
     if String.eqb (lower format) "json" then raise (no_method "_format_json")
     else if String.eqb (lower format) "markdown" then raise (no_method "_format_markdown")
     else if String.eqb (lower format) "text" then raise (no_method "_format_text")
     else raise (mkExn ValueError ("Unsupported format: " ++ format))).

(** [save] *)
Definition save (w : World) (documents : Output) (output_file : string) : M unit :=
  log_and_reraise "Error saving documents: "
    (lift (fs_write w output_file documents) ;;;
     emit INFO ("Saved documents to " ++ output_file)).

End Synthesizer.
(** ** [Rufus/client.py] *)

Module Client.

(** [client.SearchResult] *)
Record SearchResult := mkSearchResult {
  sr_url : string;
  sr_content : pyval;
  sr_relevance_score : Q;
  sr_topic_match : Q;
  sr_information_density : Q;
  sr_timestamp : nat
}.

(** A [SearchResult] as the Python value it is: an instance of a dataclass. *)
Definition SearchResult_obj (r : SearchResult) : pyval :=
  PObj "SearchResult"
    [("url", PStr (sr_url r));
     ("content", sr_content r);
     ("relevance_score", PFloat (sr_relevance_score r));
     ("metadata", PDict [("topic_match", PFloat (sr_topic_match r));
                         ("information_density", PFloat (sr_information_density r))]);
     ("timestamp", PInt (Z.of_nat (sr_timestamp r)))].

(** The collaborators held by a [RufusClient] ([self.crawler],
    [self.extractor], [self.ai_engine], [self.synthesizer]), as the methods
    [scrape] calls on them. *)
Record Components := mkComponents {
  crawler_crawl : string -> M pyval;
  crawler_get_links : M (list Link);
  extractor_extract : pyval -> string -> M pyval;
  ai_analyze_content_relevance : pyval -> string -> string -> M ContentScore;
  ai_suggest_navigation_paths : pyval -> list Link -> string -> M (list Suggestion);
  synthesizer_synthesize : list pyval -> string -> M Output;
  synthesizer_save : Output -> string -> M unit;
  clock_strftime : nat -> string
}.

(** The collaborators [RufusClient.__init__] creates: a [WebCrawler()], a
    [ContentExtractor()], a [RufusAIEngine] and a [DocumentSynthesizer()]. *)
Definition rufus (w : World) (max_tokens : nat) : Components :=
  {| crawler_crawl := Crawler.crawl w;
     crawler_get_links := Crawler.get_links;
     extractor_extract :=
       ContentExtractor.extract (bs_parse w)
         (ContentExtractor.__init__ (fun msg s => snd (emit WARNING msg s)));
     ai_analyze_content_relevance := Engine.analyze_content_relevance w max_tokens;
     ai_suggest_navigation_paths := Engine.suggest_navigation_paths w;
     synthesizer_synthesize := Synthesizer.synthesize w;
     synthesizer_save := Synthesizer.save w;
     clock_strftime := strftime w |}.

(** The local variables of [scrape], and two histories that the code does not
    keep: [fetched], the arguments of the calls of [crawler.crawl], and
    [saved], those of [synthesizer.save], both in call order. *)
Record LoopState := mkLoop {
  results : list SearchResult;
  visited_urls : gset string;
  urls_to_visit : list string;
  fetched : list string;
  saved : list string
}.

Definition with_queue (st : LoopState) (q : list string) : LoopState :=
  mkLoop (results st) (visited_urls st) q (fetched st) (saved st).
Definition with_fetch (st : LoopState) (u : string) : LoopState :=
  mkLoop (results st) (visited_urls st) (urls_to_visit st) (fetched st ++ [u]) (saved st).
Definition with_visit (st : LoopState) (u : string) : LoopState :=
  mkLoop (results st) ({[u]} ∪ visited_urls st) (urls_to_visit st) (fetched st) (saved st).
Definition with_result (st : LoopState) (r : SearchResult) : LoopState :=
  mkLoop (results st ++ [r]) (visited_urls st) (urls_to_visit st) (fetched st) (saved st).
Definition with_save (st : LoopState) (f : string) : LoopState :=
  mkLoop (results st) (visited_urls st) (urls_to_visit st) (fetched st) (saved st ++ [f]).

(** The suggestions enqueued by the [for page in next_pages] loop; [visited]
    does not change during that loop. *)
Definition promising (visited : gset string) (min_relevance : Q)
    (next_pages : list Suggestion) : list string :=
  map sg_url
    (filter (fun page => (sg_url page ∉ visited)
                         ∧ (float_gt (sg_relevance_score page) min_relevance = true))
            next_pages).

(** How one pass through the body of the [while] ends: normally ([None]) or
    by an exception; the local variables are given as they are at that point. *)
Definition Step : Type := option exn * LoopState * Sys.

(** The body of the [while] loop of [scrape]. *)
Definition loop_body (c : Components) (instructions : string) (min_relevance : Q)
    (st : LoopState) (sys : Sys) : Step :=
  match urls_to_visit st with
  | [] => (Some (mkExn (OtherException "IndexError") "pop from empty list"), st, sys)
  | current_url :: rest =>
    let st := with_queue st rest in
    if decide (current_url ∈ visited_urls st) then (None, st, sys)
    else
      let sys := snd (emit DEBUG ("Crawling: " ++ current_url) sys) in
      let st := with_fetch st current_url in
      match crawler_crawl c current_url sys with
      | (Raise e, sys) => (Some e, st, sys)
      | (Ok page_content, sys) =>
        let st := with_visit st current_url in
        match extractor_extract c page_content current_url sys with
        | (Raise e, sys) => (Some e, st, sys)
        | (Ok extracted_content, sys) =>
          match ai_analyze_content_relevance c extracted_content instructions
                  current_url sys with
          | (Raise e, sys) => (Some e, st, sys)
          | (Ok content_score, sys) =>
            if float_ge (relevance_score content_score) min_relevance then
              let timestamp := clock sys in
              let sys := snd (now sys) in
              let st :=
                with_result st
                  (mkSearchResult current_url extracted_content
                     (relevance_score content_score) (topic_match content_score)
                     (information_density content_score) timestamp) in
              match crawler_get_links c sys with
              | (Raise e, sys) => (Some e, st, sys)
              | (Ok links, sys) =>
                match ai_suggest_navigation_paths c extracted_content links
                        instructions sys with
                | (Raise e, sys) => (Some e, st, sys)
                | (Ok next_pages, sys) =>
                    (None,
                     with_queue st
                       (urls_to_visit st
                          ++ promising (visited_urls st) min_relevance next_pages),
                     sys)
                end
              end
            else (None, st, sys)
          end
        end
      end
  end.

(** [urls_to_visit and len(visited_urls) < max_pages] *)
Definition loop_guard (max_pages : Z) (st : LoopState) : bool :=
  match urls_to_visit st with
  | [] => false
  | _ :: _ => (Z.of_nat (size (visited_urls st)) <? max_pages)%Z
  end.

Inductive status :=
| Running
| Completed
| Failed (e : exn).

(** The [while] loop, for at most [fuel] passes; [Running] when the guard
    still holds after them. *)
Fixpoint crawl_loop (c : Components) (instructions : string) (max_pages : Z)
    (min_relevance : Q) (fuel : nat) (st : LoopState) (sys : Sys)
  : status * LoopState * Sys :=
  if loop_guard max_pages st then
    match fuel with
    | O => (Running, st, sys)
    | S fuel' =>
        match loop_body c instructions min_relevance st sys with
        | (Some e, st', sys') => (Failed e, st', sys')
        | (None, st', sys') =>
            crawl_loop c instructions max_pages min_relevance fuel' st' sys'
        end
    end
  else (Completed, st, sys).

(** [len(documents)] *)
Definition output_len (o : Output) : nat :=
  match o with
  | OutDocs docs => length docs
  | OutStr s => String.length s
  end.

(** The handler of [scrape]. *)
Definition scrape_handler (e : exn) (st : LoopState) (sys : Sys)
  : option (result Output) * LoopState * Sys :=
  (Some (Raise e), st, snd (emit ERROR ("Error during scraping: " ++ exn_msg e) sys)).

(** The [try] statement of [scrape], entered with the local variables [st]:
    the loop, the synthesis and the export.  [None] when [fuel] passes did not
    end the loop. *)
Definition scrape_from (c : Components) (output_dir : string)
    (instructions : string) (max_pages : Z) (min_relevance : Q)
    (output_format : string) (fuel : nat) (st : LoopState) (sys : Sys)
  : option (result Output) * LoopState * Sys :=
  match crawl_loop c instructions max_pages min_relevance fuel st sys with
  | (Running, st, sys) => (None, st, sys)
  | (Failed e, st, sys) => scrape_handler e st sys
  | (Completed, st, sys) =>
      match synthesizer_synthesize c (map SearchResult_obj (results st))
              output_format sys with
      | (Raise e, sys) => scrape_handler e st sys
      | (Ok documents, sys) =>
          let timestamp := clock_strftime c (clock sys) in
          let sys := snd (now sys) in
          let output_file :=
            output_dir ++ "/rufus_results_" ++ timestamp ++ "." ++ output_format in
          let st := with_save st output_file in
          match synthesizer_save c documents output_file sys with
          | (Raise e, sys) => scrape_handler e st sys
          | (Ok _, sys) =>
              let sys :=
                snd (emit INFO ("Search complete. Found "
                                ++ pretty (output_len documents)
                                ++ " relevant documents. Saved to " ++ output_file)
                       sys) in
              (Some (Ok documents), st, sys)
          end
      end
  end.

Definition initial (url : string) : LoopState := mkLoop [] ∅ [url] [] [].

(** [scrape] *)
Definition scrape (c : Components) (output_dir : string)
    (url instructions : string) (max_pages : Z) (min_relevance : Q)
    (output_format : string) (fuel : nat) (sys : Sys)
  : option (result Output) * LoopState * Sys :=
  let sys := snd (emit INFO ("Starting search with instructions: " ++ instructions) sys) in
  scrape_from c output_dir instructions max_pages min_relevance output_format
    fuel (initial url) sys.

(** [asyncio.gather] of the tasks with [return_exceptions=True], the tasks
    taken one after the other in the order of [urls]; each task has its own
    local variables. *)
Fixpoint gather (c : Components) (output_dir : string)
    (urls : list string) (instructions : string) (max_pages : Z)
    (min_relevance : Q) (output_format : string) (fuel : nat) (sys : Sys)
  : list (option (result Output)) * Sys :=
  match urls with
  | [] => ([], sys)
  | url :: rest =>
      let '(r, _, sys) :=
        scrape c output_dir url instructions max_pages min_relevance
          output_format fuel sys in
      let '(rs, sys) :=
        gather c output_dir rest instructions max_pages min_relevance
          output_format fuel sys in
      (r :: rs, sys)
  end.

(** The elements [documents.extend(result)] appends: the documents of a list,
    the characters of a string. *)
Definition items (o : Output) : list pyval :=
  match o with
  | OutDocs docs => docs
  | OutStr s => map (fun ch => PStr (String ch "")) (list_ascii_of_string s)
  end.

(** The [for result in results] loop of [scrape_multiple]. *)
Fixpoint flatten (results : list (result Output)) (documents : list pyval)
    (sys : Sys) : list pyval * Sys :=
  match results with
  | [] => (documents, sys)
  | Raise e :: rest =>
      flatten rest documents
        (snd (emit ERROR ("Error in parallel scraping: " ++ exn_msg e) sys))
  | Ok result :: rest => flatten rest (documents ++ items result) sys
  end.

(** The results of the tasks that ended; [None] if one of them did not. *)
Fixpoint ended (rs : list (option (result Output))) : option (list (result Output)) :=
  match rs with
  | [] => Some []
  | None :: _ => None
  | Some r :: rest =>
      match ended rest with
      | Some l => Some (r :: l)
      | None => None
      end
  end.

(** [scrape_multiple] *)
Definition scrape_multiple (c : Components) (output_dir : string)
    (urls : list string) (instructions : string) (max_pages : Z)
    (min_relevance : Q) (output_format : string) (fuel : nat) (sys : Sys)
  : option (list pyval) * Sys :=
  let '(rs, sys) :=
    gather c output_dir urls instructions max_pages min_relevance
      output_format fuel sys in
  match ended rs with
  | None => (None, sys)
  | Some results =>
      let '(documents, sys) := flatten results [] sys in
      (Some documents, sys)
  end.

End Client.
(** ** [Rufus/utils/helpers.py] *)

Module Helpers.
Import Str.

(** The [for keyword in keywords] loop of [score_content]; [compute_similarity]
    is the cosine of the two sentence embeddings. *)
Fixpoint total_from (compute_similarity : string -> string -> result Q)
    (extracted_content : string) (keywords : list string) (total_score : Q)
  : result Q :=
  match keywords with
  | [] => Ok total_score
  | keyword :: rest =>
      let? score := compute_similarity keyword extracted_content in
      total_from compute_similarity extracted_content rest (total_score + score)%Q
  end.

(** [score_content] *)
Definition score_content (compute_similarity : string -> string -> result Q)
    (extracted_content : string) (keywords : list string) : result Q :=
  let? total_score := total_from compute_similarity extracted_content keywords 0%Q in
  match keywords with
  | [] => Ok 0%Q
  | _ :: _ => float_div_int total_score (Z.of_nat (length keywords))
  end.

End Helpers.
(** ** Test doubles *)

(** Collaborators and worlds on which the definitions above are run. *)
Module Demo.

(** A page of a scripted site: what fetching it gives, the score of its
    content, its outbound links, and the relevance a link to it is given. *)
Record Page := mkPage {
  page_fetch : result string;
  page_score : result Q;
  page_links : list string;
  page_anchor : Q
}.

Definition missing : Page :=
  mkPage (Raise (mkExn RequestException "404 Client Error")) (Ok 0%Q) [] 0%Q.

Definition site_lookup (site : list (string * Page)) (url : string) : Page :=
  match List.find (fun p => String.eqb (fst p) url) site with
  | Some p => snd p
  | None => missing
  end.

(** Collaborators that answer from a scripted site.  The crawler of this
    double has a [get_links], which gives the links of the page crawled last;
    the synthesizer takes the records as they come and the export always
    succeeds. *)
Definition scripted (site : list (string * Page)) : Client.Components :=
  {| Client.crawler_crawl := fun url =>
       match page_fetch (site_lookup site url) with
       | Ok text => set_links (page_links (site_lookup site url)) ;;; ret (PStr text)
       | Raise e => emit ERROR ("Error crawling " ++ url ++ ": " ++ exn_msg e) ;;; raise e
       end;
     Client.crawler_get_links :=
       links <- read_links ;; ret (map (fun u => mkLink u u 1) links);
     Client.extractor_extract := fun page _ => ret page;
     Client.ai_analyze_content_relevance := fun _ _ url =>
       match page_score (site_lookup site url) with
       | Ok q => ret (mkContentScore q q q url PNone)
       | Raise e => emit ERROR ("Error analyzing content relevance: " ++ exn_msg e) ;;; raise e
       end;
     Client.ai_suggest_navigation_paths := fun _ links _ =>
       ret (Engine.sorted_by_priority
              (map (fun l =>
                      let r := page_anchor (site_lookup site (link_url l)) in
                      mkSuggestion (link_url l) (link_text l) r (r * (1 # 2)))
                   links));
     Client.synthesizer_synthesize := fun results _ => ret (OutDocs results);
     Client.synthesizer_save := fun _ _ => ret tt;
     Client.clock_strftime := fun n => pretty n |}.

(** A document without tags. *)
Definition blank : Bs4.Soup := Bs4.mkSoup None [] None None None None None [] [] [].

(** A world where nothing outside fails: every document is parsed as [blank]
    (what is not a string is refused), two strings given to the vectorizer
    have similarity 1/2 (the vectorizer rejects what is not a string) and the
    LLM answers [answer].  [get] is the network. *)
Definition world (get : string -> result string) (answer : pyval) : World :=
  {| requests_get := get;
     driver_get := fun _ => Ok tt;
     driver_page_source := get;
     bs_parse := fun markup =>
       match markup with
       | PStr _ => Ok blank
       | _ => Raise (mkExn TypeError "Incoming markup is of an invalid type")
       end;
     bs_text := fun _ => Ok "summary";
     tfidf_cosine := fun doc _ =>
       match doc with
       | PStr _ => Ok (1 # 2)
       | _ => Raise (mkExn AttributeError "object has no attribute 'lower'")
       end;
     llm_text := fun _ => Ok answer;
     parse_float := fun _ => None;
     hash_atom := fun v => match v with PStr s => Z.of_nat (String.length s) | _ => 0%Z end;
     strftime := fun n => pretty n;
     fs_write := fun _ _ => Ok tt |}.

Definition online (url : string) : result string := Ok "hello world".
Definition offline (url : string) : result string :=
  Raise (mkExn RequestException "connection refused").

Definition sys0 : Sys := mkSys [] [] 0.

(** The scenario of the specification: A scores 0.9 and links to B (0.8) and
    C (0.5). *)
Definition site_abc : list (string * Page) :=
  [("A", mkPage (Ok "page a") (Ok (9 # 10)) ["B"; "C"] 0%Q);
   ("B", mkPage (Ok "page b") (Ok (9 # 10)) [] (8 # 10));
   ("C", mkPage (Ok "page c") (Ok (9 # 10)) [] (5 # 10))].

(** A relevant page A linking to B, which is dead, and to C. *)
Definition site_dead_link : list (string * Page) :=
  [("A", mkPage (Ok "page a") (Ok (9 # 10)) ["B"; "C"] 0%Q);
   ("B", mkPage (Raise (mkExn RequestException "404 Client Error")) (Ok 0%Q) [] (9 # 10));
   ("C", mkPage (Ok "page c") (Ok (9 # 10)) [] (8 # 10))].

(** Two seeds: the first cannot be fetched, the second is relevant. *)
Definition site_two_seeds : list (string * Page) :=
  [("urlA", mkPage (Raise (mkExn RequestException "404 Client Error")) (Ok 0%Q) [] 0%Q);
   ("urlB", mkPage (Ok "page b") (Ok (9 # 10)) [] 0%Q)].

(** A page below the threshold, with a link that would rank high. *)
Definition site_pruned : list (string * Page) :=
  [("A", mkPage (Ok "page a") (Ok (1 # 10)) ["B"] 0%Q);
   ("B", mkPage (Ok "page b") (Ok (9 # 10)) [] (9 # 10))].

(** The scripted crawler, extractor and engine with the synthesizer of the
    sources. *)
Definition scripted_with (site : list (string * Page)) (w : World) : Client.Components :=
  {| Client.crawler_crawl := Client.crawler_crawl (scripted site);
     Client.crawler_get_links := Client.crawler_get_links (scripted site);
     Client.extractor_extract := Client.extractor_extract (scripted site);
     Client.ai_analyze_content_relevance :=
       Client.ai_analyze_content_relevance (scripted site);
     Client.ai_suggest_navigation_paths :=
       Client.ai_suggest_navigation_paths (scripted site);
     Client.synthesizer_synthesize := Synthesizer.synthesize w;
     Client.synthesizer_save := Synthesizer.save w;
     Client.clock_strftime := strftime w |}.

(** The scripted collaborators with a crawler that, like [WebCrawler], has
    no [get_links]. *)
Definition scripted_web_crawler (site : list (string * Page)) : Client.Components :=
  {| Client.crawler_crawl := Client.crawler_crawl (scripted site);
     Client.crawler_get_links := Crawler.get_links;
     Client.extractor_extract := Client.extractor_extract (scripted site);
     Client.ai_analyze_content_relevance :=
       Client.ai_analyze_content_relevance (scripted site);
     Client.ai_suggest_navigation_paths :=
       Client.ai_suggest_navigation_paths (scripted site);
     Client.synthesizer_synthesize := Client.synthesizer_synthesize (scripted site);
     Client.synthesizer_save := Client.synthesizer_save (scripted site);
     Client.clock_strftime := Client.clock_strftime (scripted site) |}.

(** A page and a second page with the same text. *)
Definition pageX : pyval :=
  PDict [("url", PStr "http://site/x"); ("content", PStr "same text");
         ("relevance_score", PFloat (9 # 10))].
Definition pageX_duplicate_content : pyval :=
  PDict [("url", PStr "http://site/copy"); ("content", PStr "same text")].

End Demo.
(** ** Sample inputs *)

Module Samples.

(** A world where nothing outside fails. *)
Definition quiet : World := Demo.world Demo.online PNone.

(** Three links, the second one level higher than the others. *)
Definition links : list Link :=
  [mkLink "B" "b" 1; mkLink "C" "c" 0; mkLink "D" "d" 1].

(** An extractor whose [instructions] were set from outside, as the test at
    the end of [extractor.py] means to do. *)
Definition with_instructions : ContentExtractor.Self :=
  ContentExtractor.mkSelf (fun _ s => s) (Some (PStr "test content")) None.

Definition og_title (content : string) : Bs4.Tag :=
  {[ "property" := "og:title"; "content" := content ]}.

(** The test page of [extractor.py], with two Open Graph titles. *)
Definition page : Bs4.Soup :=
  Bs4.mkSoup (Some (PStr "Test Page")) [og_title "first"; og_title "second"]
    (Some "Main Header Test paragraph") None None None
    (Some "Main Header Test paragraph")
    [Bs4.mkHeader "Main Header" [Bs4.mkSibling "p" "Test paragraph"]] []
    [PStr "{}"; PStr "[]"].

(** The quiet world with every document parsed as [page], which has two
    schema.org scripts. *)
Definition paged : World :=
  {| requests_get := requests_get quiet;
     driver_get := driver_get quiet;
     driver_page_source := driver_page_source quiet;
     bs_parse := fun _ => Ok page;
     bs_text := bs_text quiet;
     tfidf_cosine := tfidf_cosine quiet;
     llm_text := llm_text quiet;
     parse_float := parse_float quiet;
     hash_atom := hash_atom quiet;
     strftime := strftime quiet;
     fs_write := fs_write quiet |}.

(** A [RufusClient] in the quiet world. *)
Definition client : Client.Components := Client.rufus quiet 1000.

(** A similarity that is one half for every pair of texts. *)
Definition similarity (reference_text candidate_text : string) : result Q :=
  Ok (1 # 2)%Q.

End Samples.
(** ** Notions used to state the properties *)

Module Spec.

(** The text of a page record: [result["content"]]. *)
Definition content_of (r : pyval) : pyval :=
  match getitem_str r "content" with
  | Ok c => c
  | Raise _ => PNone
  end.

(** A record as [synthesize] is declared to take it: a dict with a [url] and a
    [content] that is a string. *)
Definition is_page (r : pyval) : Prop :=
  exists d u s,
    r = PDict d /\ dict_lookup d "url" = Some u /\ dict_lookup d "content" = Some (PStr s).

(** De-duplication as the specification words it, first seen wins: an element
    is kept and every later element with its key is dropped. *)
Fixpoint first_seen {A} (key : A -> Z) (l : list A) : list A :=
  match l with
  | [] => []
  | x :: l' => x :: filter (fun y => key y <> key x) (first_seen key l')
  end.


(** The invariant of the [while] loop of [scrape]: the pages fetched so far
    are distinct and are exactly the visited ones. *)
Definition loop_inv (st : Client.LoopState) : Prop :=
  NoDup (Client.fetched st)
  /\ Client.visited_urls st = list_to_set (Client.fetched st).

(** The LLM answers with text: [generations[0].text] is a string. *)
Definition llm_answers_text (w : World) : Prop :=
  forall p v, llm_text w p = Ok v -> exists s, v = PStr s.

(** The format names [synthesize] accepts. *)
Definition supported (format : string) : Prop :=
  lower format = "json" \/ lower format = "markdown" \/ lower format = "text".

(** The exception [synthesize] ends with once de-duplication and structuring
    went through. *)
Definition format_outcome (format : string) : exn :=
  if String.eqb (lower format) "json" then Synthesizer.no_method "_format_json"
  else if String.eqb (lower format) "markdown" then Synthesizer.no_method "_format_markdown"
  else if String.eqb (lower format) "text" then Synthesizer.no_method "_format_text"
  else mkExn ValueError ("Unsupported format: " ++ format).




End Spec.
(** ** More notions used to state the properties *)

Module Notions.

(** [a] may stand before [b] in a ranking: its priority is not below. *)
Definition ranks_before (a b : Suggestion) : Prop :=
  (sg_exploration_priority b <= sg_exploration_priority a)%Q.

(** The suggestions of priority [k], in the order of the list. *)
Definition of_priority (k : Q) (l : list Suggestion) : list Suggestion :=
  List.filter (fun s => Qeq_bool (sg_exploration_priority s) k) l.

(** What [score_links] builds for a link. *)
Definition scored_as (w : World) (search_goal : string) (l : Link) (s : Suggestion)
  : Prop :=
  sg_url s = link_url l
  /\ sg_text s = link_text l
  /\ tfidf_cosine w (PStr (link_text l ++ " " ++ link_url l)) search_goal
     = Ok (sg_relevance_score s)
  /\ (link_depth l <> -1)%Z
  /\ sg_exploration_priority s
     = (sg_relevance_score s * (1 / inject_Z (1 + link_depth l)))%Q.


(** A record [_process_results] can take: a dict whose [content] can be
    hashed. *)
Definition hashable_record (r : pyval) : Prop :=
  exists d c,
    r = PDict d /\ dict_lookup d "content" = Some c
    /\ match c with PList _ | PDict _ | PObj _ _ => False | _ => True end.

(** The fingerprint [_process_results] takes of a record. *)
Definition fingerprint (w : World) (r : pyval) : Z :=
  match getitem_str r "content" with
  | Ok c => match py_hash w c with Ok h => h | Raise _ => 0%Z end
  | Raise _ => 0%Z
  end.


(** A record [_structure_documents] can take: a dict with the two keys it
    subscripts. *)
Definition has_url_and_content (r : pyval) : Prop :=
  exists d u c,
    r = PDict d /\ dict_lookup d "url" = Some u /\ dict_lookup d "content" = Some c.


(** The accepted pages are pages that were fetched and marked visited, in the
    order of the fetches. *)
Definition results_inv (st : Client.LoopState) : Prop :=
  map Client.sr_url (Client.results st) `sublist_of` Client.fetched st
  /\ forall sr, sr ∈ Client.results st -> Client.sr_url sr ∈ Client.visited_urls st.


(** Every character of [s] passes the test [p]. *)
Fixpoint all_chars (p : ascii -> bool) (s : string) : bool :=
  match s with
  | EmptyString => true
  | String c s' => p c && all_chars p s'
  end.

(** A token of [str.split()]: not empty and without whitespace. *)
Definition word (s : string) : Prop :=
  s <> EmptyString /\ all_chars (fun c => negb (is_space c)) s = true.

(** [s] begins with a character that is not whitespace. *)
Definition starts_word (s : string) : Prop :=
  match s with
  | EmptyString => False
  | String c _ => is_space c = false
  end.


(** The last tag of [tags] whose [property] is [k]. *)
Definition last_with_property (k : string) (tags : list Bs4.Tag) : option Bs4.Tag :=
  last (List.filter (fun tag => String.eqb (Bs4.attr_or_empty tag "property") k) tags).

(** No tag has a [name] that counts as true. *)
Definition nameless (tags : list Bs4.Tag) : Prop :=
  Forall (fun tag => Bs4.has_attr tag "name" = false) tags.


(** The record [_extract_schema_org] logs for a script it cannot parse. *)
Definition schema_error : logrec :=
  mkLog ERROR "Error parsing schema data: name 'json' is not defined".

(** The page [crawl] returns for a URL, the content fetched and its parse. *)
Definition page_of (url content : string) (soup : Bs4.Soup) : pyval :=
  PDict [("url", PStr url); ("content", PStr content);
         ("structured_data",
           PDict [("schema_org", PDict []);
                  ("meta_tags", WebCrawler.as_dict (WebCrawler._extract_meta_tags soup));
                  ("open_graph", WebCrawler.as_dict (WebCrawler._extract_open_graph soup))]);
         ("links", PList (map PStr (Bs4.hrefs soup)))].

End Notions.
(** * Properties *)

Import Client Spec Notions Str Bs4.

(** ** Comparisons of floats *)

Lemma float_ge_true (a b : Q) : float_ge a b = true <-> (b <= a)%Q.
Proof. unfold float_ge. apply Qle_bool_iff. Qed.

Lemma float_ge_false (a b : Q) : float_ge a b = false <-> (a < b)%Q.
Proof.
  unfold float_ge. rewrite <- not_true_iff_false, Qle_bool_iff.
  split; [apply Qnot_le_lt | apply Qlt_not_le].
Qed.

Lemma float_gt_true (a b : Q) : float_gt a b = true <-> (b < a)%Q.
Proof.
  unfold float_gt. rewrite negb_true_iff, <- not_true_iff_false, Qle_bool_iff.
  split; [apply Qnot_le_lt | apply Qlt_not_le].
Qed.

Lemma float_gt_false (a b : Q) : float_gt a b = false <-> (a <= b)%Q.
Proof.
  unfold float_gt. rewrite negb_false_iff. apply Qle_bool_iff.
Qed.

(** ** Exploration priority ([engine.py], [_calculate_exploration_priority]) *)

(** For a depth that is not negative the division is defined and the priority
    is the relevance times [1 / (1 + depth)]. *)
Lemma priority_value (r : Q) (d : Z) :
  (0 <= d)%Z ->
  Engine._calculate_exploration_priority r d = Ok (r * (1 / inject_Z (1 + d)))%Q.
Proof.
  intros Hd. unfold Engine._calculate_exploration_priority, truediv, and_then.
  destruct (Z.eqb_spec (1 + d) 0) as [E|_]; [lia | reflexivity].
Qed.

(** The depth penalty does not grow with the depth. *)
Lemma depth_penalty_decreases (d : Z) :
  (0 <= d)%Z -> (1 / inject_Z (1 + (d + 1)) <= 1 / inject_Z (1 + d))%Q.
Proof.
  intros Hd. unfold Qdiv. rewrite !Qmult_1_l.
  assert (Ha : (0 < inject_Z (1 + d))%Q).
  { change (inject_Z 0 < inject_Z (1 + d))%Q. rewrite <- Zlt_Qlt. lia. }
  assert (Hb : (0 < inject_Z (1 + (d + 1)))%Q).
  { change (inject_Z 0 < inject_Z (1 + (d + 1)))%Q. rewrite <- Zlt_Qlt. lia. }
  apply Qlt_le_weak, (proj1 (Qinv_lt_contravar _ _ Ha Hb)).
  rewrite <- Zlt_Qlt. lia.
Qed.

(** C6, amended.  For every relevance [r] and every depth [d >= 0] the
    priority is [r * (1 / (1 + d))]; one more hop never gives a larger
    priority when [r >= 0], and gives the same priority (zero) when [r = 0].
    No strict decrease is stated: it fails at relevance 0, and the floats of
    the code round (see [priority_underflows]). *)
Theorem exploration_priority_depth (r : Q) (d : Z) :
  (0 <= d)%Z ->
  exists p p',
    Engine._calculate_exploration_priority r d = Ok p
    /\ Engine._calculate_exploration_priority r (d + 1) = Ok p'
    /\ (p == r * (1 / inject_Z (1 + d)))%Q
    /\ (r == 0 -> p' == p)%Q
    /\ (0 <= r -> p' <= p)%Q.
Proof.
  intros Hd.
  exists (r * (1 / inject_Z (1 + d)))%Q, (r * (1 / inject_Z (1 + (d + 1))))%Q.
  split; [by apply priority_value|].
  split; [apply priority_value; lia|].
  split; [reflexivity|].
  pose proof (depth_penalty_decreases d Hd) as Hpen.
  split.
  - intros Hr. rewrite Hr, !Qmult_0_l. reflexivity.
  - intros Hr. rewrite !(Qmult_comm r).
    by apply Qmult_le_compat_r.
Qed.

(** The amended C6 at relevance 1/2 and depth 0. *)
Lemma exploration_priority_depth_witness :
  exists p p',
    Engine._calculate_exploration_priority (1 # 2) 0 = Ok p
    /\ Engine._calculate_exploration_priority (1 # 2) (0 + 1) = Ok p'
    /\ (p == (1 # 2) * (1 / inject_Z (1 + 0)))%Q
    /\ ((1 # 2) == 0 -> p' == p)%Q
    /\ (0 <= 1 # 2 -> p' <= p)%Q.
Proof. apply (exploration_priority_depth (1 # 2) 0). lia. Defined.

(** C6 as stated fails at relevance 0: the priorities at depth 0 and at depth 1
    are both 0, so the first is not strictly above the second. *)
Lemma priority_constant_at_zero :
  ~ (exists p0 p1,
       Engine._calculate_exploration_priority 0 0 = Ok p0
       /\ Engine._calculate_exploration_priority 0 1 = Ok p1
       /\ (p1 < p0)%Q).
Proof.
  intros (p0 & p1 & H0 & H1 & Hlt).
  vm_compute in H0, H1. injection H0 as <-. injection H1 as <-.
  vm_compute in Hlt. discriminate.
Qed.

(** In the arithmetic of the code a positive relevance does not make the
    decrease strict either: at the relevance [5e-324] the priorities at
    depths 1 and 2 are both [0.0]. *)
Example priority_underflows :
  PrimFloat.ltb 0 Binary64.tiny = true
  /\ Binary64.priority Binary64.tiny 1 = 0%float
  /\ Binary64.priority Binary64.tiny 2 = 0%float
  /\ PrimFloat.ltb (Binary64.priority Binary64.tiny 2)
       (Binary64.priority Binary64.tiny 1) = false.
Proof. vm_compute. repeat split. Qed.

(** The ranking returns the suggestions it was given, reordered. *)
Lemma insert_desc_perm (x : Suggestion) (l : list Suggestion) :
  Engine.insert_desc x l ≡ₚ x :: l.
Proof.
  induction l as [|y l IH]; cbn [Engine.insert_desc]; [done|].
  destruct (float_gt _ _); [|done].
  rewrite IH. apply Permutation_swap.
Qed.

Lemma sorted_by_priority_perm (l : list Suggestion) :
  Engine.sorted_by_priority l ≡ₚ l.
Proof.
  induction l as [|x l IH]; cbn; [done|].
  rewrite insert_desc_perm. by rewrite IH.
Qed.

(** Higher priority first; equal priorities keep the input order. *)
Example ranking_is_stable :
  map sg_url
    (Engine.sorted_by_priority
       [mkSuggestion "a" "a" (1 # 2) (1 # 4); mkSuggestion "b" "b" (9 # 10) (9 # 20);
        mkSuggestion "c" "c" (1 # 2) (2 # 8)])
  = ["b"; "a"; "c"].
Proof. reflexivity. Qed.

(** ** Exploration priority, bounds ([engine.py]) *)

(** X4.  [_calculate_exploration_priority] raises exactly at depth -1, where
    it divides by zero; for a relevance and a depth that are not negative the
    priority lies between 0 and the relevance, and equals the relevance at
    depth 0. *)
Theorem exploration_priority_bounds (relevance : Q) (depth : Z) :
  (Engine._calculate_exploration_priority relevance depth
   = Raise (mkExn ZeroDivisionError "division by zero") <-> depth = (-1)%Z)
  /\ (depth <> (-1)%Z ->
      exists p, Engine._calculate_exploration_priority relevance depth = Ok p
                /\ ((0 <= relevance)%Q -> (0 <= depth)%Z ->
                    (0 <= p /\ p <= relevance)%Q
                    /\ (depth = 0%Z -> (p == relevance)%Q))).
Proof.
  unfold Engine._calculate_exploration_priority, truediv, and_then.
  destruct (Z.eqb_spec (1 + depth) 0) as [E|NE].
  - split; [split; [intros _; lia | done]|]. intros H. exfalso. lia.
  - split; [split; [done | intros H; exfalso; lia]|]. intros _. eexists. split; [reflexivity|].
    intros Hr Hd.
    assert (Hpos : (0 < inject_Z (1 + depth))%Q).
    { change (inject_Z 0 < inject_Z (1 + depth))%Q. rewrite <- Zlt_Qlt. lia. }
    assert (Hpen : (0 <= inject_Z 1 / inject_Z (1 + depth)
                    /\ inject_Z 1 / inject_Z (1 + depth) <= 1)%Q).
    { split.
      - apply Qle_shift_div_l; [exact Hpos|]. rewrite Qmult_0_l. done.
      - apply Qle_shift_div_r; [exact Hpos|]. rewrite Qmult_1_l.
        rewrite <- Zle_Qle. lia. }
    destruct Hpen as [Hp0 Hp1]. split; [split|].
    + by apply Qmult_le_0_compat.
    + rewrite <- (Qmult_1_r relevance) at 2.
      rewrite !(Qmult_comm relevance). by apply Qmult_le_compat_r.
    + intros ->. cbn. rewrite Qmult_1_r. reflexivity.
Qed.

(** ** Information density ([engine.py], [analyze_content_relevance]) *)

(** C8.  The sub-score is the number of distinct tokens over the number of
    tokens when the content has a token; on the empty string, and on any
    content without a token, the division is not guarded and raises
    [ZeroDivisionError], which [analyze_content_relevance] logs and re-raises. *)
Theorem information_density_unguarded :
  Engine._information_density (PStr EmptyString)
    = Raise (mkExn ZeroDivisionError "division by zero")
  /\ (forall s : string,
        Engine._information_density (PStr s)
        = match str_split s with
          | [] => Raise (mkExn ZeroDivisionError "division by zero")
          | _ :: _ =>
              Ok (inject_Z (Z.of_nat (size (list_to_set (str_split s) : gset string)))
                  / inject_Z (Z.of_nat (length (str_split s))))%Q
          end)
  /\ fst (Engine.analyze_content_relevance
            (Demo.world Demo.online (PDict [("relevance", PFloat (9 # 10));
                                            ("key_information", PStr "k")]))
            1000 (PStr EmptyString) "goal" "A" Demo.sys0)
     = Raise (mkExn ZeroDivisionError "division by zero").
Proof.
  split; [reflexivity|]. split; [|reflexivity].
  intros s. unfold Engine._information_density, split, and_then, truediv.
  destruct (str_split s) as [|t l]; [reflexivity|].
  destruct (Z.eqb_spec (Z.of_nat (length (t :: l))) 0) as [E|_]; [|reflexivity].
  simpl in E. lia.
Qed.

(** ** The scorer ([engine.py]) *)

Lemma size_list_to_set_le (l : list string) :
  (size (list_to_set l : gset string) <= length l)%nat.
Proof.
  induction l as [|x l IH]; cbn [list_to_set foldr length].
  - by rewrite size_empty.
  - rewrite size_union_alt, size_singleton.
    assert (size (list_to_set l ∖ {[x]} : gset string) <= size (list_to_set l : gset string))%nat
      by (apply subseteq_size; set_solver).
    lia.
Qed.

Lemma size_list_to_set_pos (x : string) (l : list string) :
  (0 < size (list_to_set (x :: l) : gset string))%nat.
Proof.
  cbn [list_to_set foldr]. rewrite size_union_alt, size_singleton. lia.
Qed.

(** The density of a text with at least one token lies in (0, 1]. *)
Lemma information_density_range (content : pyval) (q : Q) :
  Engine._information_density content = Ok q -> (0 < q /\ q <= 1)%Q.
Proof.
  unfold Engine._information_density, Py.split, and_then, truediv.
  destruct content as [| | | |s| | |]; try done.
  destruct (str_split s) as [|t l] eqn:Htok; [done|].
  destruct (Z.eqb_spec (Z.of_nat (length (t :: l))) 0) as [E|NE]; [done|].
  intros [= <-].
  pose proof (size_list_to_set_le (t :: l)) as Hle.
  pose proof (size_list_to_set_pos t l) as Hpos.
  set (n := size (list_to_set (t :: l) : gset string)) in *.
  set (m := length (t :: l)) in *.
  assert (Hm : (0 < inject_Z (Z.of_nat m))%Q).
  { change (inject_Z 0 < inject_Z (Z.of_nat m))%Q. rewrite <- Zlt_Qlt. lia. }
  split.
  - apply Qlt_shift_div_l; [exact Hm|]. rewrite Qmult_0_l.
    change (inject_Z 0 < inject_Z (Z.of_nat n))%Q. rewrite <- Zlt_Qlt.
    change (0 < Z.of_nat n)%Z. lia.
  - apply Qle_shift_div_r; [exact Hm|]. rewrite Qmult_1_l.
    rewrite <- Zle_Qle. change (Z.of_nat n <= Z.of_nat m)%Z. lia.
Qed.

Lemma size_list_to_set_NoDup (l : list string) :
  size (list_to_set l : gset string) = length l <-> NoDup l.
Proof.
  split; [|apply size_list_to_set].
  induction l as [|x l IH]; [constructor|].
  cbn [list_to_set foldr length]. intros Hsize.
  pose proof (size_list_to_set_le l) as Hle.
  destruct (decide (x ∈ l)) as [Hin|Hout].
  - assert (Heq : ({[x]} ∪ list_to_set l : gset string) = list_to_set l) by set_solver.
    rewrite Heq in Hsize. lia.
  - rewrite size_union, size_singleton in Hsize by set_solver.
    constructor; [done|]. apply IH. lia.
Qed.

Lemma Qdiv_one (x y : Q) : ~ (y == 0)%Q -> ((x / y == 1)%Q <-> (x == y)%Q).
Proof.
  intros Hy. split; intros H.
  - rewrite <- (Qmult_div_r x y Hy), H. apply Qmult_1_r.
  - rewrite H. unfold Qdiv. by apply Qmult_inv_r.
Qed.

(** X3.  Whenever [_information_density] returns, the content is a string
    with at least one token and the density lies in (0, 1]; it is 1 exactly
    when no token occurs twice.  Whenever it raises, the exception is the
    [ZeroDivisionError] of a content without a token or the [AttributeError]
    of a content that is no string. *)
Theorem information_density_bounds (content : pyval) :
  match Engine._information_density content with
  | Ok density =>
      (0 < density /\ density <= 1)%Q
      /\ exists text, content = PStr text
                      /\ str_split text <> []
                      /\ ((density == 1)%Q <-> NoDup (str_split text))
  | Raise e => exn_cls e = ZeroDivisionError \/ exn_cls e = AttributeError
  end.
Proof.
  destruct (Engine._information_density content) as [density|e] eqn:Hd.
  - split; [by apply (information_density_range content)|].
    revert Hd. unfold Engine._information_density, Py.split, and_then, truediv.
    destruct content as [| | | |text| | |]; try done.
    destruct (str_split text) as [|t l] eqn:Htok; [done|].
    destruct (Z.eqb_spec (Z.of_nat (length (t :: l))) 0) as [E|NE]; [done|].
    intros [= <-]. exists text. split; [done|]. rewrite Htok. split; [done|].
    rewrite <- size_list_to_set_NoDup.
    set (n := size (list_to_set (t :: l) : gset string)).
    set (m := length (t :: l)) in *.
    assert (Hm : ~ (inject_Z (Z.of_nat m) == 0)%Q).
    { change (~ (inject_Z (Z.of_nat m) == inject_Z 0)%Q). rewrite inject_Z_injective. lia. }
    change ((inject_Z (Z.of_nat n) / inject_Z (Z.of_nat m) == 1)%Q <-> n = m).
    rewrite (Qdiv_one _ _ Hm), inject_Z_injective. lia.
  - revert Hd. unfold Engine._information_density, Py.split, and_then, truediv.
    destruct content as [| | | |text| | |]; try (intros [= <-]; by right).
    destruct (str_split text) as [|t l]; [intros [= <-]; by left|].
    destruct (Z.eqb_spec (Z.of_nat (length (t :: l))) 0) as [E|NE]; [|done].
    intros [= <-]. by left.
Qed.

(** ** The link ranking ([engine.py], [suggest_navigation_paths]) *)

Lemma insert_desc_sorted (x : Suggestion) (l : list Suggestion) :
  StronglySorted ranks_before l -> StronglySorted ranks_before (Engine.insert_desc x l).
Proof.
  induction 1 as [|y l Hl IH Hy]; cbn [Engine.insert_desc].
  - repeat constructor.
  - destruct (float_gt _ _) eqn:Hgt.
    + constructor; [exact IH|].
      rewrite insert_desc_perm. constructor; [|exact Hy].
      apply float_gt_true in Hgt. by apply Qlt_le_weak.
    + apply float_gt_false in Hgt.
      constructor; [by constructor|]. constructor; [exact Hgt|].
      eapply Forall_impl; [exact Hy|]. intros z Hz. unfold ranks_before in *.
      eapply Qle_trans; [exact Hz | exact Hgt].
Qed.

Lemma sorted_by_priority_descending (l : list Suggestion) :
  StronglySorted ranks_before (Engine.sorted_by_priority l).
Proof.
  induction l as [|x l IH]; cbn; [constructor|]. by apply insert_desc_sorted.
Qed.

Lemma insert_desc_filter (k : Q) (x : Suggestion) (l : list Suggestion) :
  of_priority k (Engine.insert_desc x l) = of_priority k (x :: l).
Proof.
  unfold of_priority.
  induction l as [|y l IH]; cbn [Engine.insert_desc]; [done|].
  destruct (float_gt _ _) eqn:Hgt; [|done].
  cbn [List.filter] in *. rewrite IH.
  destruct (Qeq_bool (sg_exploration_priority x) k) eqn:Hx; [|done].
  destruct (Qeq_bool (sg_exploration_priority y) k) eqn:Hy; [|done].
  apply Qeq_bool_iff in Hx, Hy. apply float_gt_true in Hgt.
  rewrite Hx, Hy in Hgt. by apply Qlt_irrefl in Hgt.
Qed.

Lemma sorted_by_priority_stable (k : Q) (l : list Suggestion) :
  of_priority k (Engine.sorted_by_priority l) = of_priority k l.
Proof.
  induction l as [|x l IH]; [done|].
  cbn [Engine.sorted_by_priority fold_right].
  rewrite insert_desc_filter. unfold of_priority in *. cbn [List.filter].
  fold (Engine.sorted_by_priority l). by rewrite IH.
Qed.

Lemma score_links_ok (w : World) (search_goal : string) (links : list Link) :
  forall scored,
    Engine.score_links w search_goal links = Ok scored ->
    Forall2 (scored_as w search_goal) links scored.
Proof.
  induction links as [|l links IH]; intros scored; cbn [Engine.score_links].
  - intros [= <-]. constructor.
  - unfold Engine._estimate_link_relevance, Engine._calculate_exploration_priority,
      truediv, and_then.
    destruct (tfidf_cosine w _ search_goal) as [r|e] eqn:Hr; [|done].
    destruct (Z.eqb_spec (1 + link_depth l) 0) as [E|NE]; [done|].
    destruct (Engine.score_links w search_goal links) as [rest|e]; [|done].
    intros [= <-]. constructor; [|by apply IH].
    repeat split; try done. cbn. lia.
Qed.

(** X1.  When [suggest_navigation_paths] returns, it returns one suggestion for
    every link it was given, reordered by priority: each carries the URL and
    text of its link, the estimated relevance, and that relevance times
    [1 / (1 + depth)]; no link had depth -1; nothing was logged. *)
Theorem suggestions_cover_links (w : World) (content : pyval) (links : list Link)
    (search_goal : string) (sys : Sys) :
  forall out sys',
    Engine.suggest_navigation_paths w content links search_goal sys = (Ok out, sys') ->
    sys' = sys
    /\ length out = length links
    /\ exists scored,
         Forall2 (scored_as w search_goal) links scored
         /\ out ≡ₚ scored
         /\ out = Engine.sorted_by_priority scored.
Proof.
  intros out sys'.
  unfold Engine.suggest_navigation_paths, log_and_reraise, try_except, bind, lift, ret.
  destruct (Engine._summarize_content w content) as [summary|e]; [|done].
  destruct (llm_text w _) as [answer|e]; [|done].
  destruct (Engine.score_links w search_goal links) as [scored|e] eqn:Hs; [|done].
  intros [= <- <-]. split; [done|].
  pose proof (score_links_ok _ _ _ _ Hs) as H2.
  split.
  - rewrite (Permutation_length (sorted_by_priority_perm scored)).
    symmetry. by eapply Forall2_length.
  - exists scored. split; [done|]. split; [apply sorted_by_priority_perm | done].
Qed.

(** X2.  The suggestions [suggest_navigation_paths] returns are in descending
    order of exploration priority (not of relevance), and the ordering is
    stable: the suggestions of any one priority come out in the order of
    their links. *)
Theorem suggestions_ranked (w : World) (content : pyval) (links : list Link)
    (search_goal : string) (sys : Sys) :
  forall out sys',
    Engine.suggest_navigation_paths w content links search_goal sys = (Ok out, sys') ->
    StronglySorted ranks_before out
    /\ exists scored,
         Engine.score_links w search_goal links = Ok scored
         /\ forall k, of_priority k out = of_priority k scored.
Proof.
  intros out sys'.
  unfold Engine.suggest_navigation_paths, log_and_reraise, try_except, bind, lift, ret.
  destruct (Engine._summarize_content w content) as [summary|e]; [|done].
  destruct (llm_text w _) as [answer|e]; [|done].
  destruct (Engine.score_links w search_goal links) as [scored|e] eqn:Hs; [|done].
  intros [= <- <-]. split; [apply sorted_by_priority_descending|].
  exists scored. split; [done|]. intros k. apply sorted_by_priority_stable.
Qed.

(** X1 on three links in the quiet world. *)
Lemma suggestions_cover_links_witness :
  exists out,
    Engine.suggest_navigation_paths Samples.quiet (PStr "page") Samples.links
      "goal" Demo.sys0 = (Ok out, Demo.sys0)
    /\ length out = length Samples.links.
Proof.
  eexists. split; [reflexivity|].
  destruct (suggestions_cover_links Samples.quiet (PStr "page") Samples.links
              "goal" Demo.sys0 _ _ eq_refl) as (_ & Hlen & _).
  exact Hlen.
Defined.

(** X2 on the same links: the link one level higher comes first. *)
Lemma suggestions_ranked_witness :
  exists out,
    Engine.suggest_navigation_paths Samples.quiet (PStr "page") Samples.links
      "goal" Demo.sys0 = (Ok out, Demo.sys0)
    /\ map sg_url out = ["C"; "B"; "D"]
    /\ StronglySorted ranks_before out.
Proof.
  eexists. split; [reflexivity|]. split; [reflexivity|].
  destruct (suggestions_ranked Samples.quiet (PStr "page") Samples.links
              "goal" Demo.sys0 _ _ eq_refl) as (Hsorted & _).
  exact Hsorted.
Defined.

(** ** The fetcher ([crawler.py], [crawl]) *)

Lemma prefix_spec (a s : string) :
  String.prefix a s = true <-> exists b, s = a ++ b.
Proof.
  revert s. induction a as [|c a IH]; intros s.
  - split; [intros _; by exists s | intros _; by destruct s].
  - destruct s as [|d s]; simpl.
    + split; [done | by intros [b [=]]].
    + destruct (Ascii.ascii_dec c d) as [->|NE].
      * rewrite IH. split; intros [b Hb]; exists b; [by rewrite Hb | by injection Hb].
      * split; [done|]. intros [b [= E _]]. done.
Qed.

(** [contains] is the substring test of Python's [in]. *)
Lemma contains_spec (sub s : string) :
  contains sub s = true <-> exists a b, s = a ++ sub ++ b.
Proof.
  induction s as [|c s IH]; cbn [contains].
  - rewrite orb_false_r, prefix_spec. split.
    + intros [b Hb]. by exists EmptyString, b.
    + intros (a & b & Hab). destruct a; [by exists b | done].
  - rewrite orb_true_iff, prefix_spec, IH. split.
    + intros [[b Hb]|(a & b & Hab)].
      * by exists EmptyString, b.
      * exists (String c a), b. cbn. by rewrite Hab.
    + intros (a & b & Hab). destruct a as [|d a].
      * left. by exists b.
      * right. injection Hab as _ Hab. by exists a, b.
Qed.

Lemma lower_char_idem (c : ascii) : lower_char (lower_char c) = lower_char c.
Proof. destruct c as [[] [] [] [] [] [] [] []]; reflexivity. Qed.

Lemma lower_idem (s : string) : lower (lower s) = lower s.
Proof.
  induction s as [|c s IH]; cbn; [done|]. by rewrite lower_char_idem, IH.
Qed.

(** X5.  A response is taken for a page with dynamic content exactly when
    its lower-case form holds [<script] somewhere, whatever the case of the
    letters in the response. *)
Theorem dynamic_detection (response : string) :
  (Crawler._might_have_dynamic_content response = true
   <-> exists a b, lower response = a ++ "<script" ++ b)
  /\ Crawler._might_have_dynamic_content (lower response)
     = Crawler._might_have_dynamic_content response.
Proof.
  unfold Crawler._might_have_dynamic_content. split.
  - apply contains_spec.
  - by rewrite lower_idem.
Qed.

Lemma schema_org_from_spec (schema_tags : list pyval) :
  forall sys,
    WebCrawler.schema_org_from schema_tags sys
    = (Ok tt, mkSys (crawler_links sys)
                (log sys ++ repeat schema_error (length schema_tags)) (clock sys)).
Proof.
  induction schema_tags as [|tag rest IH]; intros sys.
  - cbn. rewrite app_nil_r. by destruct sys.
  - cbn [WebCrawler.schema_org_from]. unfold bind at 1. unfold emit at 1.
    rewrite IH. cbn. by rewrite <- app_assoc.
Qed.

(** What [crawl] does once the content is there: [self.links] becomes the
    links of the content, and one error is logged for every schema.org
    script; the second parse of the same content cannot fail where the first
    did not. *)
Lemma crawl_reads_page (w : World) (url content : string) (sys : Sys) :
  (links <- lift (WebCrawler._extract_links w content) ;;
   set_links links ;;;
   structured_data <- WebCrawler._extract_structured_data w content ;;
   ret (PDict [("url", PStr url); ("content", PStr content);
               ("structured_data", structured_data);
               ("links", PList (map PStr links))]))%py sys
  = match bs_parse w (PStr content) with
    | Ok soup =>
        (Ok (page_of url content soup),
         mkSys (hrefs soup)
           (log sys ++ repeat schema_error (length (schema_scripts soup))) (clock sys))
    | Raise e => (Raise e, sys)
    end.
Proof.
  unfold WebCrawler._extract_links, WebCrawler._extract_structured_data,
    WebCrawler._extract_schema_org, bind, lift, set_links, ret.
  destruct (bs_parse w (PStr content)) as [soup|e]; cbn [and_then]; [|done].
  by rewrite schema_org_from_spec.
Qed.

(** X6.  When [crawl] returns, the page it returns holds the URL asked for,
    the content, the links of that content, which are now the links of the
    crawler, and the structured data, whose [schema_org] part is empty: the
    module never imports [json], so one error
    ["Error parsing schema data: name 'json' is not defined"] is logged for
    every schema.org script of the page, and nothing else is.  The content is
    the page source of the browser when the response looks dynamic and the
    response itself otherwise.  When [crawl] raises, the last record logged
    is its error ["Error crawling <url>: ..."], and the links of the crawler
    are unchanged. *)
Theorem crawl_outcome (w : World) (url : string) (sys : Sys) :
  let '(r, sys') := Crawler.crawl w url sys in
  match r with
  | Ok page =>
      exists response content soup,
        requests_get w url = Ok response
        /\ (if Crawler._might_have_dynamic_content response
            then driver_page_source w url = Ok content
            else content = response)
        /\ bs_parse w (PStr content) = Ok soup
        /\ page = page_of url content soup
        /\ sys' = mkSys (hrefs soup)
                    (log sys ++ repeat schema_error (length (schema_scripts soup)))
                    (clock sys)
  | Raise e =>
      last (log sys')
      = Some (mkLog ERROR (("Error crawling " ++ url ++ ": ") ++ exn_msg e))
      /\ clock sys' = clock sys
      /\ crawler_links sys' = crawler_links sys
      /\ (forall e', requests_get w url = Raise e' -> e = e')
  end.
Proof.
  unfold Crawler.crawl, log_and_reraise, try_except.
  unfold bind at 1.
  destruct (Crawler._make_request w url sys) as [[response|e] sys1] eqn:Hreq.
  - assert (Hget : requests_get w url = Ok response /\ sys1 = sys).
    { revert Hreq. unfold Crawler._make_request, try_except, lift, bind, emit, raise.
      destruct (requests_get w url) as [x|e]; [by intros [= <- <-]|].
      by destruct (exn_cls e). }
    destruct Hget as [Hget ->]. unfold bind at 1.
    destruct (Crawler._might_have_dynamic_content response) eqn:Hdyn.
    + destruct (Crawler._handle_dynamic_content w url sys) as [[content|e] sys2] eqn:Hsrc.
      * assert (Hpage : driver_page_source w url = Ok content /\ sys2 = sys).
        { revert Hsrc.
          unfold Crawler._handle_dynamic_content, log_and_reraise, try_except,
            lift, bind, emit, raise.
          destruct (driver_get w url) as [[]|e]; [|done].
          destruct (driver_page_source w url) as [x|e]; [by intros [= <- <-]|done]. }
        destruct Hpage as [Hpage ->].
        rewrite crawl_reads_page.
        destruct (bs_parse w (PStr content)) as [soup|e] eqn:Hparse.
        -- exists response, content, soup. by rewrite Hdyn.
        -- cbn. rewrite last_snoc. repeat split. congruence.
      * revert Hsrc.
        unfold Crawler._handle_dynamic_content, log_and_reraise, try_except,
          lift, bind, emit, raise.
        destruct (driver_get w url) as [[]|e0];
          [destruct (driver_page_source w url) as [x|e0]; [done|]|];
          intros [= <- <-]; cbn; rewrite last_snoc; repeat split; congruence.
    + unfold ret at 1. rewrite crawl_reads_page.
      destruct (bs_parse w (PStr response)) as [soup|e] eqn:Hparse.
      * exists response, response, soup. by rewrite Hdyn.
      * cbn. rewrite last_snoc. repeat split. congruence.
  - revert Hreq. unfold Crawler._make_request, try_except, lift, bind, emit, raise.
    destruct (requests_get w url) as [x|e0]; [done|].
    destruct (exn_cls e0); intros [= <- <-]; cbn; rewrite last_snoc;
      repeat split; congruence.
Qed.

(** On the sample page, which holds two schema.org scripts, [crawl] returns
    and two errors are logged. *)
Example crawl_logs_schema_errors :
  let '(r, sys') := Crawler.crawl Samples.paged "A" Demo.sys0 in
  r = Ok (page_of "A" "hello world" Samples.page)
  /\ log sys' = [schema_error; schema_error].
Proof. vm_compute. split; reflexivity. Qed.

(** ** Meta tags and Open Graph data ([crawler.py]) *)

Lemma fold_insert_lookup {V} (step : gmap string V -> Tag -> gmap string V)
    (cond : Tag -> bool) (key : Tag -> string) (val : Tag -> V) (tags : list Tag) :
  (forall tag m, tag ∈ tags ->
                 step m tag = if cond tag then <[key tag := val tag]> m else m) ->
  forall m0 k,
    fold_left step tags m0 !! k
    = match last (List.filter (fun tag => cond tag && String.eqb (key tag) k) tags) with
      | Some tag => Some (val tag)
      | None => m0 !! k
      end.
Proof.
  induction tags as [|tag tags IH]; intros Hstep m0 k; [done|].
  cbn [fold_left List.filter].
  rewrite IH by (intros t m Ht; apply Hstep; by apply list_elem_of_further).
  rewrite (Hstep tag m0) by apply list_elem_of_here.
  destruct (cond tag); cbn [andb].
  - destruct (String.eqb_spec (key tag) k) as [Hk|Hk].
    + destruct (List.filter _ tags) as [|t ts] eqn:E.
      * cbn. by rewrite Hk, lookup_insert_eq.
      * change (last (tag :: t :: ts)) with (last (t :: ts)).
        destruct (last (t :: ts)) eqn:El; [done|]. by apply last_None in El.
    + destruct (last _); [done|]. by rewrite lookup_insert_ne.
  - done.
Qed.

Lemma filter_og_property (k : string) (tags : list Tag) :
  List.filter (fun tag => String.prefix "og:" (attr_or_empty tag "property")
                          && String.eqb (attr_or_empty tag "property") k) tags
  = if String.prefix "og:" k
    then List.filter (fun tag => String.eqb (attr_or_empty tag "property") k) tags
    else [].
Proof.
  induction tags as [|tag tags IH]; [by destruct (String.prefix "og:" k)|].
  cbn [List.filter]. rewrite IH.
  destruct (String.eqb_spec (attr_or_empty tag "property") k) as [->|Hne].
  - by destruct (String.prefix "og:" k).
  - rewrite andb_false_r. done.
Qed.

Lemma open_graph_lookup (soup : Soup) (k : string) :
  WebCrawler._extract_open_graph soup !! k
  = if String.prefix "og:" k
    then (fun tag : Tag => tag !! "content") <$> last_with_property k (metas soup)
    else None.
Proof.
  unfold WebCrawler._extract_open_graph, last_with_property.
  rewrite (fold_insert_lookup _
             (fun tag => String.prefix "og:" (attr_or_empty tag "property"))
             (fun tag => attr_or_empty tag "property")
             (fun tag => tag !! "content")) by done.
  rewrite filter_og_property.
  destruct (String.prefix "og:" k); [|done].
  by destruct (last _).
Qed.

(** X21.  The dict [WebCrawler._extract_open_graph] builds: its keys are
    exactly the [property] values that start with [og:] of the [meta] tags
    of the page, and under each the [content] of the last tag with that
    property, [None] when that tag has no [content]. *)
Theorem open_graph_entries (soup : Soup) (k : string) :
  WebCrawler._extract_open_graph soup !! k
  = if String.prefix "og:" k
    then (fun tag : Tag => tag !! "content") <$> last_with_property k (metas soup)
    else None.
Proof. apply open_graph_lookup. Qed.

Lemma filter_truthy_property (k : string) (tags : list Tag) :
  List.filter (fun tag => has_attr tag "property"
                          && String.eqb (attr_or_empty tag "property") k) tags
  = if String.eqb k ""
    then []
    else List.filter (fun tag => String.eqb (attr_or_empty tag "property") k) tags.
Proof.
  induction tags as [|tag tags IH]; [by destruct (String.eqb k "")|].
  cbn [List.filter]. rewrite IH.
  unfold has_attr, attr_or_empty.
  destruct (tag !! "property") as [p|]; cbn [andb].
  - destruct (String.eqb_spec p k) as [->|Hne].
    + rewrite andb_true_r. by destruct (String.eqb k "").
    + by rewrite andb_false_r.
  - destruct (String.eqb_spec "" k) as [<-|Hne]; [done|].
    by destruct (String.eqb k "").
Qed.

Lemma meta_tags_lookup (soup : Soup) (k : string) :
  nameless (metas soup) ->
  WebCrawler._extract_meta_tags soup !! k
  = if String.eqb k ""
    then None
    else (fun tag : Tag => tag !! "content") <$> last_with_property k (metas soup).
Proof.
  intros Hnameless.
  unfold WebCrawler._extract_meta_tags, last_with_property.
  rewrite (fold_insert_lookup _
             (fun tag => has_attr tag "property")
             (fun tag => attr_or_empty tag "property")
             (fun tag => tag !! "content")).
  - rewrite filter_truthy_property.
    destruct (String.eqb k ""); [done|]. by destruct (last _).
  - intros tag m Htag.
    by rewrite (proj1 (Forall_forall _ _) Hnameless tag Htag).
Qed.

(** X22.  On a page whose [meta] tags carry no [name], the Open Graph data of
    [WebCrawler._extract_open_graph] is part of the dict of
    [_extract_meta_tags]: the same keys with the same values.  (A [name]
    takes precedence over the [property] in [_extract_meta_tags], so the
    inclusion can fail with it.) *)
Theorem open_graph_in_meta_tags (soup : Soup) :
  nameless (metas soup) ->
  WebCrawler._extract_open_graph soup ⊆ WebCrawler._extract_meta_tags soup.
Proof.
  intros Hnameless. apply map_subseteq_spec. intros k v.
  rewrite open_graph_lookup, (meta_tags_lookup soup k Hnameless).
  destruct (String.prefix "og:" k) eqn:Hp; [|done].
  destruct (String.eqb_spec k "") as [->|Hne]; [done|]. done.
Qed.

(** X22 on the sample page. *)
Lemma open_graph_in_meta_tags_witness :
  nameless (metas Samples.page)
  /\ WebCrawler._extract_open_graph Samples.page
     ⊆ WebCrawler._extract_meta_tags Samples.page.
Proof.
  assert (H : nameless (metas Samples.page)) by (repeat constructor).
  split; [exact H | exact (open_graph_in_meta_tags Samples.page H)].
Defined.

(** ** Text cleaning ([extractor.py]) *)

Lemma append_assoc (a b c : string) : (a ++ b) ++ c = a ++ (b ++ c).
Proof.
  induction a as [|x a IH]; [done|].
  change (String x ((a ++ b) ++ c) = String x (a ++ (b ++ c))). by rewrite IH.
Qed.

Lemma append_cons (x : ascii) (a b : string) : String x a ++ b = String x (a ++ b).
Proof. done. Qed.

Lemma append_empty_l (a : string) : "" ++ a = a.
Proof. done. Qed.

Lemma append_empty_r (a : string) : a ++ "" = a.
Proof. induction a as [|x a IH]; [done|]. by rewrite append_cons, IH. Qed.

Lemma all_chars_app p (a b : string) :
  all_chars p (a ++ b) = all_chars p a && all_chars p b.
Proof.
  induction a as [|x a IH]; [done|].
  rewrite append_cons. cbn [all_chars]. by rewrite IH, andb_assoc.
Qed.

Lemma split_from_words (s : string) :
  forall tok, all_chars (fun c => negb (is_space c)) tok = true ->
              Forall word (split_from s tok).
Proof.
  induction s as [|c s IH]; intros tok Htok; cbn [split_from].
  - destruct (String.eqb tok "") eqn:E; [constructor|].
    constructor; [|constructor]. split; [by apply String.eqb_neq | done].
  - destruct (is_space c) eqn:Hc.
    + destruct (String.eqb tok "") eqn:E; [by apply IH|].
      constructor; [|by apply IH]. split; [by apply String.eqb_neq | done].
    + apply IH. rewrite all_chars_app, Htok. cbn. by rewrite Hc.
Qed.

Lemma str_split_words (s : string) : Forall word (str_split s).
Proof. by apply split_from_words. Qed.

Lemma word_starts (w r : string) : word w -> starts_word (w ++ r).
Proof.
  intros [Hne Hall]. destruct w as [|c w]; [done|].
  rewrite append_cons. cbn [starts_word]. cbn [all_chars] in Hall.
  apply andb_true_iff in Hall as [Hc _]. by apply negb_true_iff.
Qed.

Lemma word_starts_self (w : string) : word w -> starts_word w.
Proof. intros Hw. rewrite <- (append_empty_r w). by apply word_starts. Qed.

(** The shape of [' '.join(words)]. *)
Lemma join_words_ind (P : string -> Prop) :
  P "" ->
  (forall w, word w -> P w) ->
  (forall w t, word w -> starts_word t -> P t -> P (w ++ " " ++ t)) ->
  forall ws, Forall word ws -> P (join " " ws).
Proof.
  intros Hnil Hone Hcons ws Hws.
  assert (H : P (join " " ws) /\ (ws <> [] -> starts_word (join " " ws))).
  { induction Hws as [|w ws Hw Hws [IH1 IH2]]; [by split|].
    destruct ws as [|w2 ws].
    - cbn. split; [by apply Hone|]. intros _. by apply word_starts_self.
    - change (join " " (w :: w2 :: ws)) with (w ++ " " ++ join " " (w2 :: ws)).
      split; [apply Hcons; [done | by apply IH2 | done]
             | intros _; by apply word_starts]. }
  by destruct H.
Qed.

Lemma sub_runs_word (cls : ascii -> bool) (w r : string) :
  all_chars (fun c => negb (cls c)) w = true ->
  forall b, sub_runs cls b (w ++ r)
            = match w with
              | EmptyString => sub_runs cls b r
              | _ => w ++ sub_runs cls false r
              end.
Proof.
  induction w as [|c w IH]; intros Hall b; [done|].
  cbn [all_chars] in Hall. apply andb_true_iff in Hall as [Hc Hw].
  apply negb_true_iff in Hc.
  rewrite append_cons. cbn [sub_runs]. rewrite Hc, (IH Hw).
  destruct w; [done|]. by rewrite !append_cons.
Qed.

Lemma crlf_tab_is_space (c : ascii) : is_crlf_tab c = true -> is_space c = true.
Proof.
  unfold is_crlf_tab, is_space. generalize (nat_of_ascii c). intros n.
  rewrite !orb_true_iff, !andb_true_iff, !Nat.eqb_eq, !Nat.leb_le. lia.
Qed.

Lemma word_no_crlf_tab (w : string) :
  all_chars (fun c => negb (is_space c)) w = true ->
  all_chars (fun c => negb (is_crlf_tab c)) w = true.
Proof.
  induction w as [|c w IH]; [done|]. cbn.
  rewrite !andb_true_iff, !negb_true_iff. intros [Hc Hw]. split; [|by apply IH].
  destruct (is_crlf_tab c) eqn:E; [|done].
  apply crlf_tab_is_space in E. congruence.
Qed.

Lemma sub_runs_starts (cls : ascii -> bool) (t : string) (b : bool) :
  match t with String c _ => cls c = false | EmptyString => True end ->
  sub_runs cls b t = sub_runs cls false t.
Proof. destruct t as [|c t]; [done|]. cbn. by intros ->. Qed.

Lemma join_no_crlf_tab (ws : list string) :
  Forall word ws -> sub_runs is_crlf_tab false (join " " ws) = join " " ws.
Proof.
  apply (join_words_ind (fun t => sub_runs is_crlf_tab false t = t)).
  - done.
  - intros w [Hne Hw]. pose proof (sub_runs_word is_crlf_tab w "" (word_no_crlf_tab w Hw) false) as H.
    rewrite append_empty_r in H. rewrite H. destruct w; [done|]. by rewrite append_empty_r.
  - intros w t [Hne Hw] Ht IH.
    rewrite (sub_runs_word is_crlf_tab w _ (word_no_crlf_tab w Hw)).
    destruct w as [|c w]; [done|].
    change (sub_runs is_crlf_tab false (" " ++ t))
      with (String " " (sub_runs is_crlf_tab false t)).
    by rewrite IH.
Qed.

Lemma join_no_space_runs (ws : list string) :
  Forall word ws -> sub_runs is_space false (join " " ws) = join " " ws.
Proof.
  apply (join_words_ind (fun t => sub_runs is_space false t = t)).
  - done.
  - intros w [Hne Hw]. pose proof (sub_runs_word is_space w "" Hw false) as H.
    rewrite append_empty_r in H. rewrite H. destruct w; [done|]. by rewrite append_empty_r.
  - intros w t [Hne Hw] Ht IH.
    rewrite (sub_runs_word is_space w _ Hw).
    destruct w as [|c w]; [done|].
    change (sub_runs is_space false (" " ++ t)) with (String " " (sub_runs is_space true t)).
    rewrite (sub_runs_starts is_space t true), IH; [done|].
    by destruct t.
Qed.

Lemma replace_char_same (a : ascii) (s : string) : replace_char a a s = s.
Proof.
  induction s as [|c s IH]; [done|]. cbn. rewrite IH.
  destruct (Ascii.eqb c a) eqn:E; [|done]. apply Ascii.eqb_eq in E. by subst.
Qed.

Lemma lstrip_starts (t : string) : starts_word t -> lstrip t = t.
Proof. destruct t as [|c t]; [done|]. cbn. by intros ->. Qed.

Lemma rstrip_word (w : string) :
  all_chars (fun c => negb (is_space c)) w = true -> rstrip w = w.
Proof.
  induction w as [|c w IH]; [done|]. cbn.
  rewrite andb_true_iff, negb_true_iff. intros [Hc Hw].
  rewrite (IH Hw), Hc. by destruct w.
Qed.

Lemma rstrip_app (a r : string) :
  rstrip r <> "" -> rstrip (a ++ r) = a ++ rstrip r.
Proof.
  intros Hr. induction a as [|c a IH]; [done|].
  rewrite !append_cons. cbn [rstrip]. rewrite IH.
  destruct (a ++ rstrip r) eqn:E; [|done].
  destruct a; [rewrite append_empty_l in E; congruence | done].
Qed.

Lemma join_stripped (ws : list string) :
  Forall word ws -> strip (join " " ws) = join " " ws.
Proof.
  apply (join_words_ind (fun t => strip t = t)).
  - done.
  - intros w [Hne Hw]. unfold strip. rewrite lstrip_starts.
    + by apply rstrip_word.
    + by apply word_starts_self.
  - intros w t Hw Ht IH. unfold strip in *.
    rewrite lstrip_starts in IH by done.
    rewrite lstrip_starts by (by apply word_starts).
    rewrite <- append_assoc, rstrip_app, IH; [done|].
    rewrite IH. by destruct t.
Qed.

(** On text the later steps of [_clean_text] change nothing. *)
Lemma clean_text_str (s : string) (sys : Sys) :
  ContentExtractor._clean_text (PStr s) sys = (Ok (join " " (str_split s)), sys).
Proof.
  unfold ContentExtractor._clean_text, try_except, bind, lift, ret.
  change (Py.split (PStr s)) with (Ok (str_split s)). cbn iota beta.
  pose proof (str_split_words s) as Hws.
  by rewrite (join_no_crlf_tab _ Hws), !replace_char_same,
    (join_no_space_runs _ Hws), (join_stripped _ Hws).
Qed.

Lemma split_from_word (w r : string) :
  all_chars (fun c => negb (is_space c)) w = true ->
  forall tok, split_from (w ++ r) tok = split_from r (tok ++ w).
Proof.
  induction w as [|c w IH]; intros Hw tok.
  - by rewrite append_empty_r.
  - cbn in Hw. apply andb_true_iff in Hw as [Hc Hw].
    apply negb_true_iff in Hc. rewrite append_cons. cbn [split_from]. rewrite Hc.
    rewrite (IH Hw). by rewrite append_assoc.
Qed.

Lemma split_join_words (ws : list string) :
  Forall word ws -> str_split (join " " ws) = ws.
Proof.
  unfold str_split. induction 1 as [|w ws [Hne Hw] Hws IH]; [done|].
  assert (Hneb : String.eqb w "" = false) by (by apply String.eqb_neq).
  destruct ws as [|w2 ws].
  - cbn [join String.concat].
    pose proof (split_from_word w "" Hw "") as H. rewrite append_empty_r in H.
    rewrite H, append_empty_l. cbn [split_from]. by rewrite Hneb.
  - change (join " " (w :: w2 :: ws)) with (w ++ " " ++ join " " (w2 :: ws)).
    rewrite (split_from_word w _ Hw ""), append_cons, !append_empty_l.
    cbn [split_from]. change (is_space " ") with true. cbn iota.
    rewrite Hneb. by rewrite IH.
Qed.

(** X15.  [ContentExtractor._clean_text] on a string gives the tokens of
    [text.split()] joined by single spaces: the substitutions, the replacement
    of quotes and the final [strip] change nothing after that first step, and
    nothing is logged.  On a value that is no string ([None], the [.string]
    of an empty [title] tag) the error is logged and the handler itself
    fails: [ContentCleaningError] is built with one argument where two are
    needed, so the exception that leaves is a [TypeError]. *)
Theorem clean_text_outcome (text : pyval) (sys : Sys) :
  match text with
  | PStr s =>
      ContentExtractor._clean_text text sys = (Ok (join " " (str_split s)), sys)
  | _ =>
      exists msg,
        ContentExtractor._clean_text text sys
        = (Raise (mkExn TypeError
                    "RufusException.__init__() missing 1 required positional argument: 'error_detail'"),
           mkSys (crawler_links sys)
             (log sys ++ [mkLog ERROR ("Text cleaning failed: " ++ msg)]) (clock sys))
  end.
Proof.
  destruct text; try (eexists; reflexivity). apply clean_text_str.
Qed.

(** X16.  Cleaning is idempotent: cleaned text is returned as it is, and the
    tokens of cleaned text are the tokens of the text. *)
Theorem clean_text_idempotent (s : string) (sys : Sys) :
  exists t,
    ContentExtractor._clean_text (PStr s) sys = (Ok t, sys)
    /\ ContentExtractor._clean_text (PStr t) sys = (Ok t, sys)
    /\ str_split t = str_split s.
Proof.
  exists (join " " (str_split s)).
  rewrite !clean_text_str, (split_join_words _ (str_split_words s)). done.
Qed.

(** ** Relevance by keyword counting ([extractor.py]) *)

Lemma matches_le (keywords : list string) (text : string) :
  (ContentExtractor.matches keywords text <= length keywords)%nat.
Proof. unfold ContentExtractor.matches. apply List.filter_length_le. Qed.

Lemma weighted_ratio_range (cm mm n : nat) :
  (cm <= n)%nat -> (mm <= n)%nat -> (0 < n)%nat ->
  let ratio :=
    ((inject_Z (Z.of_nat cm) + inject_Z (Z.of_nat mm) * (1 # 2))
     / inject_Z (Z.of_nat n * 2))%Q in
  (0 <= ratio)%Q /\ (ratio <= 3 # 4)%Q.
Proof.
  intros Hc Hm Hn ratio.
  assert (Hpos : (0 < inject_Z (Z.of_nat n * 2))%Q).
  { change (inject_Z 0 < inject_Z (Z.of_nat n * 2))%Q. rewrite <- Zlt_Qlt. lia. }
  split.
  - apply Qle_shift_div_l; [done|]. rewrite Qmult_0_l.
    unfold Qle, Qplus, Qmult, inject_Z. cbn. lia.
  - apply Qle_shift_div_r; [done|].
    unfold Qle, Qplus, Qmult, inject_Z. cbn. lia.
Qed.

(** X17.  [ContentExtractor._calculate_relevance] on an instance whose
    [instructions] attribute is set never raises and returns a score between
    0 and 1.  The score is 1 exactly in the branch of falsy instructions;
    with instructions it is at most 3/4, so the [min] with 1.0 never decides:
    it is the fallback 1/2, with a warning, when the computation raises (as
    on instructions of whitespace only, a division by zero), and else the
    weighted count, with no effect. *)
Theorem calculate_relevance_range (self : ContentExtractor.Self) (instr : pyval)
    (content : string) (metadata : list (string * pyval)) (sys : Sys) :
  ContentExtractor.instructions self = Some instr ->
  exists q sys',
    ContentExtractor._calculate_relevance self content metadata sys = (Ok q, sys')
    /\ (0 <= q)%Q /\ (q <= 1)%Q
    /\ (truthy instr = false -> q = 1%Q /\ sys' = sys)
    /\ (truthy instr = true ->
        (q <= 3 # 4)%Q
        /\ (sys' = sys
            \/ (q = (1 # 2)%Q
                /\ exists msg,
                     sys' = ContentExtractor.logger_warning self
                              ("Relevance calculation failed: " ++ msg) sys))).
Proof.
  intros Hinstr.
  unfold ContentExtractor._calculate_relevance, ContentExtractor.get_instructions.
  rewrite Hinstr. unfold bind at 1. unfold lift at 1.
  destruct (truthy instr) eqn:Ht; cbn [negb].
  2:{ exists 1%Q, sys. repeat split; try done. }
  assert (Hfallback : forall msg,
            exists q sys',
              (Ok (1 # 2)%Q, ContentExtractor.logger_warning self
                               ("Relevance calculation failed: " ++ msg) sys)
              = (Ok q, sys')
              /\ (0 <= q)%Q /\ (q <= 1)%Q
              /\ (true = false -> q = 1%Q /\ sys' = sys)
              /\ (true = true ->
                  (q <= 3 # 4)%Q
                  /\ (sys' = sys
                      \/ (q = (1 # 2)%Q
                          /\ exists msg,
                               sys' = ContentExtractor.logger_warning self
                                        ("Relevance calculation failed: " ++ msg) sys)))).
  { intros msg. eexists _, _. split; [reflexivity|].
    repeat split; try done. right. split; [done|]. by exists msg. }
  unfold try_except, bind, lift, ret, ContentExtractor.warn.
  destruct (ContentExtractor.lower_of instr) as [lowered|e]; [|apply Hfallback].
  destruct (ContentExtractor.string_values metadata) as [values|e]; [|apply Hfallback].
  unfold float_div_int.
  destruct (Z.eqb_spec (Z.of_nat (length (str_split lowered)) * 2) 0) as [Hz|Hnz];
    [apply Hfallback|].
  match goal with |- context [Qle_bool ?r 1] => set (ratio := r) end.
  destruct (weighted_ratio_range
              (ContentExtractor.matches (str_split lowered) (lower content))
              (ContentExtractor.matches (str_split lowered) (lower (join " " values)))
              (length (str_split lowered)))
    as [Hlo Hhi]; [apply matches_le | apply matches_le | lia |].
  fold ratio in Hlo, Hhi.
  assert (Hone : Qle_bool ratio 1 = true).
  { apply Qle_bool_iff. eapply Qle_trans; [exact Hhi | done]. }
  rewrite Hone. exists ratio, sys. repeat split; try done.
  - eapply Qle_trans; [exact Hhi | done].
  - by left.
Qed.

(** X17 on the instructions and the page of the test of [extractor.py]. *)
Lemma calculate_relevance_range_witness :
  exists q sys',
    ContentExtractor._calculate_relevance Samples.with_instructions
      "Main Header Test paragraph" [("description", PStr "Test content")] Demo.sys0
    = (Ok q, sys')
    /\ (0 <= q)%Q /\ (q <= 1)%Q.
Proof.
  destruct (calculate_relevance_range Samples.with_instructions (PStr "test content")
              "Main Header Test paragraph" [("description", PStr "Test content")]
              Demo.sys0 eq_refl) as (q & sys' & H & Hlo & Hhi & _).
  exists q, sys'. auto.
Defined.

(** ** Sections ([extractor.py]) *)

Lemma section_content_state (self : ContentExtractor.Self) (siblings : list Sibling) :
  forall sys, exists r, ContentExtractor.section_content self siblings sys = (r, sys).
Proof.
  induction siblings as [|current rest IH]; intros sys;
    cbn [ContentExtractor.section_content].
  - by eexists.
  - destruct (ContentExtractor.is_heading (sib_name current)); [by eexists|].
    unfold bind at 1. unfold lift at 1.
    destruct (ContentExtractor.get_important_tags self) as [tags|e]; [|by eexists].
    destruct (existsb _ tags); [|apply IH].
    unfold bind at 1. rewrite clean_text_str.
    unfold bind. destruct (IH sys) as [[more|e] ->]; by eexists.
Qed.

Lemma sections_of_state (self : ContentExtractor.Self) (hs : list Header) :
  forall sys, exists r,
    ContentExtractor.sections_of self hs sys = (r, sys)
    /\ forall sections, r = Ok sections -> length sections = length hs.
Proof.
  induction hs as [|header rest IH]; intros sys; cbn [ContentExtractor.sections_of].
  - eexists. split; [reflexivity|]. by intros ? [= <-].
  - unfold bind at 1.
    destruct (section_content_state self (header_siblings header) sys) as [[content|e] ->];
      [|eexists; split; [reflexivity | done]].
    unfold bind at 1. rewrite clean_text_str.
    unfold bind. destruct (IH sys) as ([more|e] & -> & Hlen);
      [|eexists; split; [reflexivity | done]].
    eexists. split; [reflexivity|]. intros ? [= <-]. cbn. by rewrite (Hlen more).
Qed.

(** X24.  [ContentExtractor._extract_sections] never raises, and it is all or
    nothing: it returns one section per heading of the page and logs nothing,
    or, as soon as building one of them raises, no section at all and one
    error record. *)
Theorem sections_all_or_nothing (self : ContentExtractor.Self) (soup : Soup) (sys : Sys) :
  exists sections sys',
    ContentExtractor._extract_sections self soup sys = (Ok sections, sys')
    /\ ((length sections = length (headers soup) /\ sys' = sys)
        \/ (sections = []
            /\ exists msg,
                 sys' = mkSys (crawler_links sys)
                          (log sys ++ [mkLog ERROR ("Section extraction failed: " ++ msg)])
                          (clock sys))).
Proof.
  unfold ContentExtractor._extract_sections, try_except.
  destruct (sections_of_state self (headers soup) sys) as ([sections|e] & -> & Hlen).
  - exists sections, sys. split; [done|]. left. split; [by apply Hlen | done].
  - eexists [], _. split; [reflexivity|]. right. split; [done|]. by exists (exn_msg e).
Qed.

(** ** Metadata of a page ([extractor.py], [crawler.py]) *)

Lemma dict_lookup_set (d : list (string * pyval)) (k k' : string) (v : pyval) :
  dict_lookup (dict_set d k v) k'
  = if String.eqb k k' then Some v else dict_lookup d k'.
Proof.
  induction d as [|[k0 v0] d IH]; cbn [dict_set dict_lookup].
  - done.
  - destruct (String.eqb_spec k0 k) as [->|Hne]; cbn [dict_lookup].
    + by destruct (String.eqb_spec k k').
    + rewrite IH. destruct (String.eqb_spec k0 k') as [->|Hne'];
        destruct (String.eqb_spec k k') as [->|Hne'']; done.
Qed.

Lemma string_values_cons (k : string) (v : pyval) (d : list (string * pyval)) :
  ContentExtractor.string_values ((k, v) :: d)
  = match ContentExtractor.string_values d with
    | Ok l => match v with
              | PStr s => Ok (s :: l)
              | _ => Raise (mkExn TypeError "sequence item: expected str instance")
              end
    | Raise e => Raise e
    end.
Proof. reflexivity. Qed.

Lemma string_values_set (d : list (string * pyval)) (k s : string) :
  (exists l, ContentExtractor.string_values d = Ok l) ->
  exists l, ContentExtractor.string_values (dict_set d k (PStr s)) = Ok l.
Proof.
  induction d as [|[k0 v0] d IH]; cbn [dict_set].
  - intros _. by exists [s].
  - intros [l Hl]. rewrite string_values_cons in Hl.
    destruct (ContentExtractor.string_values d) as [l0|e] eqn:Hd; [|done].
    destruct v0; try done.
    destruct (String.eqb k0 k).
    + rewrite string_values_cons, Hd. by eexists.
    + destruct IH as [l1 Hl1]; [by eexists|].
      rewrite string_values_cons, Hl1. by eexists.
Qed.

Lemma metadata_by_name_strings (tags : list Tag) :
  forall md, (exists l, ContentExtractor.string_values md = Ok l) ->
             exists l, ContentExtractor.string_values
                         (ContentExtractor.metadata_by_name tags md) = Ok l.
Proof.
  induction tags as [|tag tags IH]; intros md Hmd; [done|].
  cbn [ContentExtractor.metadata_by_name]. apply IH.
  destruct (has_attr tag "name"); [by apply string_values_set|].
  destruct (has_attr tag "property"); [by apply string_values_set | done].
Qed.

Lemma metadata_by_property_strings (tags : list Tag) :
  forall md, (exists l, ContentExtractor.string_values md = Ok l) ->
             exists l, ContentExtractor.string_values
                         (ContentExtractor.metadata_by_property tags md) = Ok l.
Proof.
  induction tags as [|tag tags IH]; intros md Hmd; [done|].
  cbn [ContentExtractor.metadata_by_property]. apply IH. by apply string_values_set.
Qed.

Lemma metadata_by_property_lookup (tags : list Tag) (k : string) :
  forall md,
    dict_lookup (ContentExtractor.metadata_by_property tags md) k
    = match last_with_property k tags with
      | Some tag => Some (PStr (attr_or_empty tag "content"))
      | None => dict_lookup md k
      end.
Proof.
  unfold last_with_property.
  induction tags as [|tag tags IH]; intros md; [done|].
  cbn [ContentExtractor.metadata_by_property List.filter]. rewrite IH.
  destruct (String.eqb_spec (attr_or_empty tag "property") k) as [Hk|Hk].
  - destruct (List.filter _ tags) as [|t ts] eqn:E.
    + cbn. rewrite dict_lookup_set. by rewrite Hk, String.eqb_refl.
    + change (last (tag :: t :: ts)) with (last (t :: ts)).
      destruct (last (t :: ts)) eqn:El; [done|]. by apply last_None in El.
  - destruct (last _); [done|]. rewrite dict_lookup_set.
    by destruct (String.eqb_spec (attr_or_empty tag "property") k).
Qed.

(** X20.  The metadata [ContentExtractor._extract_metadata] builds.  Every
    value is a string, so the join of the values in [_calculate_relevance]
    cannot raise on it.  And Open Graph properties win: under a key that is
    the [property] of a tag matched by [^og:], the value is the [content] of
    the last such tag (the empty string if it has none), whatever the first
    loop had put there; other keys keep what the first loop gave them. *)
Theorem metadata_open_graph_wins (soup : Soup) :
  (exists values,
     ContentExtractor.string_values (ContentExtractor._extract_metadata soup) = Ok values)
  /\ forall k,
       dict_lookup (ContentExtractor._extract_metadata soup) k
       = match last_with_property k (ContentExtractor.og_tags (metas soup)) with
         | Some tag => Some (PStr (attr_or_empty tag "content"))
         | None => dict_lookup (ContentExtractor.metadata_by_name (metas soup) []) k
         end.
Proof.
  unfold ContentExtractor._extract_metadata. split.
  - apply metadata_by_property_strings, metadata_by_name_strings. by exists [].
  - intros k. apply metadata_by_property_lookup.
Qed.

(** ** The bound [extract] ([extractor.py]) *)

Lemma bind_ok_inv {A B} (m : M A) (k : A -> M B) (s s' : Sys) (b : B) :
  bind m k s = (Ok b, s') ->
  exists a s1, m s = (Ok a, s1) /\ k a s1 = (Ok b, s').
Proof.
  unfold bind. destruct (m s) as [[a|e] s1]; [|done]. intros H. by exists a, s1.
Qed.

Lemma extract_fresh parse logger_warning html_content url sys :
  exists msg sys1,
    ContentExtractor.extract parse (ContentExtractor.__init__ logger_warning)
      html_content url sys
    = (Raise (mkExn TypeError
                "ContentExtractionError.__init__() missing 1 required positional argument: 'error_detail'"),
       mkSys (crawler_links sys1)
         (log sys1 ++ [mkLog ERROR ("Content extraction failed for " ++ url ++ ": " ++ msg)])
         (clock sys1)).
Proof.
  unfold ContentExtractor.extract, try_except.
  match goal with |- context [match ?body sys with _ => _ end] =>
    destruct (body sys) as [[v|e] sys1] eqn:Hbody end.
  - exfalso.
    apply bind_ok_inv in Hbody as (soup & s1 & _ & Hbody).
    apply bind_ok_inv in Hbody as (title & s2 & _ & Hbody).
    apply bind_ok_inv in Hbody as (main_content & s3 & _ & Hbody).
    apply bind_ok_inv in Hbody as (sections & s4 & _ & Hbody).
    apply bind_ok_inv in Hbody as (score & s5 & Hscore & _).
    cbv in Hscore. done.
  - exists (exn_msg e), sys1. reflexivity.
Qed.

(** X18.  [extract] on a [ContentExtractor()] never returns.  [__init__] sets
    the logger only, so reading [self.instructions] in
    [_calculate_relevance] raises whenever the steps before it went through;
    the handler of [extract] logs the failure and then builds
    [ContentExtractionError] with one argument where two are needed, so the
    exception that leaves is always that [TypeError]. *)
Theorem bound_extract_always_raises parse logger_warning html_content url sys :
  let '(r, sys') :=
    ContentExtractor.extract parse (ContentExtractor.__init__ logger_warning)
      html_content url sys in
  r = Raise (mkExn TypeError
               "ContentExtractionError.__init__() missing 1 required positional argument: 'error_detail'")
  /\ exists msg,
       last (log sys')
       = Some (mkLog ERROR ("Content extraction failed for " ++ url ++ ": " ++ msg)).
Proof.
  destruct (extract_fresh parse logger_warning html_content url sys)
    as (msg & sys1 & ->).
  split; [done|]. exists msg. cbn. apply last_snoc.
Qed.

(** ** De-duplication ([synthesizer.py], [_process_results]) *)

Section Dedup.
Context {A : Type} (key : A -> Z).

Lemma filter_all (P : A -> Prop) `{!forall x, Decision (P x)} (l : list A) :
  (forall x, P x) -> filter P l = l.
Proof.
  intros HP. induction l as [|x l IH]; [done|].
  by rewrite filter_cons_True, IH.
Qed.

Lemma first_seen_sublist (l : list A) : first_seen key l `sublist_of` l.
Proof.
  induction l as [|x l IH]; simpl; [constructor|].
  apply sublist_skip. etrans; [apply sublist_filter | exact IH].
Qed.

Lemma first_seen_keys_NoDup (l : list A) : NoDup (key <$> first_seen key l).
Proof.
  induction l as [|x l IH]; simpl; [constructor|].
  apply NoDup_cons. split.
  - intros Hin. apply list_elem_of_fmap in Hin as (y & Hk & Hy).
    apply list_elem_of_filter in Hy as [Hne _]. congruence.
  - eapply sublist_NoDup; [exact IH|]. apply fmap_sublist, sublist_filter.
Qed.

Lemma first_seen_keeps_first (l1 l2 : list A) (p : A) :
  (forall q, q ∈ l1 -> key q <> key p) -> p ∈ first_seen key (l1 ++ p :: l2)%list.
Proof.
  induction l1 as [|a l1 IH]; simpl; intros Hfresh.
  - apply list_elem_of_here.
  - apply list_elem_of_further, list_elem_of_filter. split.
    + intros E. apply (Hfresh a); [apply list_elem_of_here | done].
    + apply IH. intros q Hq. apply Hfresh. by apply list_elem_of_further.
Qed.

Lemma first_seen_covers (l : list A) (p : A) :
  p ∈ l -> exists q, q ∈ first_seen key l /\ key q = key p.
Proof.
  induction l as [|x l IH]; intros Hp; [by apply not_elem_of_nil in Hp|].
  apply elem_of_cons in Hp as [->|Hp].
  - exists x. split; [apply list_elem_of_here | done].
  - destruct (IH Hp) as (q & Hq & Hk). simpl.
    destruct (decide (key q = key x)) as [E|NE].
    + exists x. split; [apply list_elem_of_here | congruence].
    + exists q. split; [|done].
      apply list_elem_of_further, list_elem_of_filter. done.
Qed.
End Dedup.

Lemma page_content (r : pyval) :
  is_page r -> exists s, getitem_str r "content" = Ok (PStr s) /\ content_of r = PStr s.
Proof.
  intros (d & u & s & -> & _ & Hc). exists s.
  unfold content_of, getitem_str. by rewrite Hc.
Qed.

(** [_process_results_from] with the fingerprints [seen] already met is the
    first-seen selection, less the pages whose fingerprint is in [seen]. *)
Lemma process_results_from_first_seen (w : World) (results : list pyval) :
  Forall is_page results ->
  forall seen : gset Z,
    Synthesizer._process_results_from w seen results
    = Ok (filter (fun r => hash_atom w (content_of r) ∉ seen)
            (first_seen (fun r => hash_atom w (content_of r)) results)).
Proof.
  induction 1 as [|r results Hr _ IH]; intros seen; [reflexivity|].
  destruct (page_content r Hr) as (s & Hget & Hc).
  cbn [Synthesizer._process_results_from first_seen].
  rewrite Hget. cbn [and_then py_hash]. rewrite <- Hc.
  destruct (decide (hash_atom w (content_of r) ∈ seen)) as [Hin|Hout].
  - rewrite IH, filter_cons_False by (intros ?; done).
    rewrite list_filter_filter. f_equal. apply list_filter_iff.
    intros x. split; [intros Hx; split; [done|congruence] | by intros [? _]].
  - rewrite IH, filter_cons_True by done. cbn [and_then].
    rewrite list_filter_filter. do 2 f_equal. apply list_filter_iff.
    intros x. rewrite not_elem_of_union, not_elem_of_singleton. tauto.
Qed.

Lemma structure_documents_pages (results : list pyval) :
  Forall is_page results ->
  forall sys, exists docs,
    Synthesizer._structure_documents results sys
    = (Ok docs, mkSys (crawler_links sys) (log sys) (clock sys + length results))
    /\ content_of <$> docs = content_of <$> results
    /\ length docs = length results.
Proof.
  induction 1 as [|r results Hr _ IH]; intros sys.
  - exists []. cbn. rewrite Nat.add_0_r. by destruct sys.
  - destruct Hr as (d & u & s & -> & Hu & Hc).
    cbn [Synthesizer._structure_documents].
    unfold bind, lift, now, ret, getitem_str, dict_get. rewrite Hu, Hc.
    match goal with |- context [Synthesizer._structure_documents results ?s1] =>
      destruct (IH s1) as (docs & -> & Hmap & Hlen) end.
    eexists. split; [|split].
    + cbn. do 2 f_equal. lia.
    + cbn. rewrite Hmap. f_equal. unfold content_of, getitem_str. by rewrite Hc.
    + simpl. by rewrite Hlen.
Qed.

(** On page records [_process_results] is the first-seen selection by content
    fingerprint, and the pages it keeps are page records. *)
Lemma process_results_first_seen (w : World) (results : list pyval) :
  Forall is_page results ->
  Synthesizer._process_results w results
  = Ok (first_seen (fun r => hash_atom w (content_of r)) results)
  /\ Forall is_page (first_seen (fun r => hash_atom w (content_of r)) results).
Proof.
  intros Hpages. split.
  - unfold Synthesizer._process_results.
    rewrite process_results_from_first_seen by done.
    f_equal. apply filter_all. intros x. apply not_elem_of_empty.
  - apply Forall_forall. intros p Hp.
    eapply Forall_forall; [exact Hpages|].
    eapply sublist_subseteq in Hp; [exact Hp | apply first_seen_sublist].
Qed.

(** ** De-duplication, errors and idempotence ([synthesizer.py]) *)

Lemma hashable_record_hash (w : World) (r : pyval) :
  hashable_record r <->
  exists c h, getitem_str r "content" = Ok c /\ py_hash w c = Ok h.
Proof.
  split.
  - intros (d & c & -> & Hc & Hh). exists c. cbn. rewrite Hc.
    destruct c; try done; eauto.
  - intros (c & h & Hget & Hh).
    destruct r as [| | | | | |d|]; try done. cbn in Hget.
    destruct (dict_lookup d "content") as [c'|] eqn:Hc; [|done].
    injection Hget as ->. exists d, c. repeat split; try done.
    destruct c; done.
Qed.

Lemma hashable_record_dec (r : pyval) : hashable_record r \/ ~ hashable_record r.
Proof.
  destruct r as [| | | | | |d|]; try (right; intros (d' & c & [=] & _); done).
  destruct (dict_lookup d "content") as [c|] eqn:Hc.
  - destruct c; try (left; exists d; eexists; repeat split; [exact Hc | done]);
      right; intros (d' & c' & [= <-] & Hc' & Hh); rewrite Hc in Hc';
      injection Hc' as <-; done.
  - right. intros (d' & c' & [= <-] & Hc' & _). congruence.
Qed.

(** [_process_results_from] returns exactly on records that can be hashed,
    and then gives the first-seen selection less the fingerprints met. *)
Lemma process_results_from_spec (w : World) (results : list pyval) :
  forall seen : gset Z,
    match Synthesizer._process_results_from w seen results with
    | Ok kept =>
        Forall hashable_record results
        /\ kept = filter (fun r => fingerprint w r ∉ seen)
                    (first_seen (fingerprint w) results)
    | Raise e =>
        (exists r, r ∈ results /\ ~ hashable_record r)
        /\ (exn_cls e = KeyError \/ exn_cls e = TypeError)
    end.
Proof.
  induction results as [|r results IH]; intros seen.
  - cbn. split; [constructor | done].
  - cbn [Synthesizer._process_results_from first_seen].
    destruct (hashable_record_dec r) as [Hr|Hr].
    + pose proof Hr as Hr'. apply (hashable_record_hash w) in Hr' as (c & h & Hc & Hh).
      assert (Hf : fingerprint w r = h) by (unfold fingerprint; by rewrite Hc, Hh).
      rewrite Hc. cbn [and_then]. rewrite Hh. cbn [and_then].
      destruct (decide (h ∈ seen)) as [Hin|Hout].
      * specialize (IH seen).
        destruct (Synthesizer._process_results_from w seen results) as [kept|e].
        -- destruct IH as [Hall ->]. split; [by constructor|].
           rewrite filter_cons_False by (rewrite Hf; intros ?; done).
           rewrite list_filter_filter. apply list_filter_iff.
           intros x. rewrite Hf. split; [intros Hx; split; [done|congruence] | by intros [? _]].
        -- destruct IH as [(r' & Hr1 & Hr2) He]. split; [|done].
           exists r'. split; [by apply list_elem_of_further | done].
      * specialize (IH ({[h]} ∪ seen)).
        destruct (Synthesizer._process_results_from w ({[h]} ∪ seen) results) as [kept|e].
        -- destruct IH as [Hall ->]. cbn [and_then]. split; [by constructor|].
           rewrite filter_cons_True by (by rewrite Hf).
           f_equal. rewrite list_filter_filter. apply list_filter_iff.
           intros x. rewrite Hf, not_elem_of_union, not_elem_of_singleton. tauto.
        -- destruct IH as [(r' & Hr1 & Hr2) He]. cbn [and_then]. split; [|done].
           exists r'. split; [by apply list_elem_of_further | done].
    + destruct (getitem_str r "content") as [c|e] eqn:Hc; cbn [and_then].
      * destruct (py_hash w c) as [h|e] eqn:Hh; cbn [and_then].
        -- exfalso. apply Hr. apply (hashable_record_hash w). eauto.
        -- split; [exists r; split; [apply list_elem_of_here | done]|]. right.
           destruct c; try done; by injection Hh as <-.
      * split; [exists r; split; [apply list_elem_of_here | done]|].
        destruct r as [| | | | | |d|]; try (injection Hc as <-; by right).
        cbn in Hc. destruct (dict_lookup d "content"); [done|].
        injection Hc as <-. by left.
Qed.

Lemma filter_Forall_id {A} (P : A -> Prop) `{!forall x, Decision (P x)} (l : list A) :
  Forall P l -> filter P l = l.
Proof.
  induction 1 as [|x l Hx Hl IH]; [done|]. by rewrite filter_cons_True, IH.
Qed.

Lemma first_seen_fixed {A} (key : A -> Z) (l : list A) :
  NoDup (key <$> l) -> first_seen key l = l.
Proof.
  induction l as [|x l IH]; [done|]. cbn [fmap list_fmap first_seen].
  intros [Hx Hl]%NoDup_cons. rewrite (IH Hl). f_equal.
  apply filter_Forall_id, Forall_forall. intros y Hy Heq.
  apply Hx. rewrite <- Heq. by apply list_elem_of_fmap_2.
Qed.

Lemma first_seen_idem {A} (key : A -> Z) (l : list A) :
  first_seen key (first_seen key l) = first_seen key l.
Proof. apply first_seen_fixed, first_seen_keys_NoDup. Qed.

Lemma process_results_spec (w : World) (results : list pyval) :
  match Synthesizer._process_results w results with
  | Ok kept =>
      Forall hashable_record results
      /\ kept = first_seen (fingerprint w) results
  | Raise e =>
      (exists r, r ∈ results /\ ~ hashable_record r)
      /\ (exn_cls e = KeyError \/ exn_cls e = TypeError)
  end.
Proof.
  unfold Synthesizer._process_results.
  pose proof (process_results_from_spec w results ∅) as H.
  destruct (Synthesizer._process_results_from w ∅ results) as [kept|e]; [|done].
  destruct H as [Hall ->]. split; [done|].
  apply filter_Forall_id, Forall_forall. intros x _. set_solver.
Qed.

Lemma process_results_hashable (w : World) (results : list pyval) :
  Forall hashable_record results ->
  Synthesizer._process_results w results = Ok (first_seen (fingerprint w) results).
Proof.
  intros Hall. pose proof (process_results_spec w results) as H.
  destruct (Synthesizer._process_results w results) as [kept|e].
  - by destruct H as [_ ->].
  - destruct H as [(r & Hin & Hr) _]. exfalso. apply Hr.
    by apply (proj1 (Forall_forall _ _) Hall).
Qed.

(** X7.  [DocumentSynthesizer._process_results] returns exactly when every
    record is a dict whose [content] can be hashed; it then keeps, in order,
    the first record of each content fingerprint.  Otherwise some record is
    not of that kind, and the exception is the [KeyError] of the missing
    [content] or the [TypeError] of a record that cannot be subscripted or a
    content that cannot be hashed. *)
Theorem process_results_outcome (w : World) (results : list pyval) :
  match Synthesizer._process_results w results with
  | Ok kept =>
      Forall hashable_record results
      /\ kept = first_seen (fingerprint w) results
  | Raise e =>
      (exists r, r ∈ results /\ ~ hashable_record r)
      /\ (exn_cls e = KeyError \/ exn_cls e = TypeError)
  end.
Proof. apply process_results_spec. Qed.

(** X8.  De-duplication is idempotent: what [_process_results] returns, it
    returns unchanged when given it again. *)
Theorem process_results_idempotent (w : World) (results kept : list pyval) :
  Synthesizer._process_results w results = Ok kept ->
  Synthesizer._process_results w kept = Ok kept.
Proof.
  intros H. pose proof (process_results_spec w results) as H1.
  rewrite H in H1. destruct H1 as [Hall ->].
  rewrite process_results_hashable.
  - by rewrite first_seen_idem.
  - apply Forall_forall. intros x Hx.
    apply (proj1 (Forall_forall _ _) Hall).
    eapply elem_of_sublist; [exact Hx | apply first_seen_sublist].
Qed.

(** X8 on a page followed by a page with the same text. *)
Lemma process_results_idempotent_witness :
  Synthesizer._process_results Samples.quiet [Demo.pageX; Demo.pageX_duplicate_content]
  = Ok [Demo.pageX]
  /\ Synthesizer._process_results Samples.quiet [Demo.pageX] = Ok [Demo.pageX].
Proof.
  assert (H : Synthesizer._process_results Samples.quiet
                [Demo.pageX; Demo.pageX_duplicate_content] = Ok [Demo.pageX])
    by (vm_compute; reflexivity).
  split; [exact H|].
  exact (process_results_idempotent Samples.quiet _ _ H).
Defined.

(** ** Documents and their timestamps ([synthesizer.py]) *)

(** X9.  [DocumentSynthesizer._structure_documents] returns exactly when every
    record is a dict holding [url] and [content].  It then gives one document
    per record, in order, with the record's [url] and [content], and the
    timestamps are successive readings of the clock: the document of index
    [i] carries reading [clock + i], and the clock ends [len(results)] later.
    Otherwise some record is not of that kind: it raises a [KeyError] or a
    [TypeError], logs nothing and leaves the links alone. *)
Theorem structure_documents_outcome (results : list pyval) :
  forall sys,
    match Synthesizer._structure_documents results sys with
    | (Ok docs, sys') =>
        Forall has_url_and_content results
        /\ sys' = mkSys (crawler_links sys) (log sys) (clock sys + length results)
        /\ length docs = length results
        /\ forall (i : nat) r, results !! i = Some r ->
             exists doc, docs !! i = Some doc
               /\ getitem_str doc "url" = getitem_str r "url"
               /\ getitem_str doc "content" = getitem_str r "content"
               /\ getitem_str doc "timestamp" = Ok (PInt (Z.of_nat (clock sys + i)))
    | (Raise e, sys') =>
        (exists r, r ∈ results /\ ~ has_url_and_content r)
        /\ (exn_cls e = KeyError \/ exn_cls e = TypeError)
        /\ crawler_links sys' = crawler_links sys
        /\ log sys' = log sys
        /\ (clock sys <= clock sys' <= clock sys + length results)%nat
    end.
Proof.
  induction results as [|r results IH]; intros sys.
  - cbn. repeat split; [constructor | by destruct sys; rewrite Nat.add_0_r | ].
    intros i r Hi. by rewrite lookup_nil in Hi.
  - cbn [Synthesizer._structure_documents].
    assert (Hbad : ~ has_url_and_content r -> exists r', r' ∈ r :: results /\ ~ has_url_and_content r').
    { intros Hr. exists r. split; [apply list_elem_of_here | done]. }
    destruct r as [| | | | | |d|];
      try (cbn; split; [apply Hbad; by intros (? & ? & ? & [=] & _) |];
           repeat split; [by right | lia | lia]).
    unfold bind at 1. unfold lift at 1. cbn [getitem_str].
    destruct (dict_lookup d "url") as [u|] eqn:Hu.
    2:{ cbn. split; [apply Hbad; intros (? & ? & ? & [= <-] & ? & _); congruence|].
        repeat split; [by left | lia | lia]. }
    unfold bind at 1. unfold now at 1.
    unfold bind at 1. unfold lift at 1.
    destruct (dict_lookup d "content") as [c|] eqn:Hc.
    2:{ cbn. split; [apply Hbad; intros (? & ? & ? & [= <-] & ? & ?); congruence|].
        repeat split; [by left | lia | lia]. }
    unfold bind, lift, dict_get, ret.
    match goal with |- context [Synthesizer._structure_documents results ?s1] =>
      specialize (IH s1);
      destruct (Synthesizer._structure_documents results s1) as [[docs|e] sys'] end.
    + destruct IH as (Hall & -> & Hlen & Hdocs). cbn [crawler_links log clock] in *.
      split; [constructor; [by exists d, u, c | done]|].
      split; [f_equal; cbn [length]; lia|].
      split; [cbn [length]; by rewrite Hlen|].
      intros [|i] r Hi.
      * cbn in Hi. injection Hi as <-. eexists. split; [reflexivity|].
        cbn. rewrite Hu, Hc. repeat split. by rewrite Nat.add_0_r.
      * cbn in Hi. destruct (Hdocs i r Hi) as (doc & Hd & H1 & H2 & H3).
        exists doc. split; [done|]. repeat split; try done.
        rewrite H3. do 3 f_equal. lia.
    + destruct IH as ((r' & Hin & Hr') & He & Hl & Hlog & Hclock).
      cbn [crawler_links log clock] in *.
      split; [exists r'; split; [by apply list_elem_of_further | done]|].
      repeat split; try done; cbn [length]; lia.
Qed.

(** ** [synthesize] ([synthesizer.py]) *)

(** [synthesize] never returns: a supported format ends in a method that the
    class does not define, any other in [ValueError]. *)
Lemma synthesize_raises w results format sys :
  exists e sys', Synthesizer.synthesize w results format sys = (Raise e, sys').
Proof.
  unfold Synthesizer.synthesize, log_and_reraise, try_except, bind, lift, raise.
  destruct (Synthesizer._process_results w results) as [processed|e]; [|eauto].
  destruct (Synthesizer._structure_documents processed sys) as [[documents|e] sys1];
    [|eauto].
  destruct (String.eqb (lower format) "json"); [eauto|].
  destruct (String.eqb (lower format) "markdown"); [eauto|].
  destruct (String.eqb (lower format) "text"); eauto.
Qed.

(** On page records [synthesize] goes through de-duplication and structuring,
    which reads the clock once for every page kept, and ends at the format. *)
Lemma synthesize_pages w results format sys :
  Forall is_page results ->
  Synthesizer.synthesize w results format sys
  = (Raise (format_outcome format),
     mkSys (crawler_links sys)
       (log sys ++ [mkLog ERROR ("Error synthesizing documents: "
                                 ++ exn_msg (format_outcome format))])
       (clock sys
        + length (first_seen (fun r => hash_atom w (content_of r)) results))).
Proof.
  intros Hpages.
  destruct (process_results_first_seen w results Hpages) as [Hproc Hkept].
  unfold Synthesizer.synthesize, log_and_reraise, try_except, bind, lift, raise.
  rewrite Hproc.
  destruct (structure_documents_pages _ Hkept sys) as (docs & -> & _).
  unfold format_outcome.
  destruct (String.eqb (lower format) "json"); [done|].
  destruct (String.eqb (lower format) "markdown"); [done|].
  destruct (String.eqb (lower format) "text"); done.
Qed.

Lemma synthesize_search_results w sr srs format sys :
  Synthesizer.synthesize w (map SearchResult_obj (sr :: srs)) format sys
  = (Raise (mkExn TypeError "object is not subscriptable"),
     mkSys (crawler_links sys)
       (log sys ++ [mkLog ERROR
                      "Error synthesizing documents: object is not subscriptable"])
       (clock sys)).
Proof. reflexivity. Qed.

(** C7.  On page records (dicts with a [url] and a string [content])
    [_process_results] is the first-seen selection by content fingerprint:
    the pages kept are in input order, no two of them have the same text,
    the first page of each fingerprint is among them and every input page has
    its fingerprint among them; when no two texts of the input share a
    fingerprint, the first page of each text is kept; a page followed by a
    copy of its text gives one page; and [_structure_documents] builds one
    document for each page kept.  But [synthesize] returns no document at
    all: after de-duplication and structuring, which reads the clock once for
    each page kept, it raises and logs; on [json], [markdown] and [text] the
    exception is the [AttributeError] of [_format_json], [_format_markdown]
    or [_format_text], which the class does not define.  On the records that
    [scrape] passes, instances of [SearchResult], it raises [TypeError] at
    the first record. *)
Theorem dedup_first_seen (w : World) (results : list pyval) :
  Forall is_page results ->
  let key := fun r => hash_atom w (content_of r) in
  let kept := first_seen key results in
  Synthesizer._process_results w results = Ok kept
  /\ kept `sublist_of` results
  /\ NoDup (content_of <$> kept)
  /\ (forall l1 p l2, results = (l1 ++ p :: l2)%list ->
        (forall q, q ∈ l1 -> key q <> key p) -> p ∈ kept)
  /\ (forall p, p ∈ results -> exists q, q ∈ kept /\ key q = key p)
  /\ ((forall p q, p ∈ results -> q ∈ results -> key p = key q ->
                   content_of p = content_of q) ->
      forall l1 p l2, results = (l1 ++ p :: l2)%list ->
        (forall q, q ∈ l1 -> content_of q <> content_of p) -> p ∈ kept)
  /\ (forall x y, results = [x; y] -> content_of x = content_of y -> kept = [x])
  /\ (forall sys, exists docs,
        Synthesizer._structure_documents kept sys
        = (Ok docs, mkSys (crawler_links sys) (log sys) (clock sys + length kept))
        /\ content_of <$> docs = content_of <$> kept
        /\ length docs = length kept)
  /\ (forall format sys,
        Synthesizer.synthesize w results format sys
        = (Raise (format_outcome format),
           mkSys (crawler_links sys)
             (log sys ++ [mkLog ERROR ("Error synthesizing documents: "
                                       ++ exn_msg (format_outcome format))])
             (clock sys + length kept)))
  /\ format_outcome "json"
     = mkExn AttributeError "'DocumentSynthesizer' object has no attribute '_format_json'"
  /\ (forall format, supported format -> exn_cls (format_outcome format) = AttributeError)
  /\ (forall sr srs format sys, exists e,
        exn_cls e = TypeError
        /\ fst (Synthesizer.synthesize w (map Client.SearchResult_obj (sr :: srs))
                 format sys) = Raise e).
Proof.
  intros Hpages key kept.
  destruct (process_results_first_seen w results Hpages) as [Hproc Hkept].
  split; [exact Hproc|].
  split; [apply first_seen_sublist|].
  split.
  { pose proof (first_seen_keys_NoDup key results) as Hnd. fold kept in Hnd.
    unfold key in Hnd. rewrite (list_fmap_compose content_of (hash_atom w)) in Hnd.
    by apply NoDup_fmap_1 in Hnd. }
  split; [intros l1 p l2 -> Hfresh; by apply first_seen_keeps_first|].
  split; [intros p Hp; by apply first_seen_covers|].
  split.
  { intros Hinj l1 p l2 -> Hfresh. apply first_seen_keeps_first.
    intros q Hq E. apply (Hfresh q Hq). apply Hinj; [| |done].
    - apply elem_of_app. by left.
    - apply elem_of_app. right. apply list_elem_of_here. }
  split.
  { intros x y -> E. unfold kept. simpl.
    rewrite filter_cons_False; [done|]. unfold key. rewrite E. tauto. }
  split; [by apply structure_documents_pages|].
  split; [intros format sys; by apply synthesize_pages|].
  split; [reflexivity|].
  split.
  { intros format Hs. unfold format_outcome, supported in *.
    destruct (String.eqb_spec (lower format) "json") as [|Hj]; [done|].
    destruct (String.eqb_spec (lower format) "markdown") as [|Hm]; [done|].
    destruct (String.eqb_spec (lower format) "text") as [|Ht]; [done|].
    by destruct Hs as [?|[?|?]]. }
  intros sr srs format sys. rewrite synthesize_search_results.
  eexists. split; [|reflexivity]. reflexivity.
Qed.

(** C7 at the input of the specification, a page followed by a page with the
    same text, in the format [json]: one page is kept, the first; one
    document is built (the clock is read once); and [synthesize] raises. *)
Lemma dedup_first_seen_witness :
  Forall is_page [Demo.pageX; Demo.pageX_duplicate_content]
  /\ Synthesizer._process_results (Demo.world Demo.online PNone)
       [Demo.pageX; Demo.pageX_duplicate_content] = Ok [Demo.pageX]
  /\ Synthesizer.synthesize (Demo.world Demo.online PNone)
       [Demo.pageX; Demo.pageX_duplicate_content] "json" Demo.sys0
     = (Raise (mkExn AttributeError
                 "'DocumentSynthesizer' object has no attribute '_format_json'"),
        mkSys []
          [mkLog ERROR
             "Error synthesizing documents: 'DocumentSynthesizer' object has no attribute '_format_json'"]
          1).
Proof.
  assert (H : Forall is_page [Demo.pageX; Demo.pageX_duplicate_content]).
  { repeat constructor; eexists _, _, _; repeat split; reflexivity. }
  split; [exact H|].
  destruct (dedup_first_seen (Demo.world Demo.online PNone) _ H)
    as (Hkept & _ & _ & _ & _ & _ & _ & _ & Hsyn & _).
  split; [exact Hkept|].
  rewrite Hsyn. reflexivity.
Defined.

(** ** The crawl loop ([client.py], [scrape]) *)

(** Splits on the next call of a collaborator in the goal. *)
Ltac next_call :=
  match goal with
  | |- context [crawler_crawl ?c ?u ?s] =>
      destruct (crawler_crawl c u s) as [[?page|?e] ?sys1] eqn:?Hcrawl
  | |- context [extractor_extract ?c ?p ?u ?s] =>
      destruct (extractor_extract c p u s) as [[?content|?e] ?sys2] eqn:?Hextract
  | |- context [ai_analyze_content_relevance ?c ?x ?i ?u ?s] =>
      destruct (ai_analyze_content_relevance c x i u s) as [[?score|?e] ?sys3] eqn:?Hscore
  | |- context [crawler_get_links ?c ?s] =>
      destruct (crawler_get_links c s) as [[?links|?e] ?sys4] eqn:?Hlinks
  | |- context [ai_suggest_navigation_paths ?c ?x ?l ?i ?s] =>
      destruct (ai_suggest_navigation_paths c x l i s) as [[?next_pages|?e] ?sys5] eqn:?Hrank
  | |- context [float_ge ?a ?b] => destruct (float_ge a b) eqn:?Hge
  end.

(** What one pass changes, whatever the collaborators do. *)
Lemma loop_body_effect c instructions min_relevance st sys u rest r st' sys' :
  urls_to_visit st = u :: rest ->
  loop_body c instructions min_relevance st sys = (r, st', sys') ->
  saved st' = saved st
  /\ (u ∈ visited_urls st -> r = None /\ st' = with_queue st rest /\ sys' = sys)
  /\ (u ∉ visited_urls st ->
      fetched st' = (fetched st ++ [u])%list
      /\ (visited_urls st' = {[u]} ∪ visited_urls st
          \/ (visited_urls st' = visited_urls st /\ r <> None))
      /\ (results st' = results st
          \/ exists sr, results st' = (results st ++ [sr])%list
                        /\ sr_url sr = u
                        /\ float_ge (sr_relevance_score sr) min_relevance = true)).
Proof.
  intros Hq. unfold loop_body. rewrite Hq. cbn [with_queue visited_urls].
  destruct (decide (u ∈ visited_urls st)) as [Hin|Hout].
  { intros [= <- <- <-]. split; [done|]. split; [done|]. intros ?; done. }
  repeat next_call; intros [= <- <- <-]; cbn;
    (split; [done|]); (split; [intros ?; done|]); intros _;
    (split; [done|]); (split; [eauto|]); eauto 10.
Qed.

Lemma loop_guard_true max_pages st :
  loop_guard max_pages st = true ->
  exists u rest, urls_to_visit st = u :: rest
                 /\ (Z.of_nat (size (visited_urls st)) < max_pages)%Z.
Proof.
  unfold loop_guard. destruct (urls_to_visit st) as [|u rest]; [done|].
  intros H. exists u, rest. split; [done|]. by apply Z.ltb_lt.
Qed.

Lemma loop_inv_size st : loop_inv st -> size (visited_urls st) = length (fetched st).
Proof. intros [Hnd ->]. by apply size_list_to_set. Qed.

Lemma loop_inv_initial url : loop_inv (initial url).
Proof. split; [constructor | reflexivity]. Qed.

(** One pass keeps the fetched pages distinct and adds at most one page. *)
Lemma loop_body_inv c instructions min_relevance st sys u rest r st' sys' :
  loop_inv st ->
  urls_to_visit st = u :: rest ->
  loop_body c instructions min_relevance st sys = (r, st', sys') ->
  NoDup (fetched st')
  /\ visited_urls st' ⊆ list_to_set (fetched st')
  /\ (length (fetched st') <= S (size (visited_urls st)))%nat
  /\ (size (visited_urls st') <= S (size (visited_urls st)))%nat
  /\ (r = None -> loop_inv st')
  /\ (r = None -> u ∉ visited_urls st ->
      size (visited_urls st') = S (size (visited_urls st))).
Proof.
  intros Hinv Hq Hbody.
  pose proof (loop_inv_size st Hinv) as Hsize. destruct Hinv as [Hnd Hvis].
  destruct (loop_body_effect _ _ _ _ _ _ _ _ _ _ Hq Hbody) as (_ & Hskip & Hfetch).
  destruct (decide (u ∈ visited_urls st)) as [Hin|Hout].
  - destruct (Hskip Hin) as (-> & -> & ->). cbn.
    repeat split; try done; try lia. by rewrite Hvis.
  - destruct (Hfetch Hout) as (Hf & Hv & _).
    assert (Hnd' : NoDup (fetched st')).
    { rewrite Hf. apply NoDup_app. split; [done|]. split; [|apply NoDup_singleton].
      intros x Hx ->%list_elem_of_singleton. apply Hout. rewrite Hvis.
      by apply elem_of_list_to_set. }
    assert (Hlen : length (fetched st') = S (size (visited_urls st))).
    { rewrite Hf, length_app, Hsize. simpl. lia. }
    assert (Hset : list_to_set (fetched st') = ({[u]} ∪ visited_urls st : gset string)).
    { rewrite Hf, list_to_set_app_L, <- Hvis. simpl. set_solver. }
    assert (Hgrow : size ({[u]} ∪ visited_urls st) = S (size (visited_urls st))).
    { rewrite size_union by set_solver. by rewrite size_singleton. }
    destruct Hv as [Hv|[Hv Hr]].
    + rewrite Hv, Hset, Hgrow. repeat split; try done; try lia.
      by rewrite Hv, Hset.
    + rewrite Hv, Hset. repeat split; try done; try lia; set_solver.
Qed.

(** The bounds kept by the loop, from any state that satisfies the invariant. *)
Lemma crawl_loop_inv c instructions max_pages min_relevance fuel :
  forall st sys o st' sys',
    loop_inv st ->
    (Z.of_nat (size (visited_urls st)) <= max_pages)%Z ->
    crawl_loop c instructions max_pages min_relevance fuel st sys = (o, st', sys') ->
    NoDup (fetched st')
    /\ visited_urls st' ⊆ list_to_set (fetched st')
    /\ (Z.of_nat (length (fetched st')) <= max_pages)%Z
    /\ (Z.of_nat (size (visited_urls st')) <= max_pages)%Z.
Proof.
  assert (Hstay : forall st, loop_inv st ->
            (Z.of_nat (size (visited_urls st)) <= max_pages)%Z ->
            NoDup (fetched st)
            /\ visited_urls st ⊆ list_to_set (fetched st)
            /\ (Z.of_nat (length (fetched st)) <= max_pages)%Z
            /\ (Z.of_nat (size (visited_urls st)) <= max_pages)%Z).
  { intros st Hinv Hle. pose proof (loop_inv_size st Hinv) as Hs.
    destruct Hinv as [Hnd Hvis]. repeat split; try done; [by rewrite Hvis | lia]. }
  induction fuel as [|fuel IH]; intros st sys o st' sys' Hinv Hle; cbn [crawl_loop].
  - destruct (loop_guard max_pages st); intros [= <- <- <-]; by apply Hstay.
  - destruct (loop_guard max_pages st) eqn:Hg; [|intros [= <- <- <-]; by apply Hstay].
    destruct (loop_guard_true _ _ Hg) as (u & rest & Hq & Hlt).
    destruct (loop_body c instructions min_relevance st sys) as [[r st1] sys1] eqn:Hbody.
    destruct (loop_body_inv _ _ _ _ _ _ _ _ _ _ Hinv Hq Hbody)
      as (Hnd & Hsub & Hlen & Hsz & Hnext & _).
    destruct r as [e|].
    + intros [= <- <- <-]. repeat split; try done; lia.
    + apply IH; [by apply Hnext | lia].
Qed.

(** The loop ends: some number of passes gives a final status, and more fuel
    gives the same outcome. *)
Lemma crawl_loop_ends c instructions max_pages min_relevance :
  forall (k n : nat) st sys,
    (max_pages - Z.of_nat (size (visited_urls st)) <= Z.of_nat k)%Z ->
    (length (urls_to_visit st) <= n)%nat ->
    exists fuel, forall fuel', (fuel <= fuel')%nat ->
      crawl_loop c instructions max_pages min_relevance fuel' st sys
      = crawl_loop c instructions max_pages min_relevance fuel st sys
      /\ fst (fst (crawl_loop c instructions max_pages min_relevance fuel st sys))
         <> Running.
Proof.
  assert (Hdone : forall st sys, loop_guard max_pages st = false ->
            exists fuel, forall fuel', (fuel <= fuel')%nat ->
              crawl_loop c instructions max_pages min_relevance fuel' st sys
              = crawl_loop c instructions max_pages min_relevance fuel st sys
              /\ fst (fst (crawl_loop c instructions max_pages min_relevance fuel st sys))
                 <> Running).
  { intros st sys Hg. exists O. intros fuel' _.
    destruct fuel'; cbn [crawl_loop]; rewrite Hg; done. }
  assert (Hstep : forall st sys st1 sys1,
            loop_guard max_pages st = true ->
            loop_body c instructions min_relevance st sys = (None, st1, sys1) ->
            (exists fuel, forall fuel', (fuel <= fuel')%nat ->
              crawl_loop c instructions max_pages min_relevance fuel' st1 sys1
              = crawl_loop c instructions max_pages min_relevance fuel st1 sys1
              /\ fst (fst (crawl_loop c instructions max_pages min_relevance fuel st1 sys1))
                 <> Running) ->
            exists fuel, forall fuel', (fuel <= fuel')%nat ->
              crawl_loop c instructions max_pages min_relevance fuel' st sys
              = crawl_loop c instructions max_pages min_relevance fuel st sys
              /\ fst (fst (crawl_loop c instructions max_pages min_relevance fuel st sys))
                 <> Running).
  { intros st sys st1 sys1 Hg Hbody [fuel Hfuel]. exists (S fuel). intros fuel' Hle.
    destruct fuel' as [|fuel']; [lia|]. cbn [crawl_loop]. rewrite Hg, Hbody.
    apply Hfuel. lia. }
  induction k as [|k IHk]; induction n as [|n IHn]; intros st sys Hk Hn;
    destruct (loop_guard max_pages st) eqn:Hg; try (by apply Hdone);
    destruct (loop_guard_true _ _ Hg) as (u & rest & Hq & Hlt);
    try lia; try (rewrite Hq in Hn; simpl in Hn; lia).
  destruct (loop_body c instructions min_relevance st sys) as [[r st1] sys1] eqn:Hbody.
  destruct r as [e|].
  { exists 1%nat. intros fuel' Hle. destruct fuel' as [|fuel']; [lia|].
    cbn [crawl_loop]. rewrite Hg, Hbody. done. }
  apply (Hstep _ _ _ _ Hg Hbody).
  destruct (loop_body_effect _ _ _ _ _ _ _ _ _ _ Hq Hbody) as (_ & Hskip & Hfetch).
  destruct (decide (u ∈ visited_urls st)) as [Hin|Hout].
  - destruct (Hskip Hin) as (_ & -> & ->). apply IHn; cbn.
    + done.
    + rewrite Hq in Hn. simpl in Hn. lia.
  - destruct (Hfetch Hout) as (_ & [Hv|[_ Hr]] & _); [|done].
    apply (IHk (length (urls_to_visit st1))); [|done].
    rewrite Hv, size_union, size_singleton by set_solver. lia.
Qed.
(** [scrape_from] leaves the variables of the loop as the loop left them, and
    turns its status into the result of the [try] statement. *)
Lemma scrape_from_loop c dir instructions max_pages min_relevance format fuel st sys :
  forall o st1 sys1 r st' sys',
    crawl_loop c instructions max_pages min_relevance fuel st sys = (o, st1, sys1) ->
    scrape_from c dir instructions max_pages min_relevance format fuel st sys
    = (r, st', sys') ->
    results st' = results st1
    /\ visited_urls st' = visited_urls st1
    /\ urls_to_visit st' = urls_to_visit st1
    /\ fetched st' = fetched st1
    /\ match o with
       | Running => r = None /\ st' = st1 /\ sys' = sys1
       | Failed e =>
           r = Some (Raise e) /\ st' = st1
           /\ sys' = snd (emit ERROR ("Error during scraping: " ++ exn_msg e) sys1)
       | Completed =>
           r <> None
           /\ match synthesizer_synthesize c (map SearchResult_obj (results st1))
                      format sys1 with
              | (Raise e, _) => r = Some (Raise e) /\ saved st' = saved st1
              | (Ok documents, _) =>
                  (r = Some (Ok documents) \/ exists e, r = Some (Raise e))
                  /\ exists file, saved st' = (saved st1 ++ [file])%list
              end
       end.
Proof.
  intros o st1 sys1 r st' sys' Hloop. unfold scrape_from. rewrite Hloop.
  destruct o as [| |e].
  - intros [= <- <- <-]. done.
  - destruct (synthesizer_synthesize c _ format sys1) as [[documents|e] sys2];
      [|intros [= <- <- <-]; done].
    destruct (synthesizer_save c documents _ _) as [[[]|e] sys3];
      intros [= <- <- <-]; cbn; repeat split; eauto.
  - intros [= <- <- <-]. done.
Qed.

(** [scrape] ends: from some amount of fuel on, it gives one and the same
    outcome, which is a result or an exception. *)
Lemma scrape_ends c dir url instructions max_pages min_relevance format sys :
  exists fuel0, forall fuel, (fuel0 <= fuel)%nat ->
    scrape c dir url instructions max_pages min_relevance format fuel sys
    = scrape c dir url instructions max_pages min_relevance format fuel0 sys
    /\ fst (fst (scrape c dir url instructions max_pages min_relevance format fuel0 sys))
       <> None.
Proof.
  unfold scrape.
  set (sys1 := snd (emit INFO ("Starting search with instructions: " ++ instructions) sys)).
  destruct (crawl_loop_ends c instructions max_pages min_relevance
              (Z.to_nat max_pages) 1 (initial url) sys1) as [fuel0 Hends].
  { cbn. rewrite size_empty. lia. }
  { cbn. lia. }
  exists fuel0. intros fuel Hle. destruct (Hends fuel Hle) as [Heq Hrun].
  unfold scrape_from. rewrite Heq. split; [done|].
  destruct (crawl_loop c instructions max_pages min_relevance fuel0 (initial url) sys1)
    as [[o st1] sys2].
  destruct o as [| |e]; cbn in Hrun; [done| |done].
  destruct (synthesizer_synthesize c _ format sys2) as [[documents|e] sys3]; [|done].
  destruct (synthesizer_save c documents _ _) as [[[]|e] sys4]; done.
Qed.

(** The loop never calls [save]. *)
Lemma crawl_loop_saved c instructions max_pages min_relevance fuel :
  forall st sys o st' sys',
    crawl_loop c instructions max_pages min_relevance fuel st sys = (o, st', sys') ->
    saved st' = saved st.
Proof.
  induction fuel as [|fuel IH]; intros st sys o st' sys'; cbn [crawl_loop].
  - destruct (loop_guard max_pages st); intros [= <- <- <-]; done.
  - destruct (loop_guard max_pages st) eqn:Hg; [|intros [= <- <- <-]; done].
    destruct (loop_guard_true _ _ Hg) as (u & rest & Hq & _).
    destruct (loop_body c instructions min_relevance st sys) as [[r st1] sys1] eqn:Hbody.
    destruct (loop_body_effect _ _ _ _ _ _ _ _ _ _ Hq Hbody) as (Hsaved & _).
    destruct r as [e|]; [intros [= <- <- <-]; done|].
    intros Hloop. rewrite (IH _ _ _ _ _ Hloop). done.
Qed.

(** With a synthesizer that never returns, [scrape] returns no documents and
    saves nothing. *)
Lemma scrape_synthesizer_raises c :
  (forall results format sys,
     exists e sys', synthesizer_synthesize c results format sys = (Raise e, sys')) ->
  forall dir url instructions max_pages min_relevance format fuel sys,
    let '(r, st, _) :=
      scrape c dir url instructions max_pages min_relevance format fuel sys in
    saved st = [] /\ (r = None \/ exists e, r = Some (Raise e)).
Proof.
  intros Hsyn dir url instructions max_pages min_relevance format fuel sys.
  unfold scrape.
  destruct (scrape_from _ _ _ _ _ _ _ _ _) as [[r st'] sys'] eqn:Hscrape.
  destruct (crawl_loop c instructions max_pages min_relevance fuel (initial url)
              (snd (emit INFO ("Starting search with instructions: " ++ instructions) sys)))
    as [[o st1] sys1] eqn:Hloop.
  destruct (scrape_from_loop _ _ _ _ _ _ _ _ _ _ _ _ _ _ _ Hloop Hscrape)
    as (_ & _ & _ & _ & Ho).
  pose proof (crawl_loop_saved _ _ _ _ _ _ _ _ _ _ Hloop) as Hsaved.
  cbn [initial saved] in Hsaved.
  destruct o as [| |e].
  - destruct Ho as (-> & -> & _). auto.
  - destruct Ho as [_ Ho].
    destruct (Hsyn (map SearchResult_obj (results st1)) format sys1) as (e & sys2 & Hraise).
    rewrite Hraise in Ho. destruct Ho as [-> ->]. eauto.
  - destruct Ho as (-> & -> & _). eauto.
Qed.

(** With a synthesizer that never returns, [scrape] raises, given enough
    fuel for the loop to end. *)
Lemma scrape_synthesizer_raises_ends c :
  (forall results format sys,
     exists e sys', synthesizer_synthesize c results format sys = (Raise e, sys')) ->
  forall dir url instructions max_pages min_relevance format sys,
    exists fuel0, forall fuel, (fuel0 <= fuel)%nat ->
      exists e,
        fst (fst (scrape c dir url instructions max_pages min_relevance
                    format fuel sys)) = Some (Raise e).
Proof.
  intros Hsyn dir url instructions max_pages min_relevance format sys.
  destruct (scrape_ends c dir url instructions max_pages min_relevance format sys)
    as [fuel0 Hends].
  exists fuel0. intros fuel Hle. destruct (Hends fuel Hle) as [Heq Hne].
  pose proof (scrape_synthesizer_raises c Hsyn dir url instructions max_pages
                min_relevance format fuel sys) as H.
  rewrite Heq in H |- *.
  destruct (scrape c dir url instructions max_pages min_relevance format fuel0 sys)
    as [[r st] sys'].
  cbn [fst] in *. destruct H as [_ [->|H]]; done.
Qed.

(** C4.  With a page budget [max_pages >= 0]: a pass of the loop is entered
    only while fewer than [max_pages] URLs are visited, and whatever the
    collaborators do and however long the run lasts, [scrape] has visited at
    most [max_pages] URLs and has called the crawler at most [max_pages]
    times, on distinct URLs. *)
Theorem page_budget c dir url instructions max_pages min_relevance format fuel sys :
  (0 <= max_pages)%Z ->
  (forall st, loop_guard max_pages st = true ->
              (Z.of_nat (size (visited_urls st)) < max_pages)%Z)
  /\ (let '(_, st, _) :=
        scrape c dir url instructions max_pages min_relevance format fuel sys in
      (Z.of_nat (size (visited_urls st)) <= max_pages)%Z
      /\ (Z.of_nat (length (fetched st)) <= max_pages)%Z
      /\ NoDup (fetched st)
      /\ visited_urls st ⊆ list_to_set (fetched st)).
Proof.
  intros Hpos. split.
  { intros st Hg. by destruct (loop_guard_true _ _ Hg) as (u & rest & _ & Hlt). }
  unfold scrape.
  destruct (scrape_from _ _ _ _ _ _ _ _ _) as [[r st'] sys'] eqn:Hscrape.
  destruct (crawl_loop c instructions max_pages min_relevance fuel (initial url)
              (snd (emit INFO ("Starting search with instructions: " ++ instructions) sys)))
    as [[o st1] sys1] eqn:Hloop.
  destruct (scrape_from_loop _ _ _ _ _ _ _ _ _ _ _ _ _ _ _ Hloop Hscrape)
    as (_ & Hv & _ & Hf & _).
  destruct (crawl_loop_inv _ _ _ _ _ _ _ _ _ _ (loop_inv_initial url) Hpos Hloop)
    as (Hnd & Hsub & Hlen & Hsz).
  rewrite Hv, Hf. done.
Qed.

(** C4 on the scenario of the specification, with a budget of two pages. *)
Lemma page_budget_witness :
  let '(_, st, _) :=
    scrape (Demo.scripted Demo.site_abc) "out" "A" "goal" 2 (7 # 10) "json" 10 Demo.sys0 in
  (Z.of_nat (size (visited_urls st)) <= 2)%Z
  /\ (Z.of_nat (length (fetched st)) <= 2)%Z
  /\ NoDup (fetched st)
  /\ visited_urls st ⊆ list_to_set (fetched st).
Proof.
  apply (page_budget (Demo.scripted Demo.site_abc) "out" "A" "goal" 2 (7 # 10)
           "json" 10 Demo.sys0).
  lia.
Defined.

(** C5.  Whatever the collaborators do and however long the run lasts, the
    URLs given to the crawler during one [scrape] are pairwise distinct; in
    every pass the URL taken from the frontier is looked up in the visited set
    first: when it is there the pass changes nothing but the frontier, and
    when it is not the crawler is called on it and, if the crawler returns,
    the URL is in the visited set from then on (if the crawler raises, the
    pass ends with that exception). *)
Theorem no_revisit c dir url instructions max_pages min_relevance format fuel sys :
  (let '(_, st, _) :=
     scrape c dir url instructions max_pages min_relevance format fuel sys in
   NoDup (fetched st))
  /\ (forall res vis u rest f sv sys0,
        let st := mkLoop res vis (u :: rest) f sv in
        let '(r, st', sys') := loop_body c instructions min_relevance st sys0 in
        if decide (u ∈ vis)
        then r = None /\ st' = with_queue st rest /\ sys' = sys0
        else fetched st' = (f ++ [u])%list
             /\ match fst (crawler_crawl c u
                             (snd (emit DEBUG ("Crawling: " ++ u) sys0))) with
                | Ok _ => u ∈ visited_urls st'
                | Raise e => r = Some e /\ visited_urls st' = vis
                end).
Proof.
  split.
  - unfold scrape.
    destruct (scrape_from _ _ _ _ _ _ _ _ _) as [[r st'] sys'] eqn:Hscrape.
    destruct (crawl_loop c instructions max_pages min_relevance fuel (initial url)
                (snd (emit INFO ("Starting search with instructions: " ++ instructions) sys)))
      as [[o st1] sys1] eqn:Hloop.
    destruct (scrape_from_loop _ _ _ _ _ _ _ _ _ _ _ _ _ _ _ Hloop Hscrape)
      as (_ & _ & _ & Hf & _).
    rewrite Hf. clear Hscrape Hf.
    destruct (Z_lt_le_dec max_pages 0) as [Hneg|Hpos].
    + assert (Hg : loop_guard max_pages (initial url) = false).
      { cbn. apply Z.ltb_ge. lia. }
      destruct fuel; cbn [crawl_loop] in Hloop; rewrite Hg in Hloop;
        injection Hloop as <- <- <-; constructor.
    + by destruct (crawl_loop_inv _ _ _ _ _ _ _ _ _ _ (loop_inv_initial url) Hpos Hloop)
        as (Hnd & _).
  - intros res vis u rest f sv sys0 st.
    destruct (loop_body c instructions min_relevance st sys0) as [[r st'] sys'] eqn:Hbody.
    destruct (decide (u ∈ vis)) as [Hin|Hout].
    + destruct (loop_body_effect c instructions min_relevance st sys0 u rest
                  r st' sys' eq_refl Hbody) as (_ & Hskip & _).
      by apply Hskip.
    + revert Hbody. unfold loop_body, st. cbn [urls_to_visit with_queue visited_urls].
      destruct (decide (u ∈ vis)) as [|_]; [done|].
      repeat next_call; intros [= <- <- <-]; cbn; split; try done;
        apply elem_of_union_l, elem_of_singleton; done.
Qed.
(** Every accepted page reached the threshold, throughout the loop. *)
Lemma crawl_loop_results c instructions max_pages min_relevance fuel :
  forall st sys o st' sys',
    Forall (fun sr => (min_relevance <= sr_relevance_score sr)%Q) (results st) ->
    crawl_loop c instructions max_pages min_relevance fuel st sys = (o, st', sys') ->
    Forall (fun sr => (min_relevance <= sr_relevance_score sr)%Q) (results st').
Proof.
  induction fuel as [|fuel IH]; intros st sys o st' sys' Hres; cbn [crawl_loop].
  - destruct (loop_guard max_pages st); intros [= <- <- <-]; done.
  - destruct (loop_guard max_pages st) eqn:Hg; [|intros [= <- <- <-]; done].
    destruct (loop_guard_true _ _ Hg) as (u & rest & Hq & _).
    destruct (loop_body c instructions min_relevance st sys) as [[r st1] sys1] eqn:Hbody.
    assert (Hres1 : Forall (fun sr => (min_relevance <= sr_relevance_score sr)%Q)
                      (results st1)).
    { destruct (loop_body_effect _ _ _ _ _ _ _ _ _ _ Hq Hbody) as (_ & Hskip & Hfetch).
      destruct (decide (u ∈ visited_urls st)) as [Hin|Hout].
      - by destruct (Hskip Hin) as (_ & -> & _).
      - destruct (Hfetch Hout) as (_ & _ & [->|(sr & -> & _ & Hge)]); [done|].
        apply Forall_app. split; [done|]. constructor; [|constructor].
        by apply float_ge_true. }
    destruct r as [e|]; [intros [= <- <- <-]; done | by apply IH].
Qed.

(** With the crawler of the sources the frontier never grows: a pass takes
    the first URL from it and adds none, and a pass that accepts a page ends
    with the [AttributeError] of [get_links]. *)
Lemma loop_body_no_get_links c instructions min_relevance st sys u rest r st' sys' :
  crawler_get_links c = Crawler.get_links ->
  urls_to_visit st = u :: rest ->
  loop_body c instructions min_relevance st sys = (r, st', sys') ->
  urls_to_visit st' = rest
  /\ (results st' = results st
      \/ ((exists sr, results st' = (results st ++ [sr])%list)
          /\ r = Some (mkExn AttributeError
                         "'WebCrawler' object has no attribute 'get_links'"))).
Proof.
  intros Hlinks Hq. unfold loop_body. rewrite Hq, Hlinks.
  cbn [with_queue visited_urls].
  destruct (decide (u ∈ visited_urls st)) as [Hin|Hout];
    [intros [= <- <- <-]; by split; [|left]|].
  destruct (crawler_crawl c u _) as [[page|e] sys1];
    [|intros [= <- <- <-]; by split; [|left]].
  destruct (extractor_extract c page u sys1) as [[content|e] sys2];
    [|intros [= <- <- <-]; by split; [|left]].
  destruct (ai_analyze_content_relevance c content instructions u sys2)
    as [[score|e] sys3]; [|intros [= <- <- <-]; by split; [|left]].
  destruct (float_ge (relevance_score score) min_relevance);
    [|intros [= <- <- <-]; by split; [|left]].
  cbn. intros [= <- <- <-]. split; [done|]. right. split; [by eexists | done].
Qed.

Lemma crawl_loop_no_get_links c instructions max_pages min_relevance fuel url sys
    o st sys' :
  crawler_get_links c = Crawler.get_links ->
  crawl_loop c instructions max_pages min_relevance fuel (initial url) sys
  = (o, st, sys') ->
  (fetched st = [] \/ fetched st = [url])
  /\ (length (results st) <= 1)%nat
  /\ (results st <> [] ->
      o = Failed (mkExn AttributeError
                    "'WebCrawler' object has no attribute 'get_links'")).
Proof.
  intros Hlinks.
  assert (Hstart : (fetched (initial url) = [] \/ fetched (initial url) = [url])
                   /\ (length (results (initial url)) <= 1)%nat
                   /\ (results (initial url) <> [] ->
                       Completed = Failed (mkExn AttributeError
                                     "'WebCrawler' object has no attribute 'get_links'"))).
  { cbn. split; [by left|]. split; [lia|done]. }
  assert (Hstart' : (fetched (initial url) = [] \/ fetched (initial url) = [url])
                   /\ (length (results (initial url)) <= 1)%nat
                   /\ (results (initial url) <> [] ->
                       Running = Failed (mkExn AttributeError
                                     "'WebCrawler' object has no attribute 'get_links'"))).
  { cbn. split; [by left|]. split; [lia|done]. }
  destruct fuel as [|fuel]; cbn [crawl_loop].
  { destruct (loop_guard max_pages (initial url)); intros [= <- <- <-]; done. }
  destruct (loop_guard max_pages (initial url)) eqn:Hg;
    [|intros [= <- <- <-]; done].
  destruct (loop_body c instructions min_relevance (initial url) sys)
    as [[r st1] sys1] eqn:Hbody.
  destruct (loop_body_no_get_links c instructions min_relevance (initial url) sys
              url [] r st1 sys1 Hlinks eq_refl Hbody) as [Hq Hres].
  destruct (loop_body_effect c instructions min_relevance (initial url) sys url []
              r st1 sys1 eq_refl Hbody) as (_ & _ & Hfetch).
  destruct (Hfetch (not_elem_of_empty (C := gset string) url)) as (Hf & _).
  cbn [initial fetched results app] in Hf, Hres.
  assert (Hdone : forall st2 sys2,
            crawl_loop c instructions max_pages min_relevance fuel st1 sys1
            = (Completed, st2, sys2) -> st2 = st1).
  { intros st2 sys2. assert (Hg1 : loop_guard max_pages st1 = false)
      by (unfold loop_guard; by rewrite Hq).
    destruct fuel; cbn [crawl_loop]; rewrite Hg1; by intros [= <- <-]. }
  assert (Hnext : exists st2 sys2,
            crawl_loop c instructions max_pages min_relevance fuel st1 sys1
            = (Completed, st2, sys2)).
  { assert (Hg1 : loop_guard max_pages st1 = false)
      by (unfold loop_guard; by rewrite Hq).
    destruct fuel; cbn [crawl_loop]; rewrite Hg1; eauto. }
  destruct r as [e|].
  - intros [= <- <- <-]. split; [by right|].
    destruct Hres as [->|[[sr ->] [= ->]]]; cbn; split; auto; done.
  - destruct Hnext as (st2 & sys2 & Hloop). rewrite Hloop.
    intros [= <- <- <-]. rewrite (Hdone _ _ Hloop).
    destruct Hres as [->|[_ [=]]]. split; [by right|]. cbn. split; [lia|done].
Qed.

(** C3.  For every run with threshold [min_relevance]: (1) every page in the
    result set of [scrape] has a relevance score of at least the threshold;
    (2) in a pass where the page was fetched, extracted and scored, if the
    score reaches the threshold the page is appended to the results and the
    links are asked for; if they are given and ranked, the frontier grows by
    exactly the suggestions selected by [promising], in ranking order; if the
    score is below the threshold the results are unchanged and the frontier
    only loses the URL taken, so no link of the page enters it; (3)
    [promising] selects exactly the suggestions whose URL is not visited and
    whose relevance is strictly above the threshold.  (4) But the links are
    asked of [self.crawler.get_links()], which [WebCrawler] does not define:
    with the crawler of the sources a pass that accepts a page appends it and
    then ends with [AttributeError], before the ranker is called and with
    nothing enqueued; so [scrape] never fetches another URL than the seed,
    accepts at most one page, and raises once it has accepted one. *)
Theorem threshold_gating c dir instructions max_pages min_relevance :
  (forall url format fuel sys,
     let '(_, st, _) :=
       scrape c dir url instructions max_pages min_relevance format fuel sys in
     Forall (fun sr => (min_relevance <= sr_relevance_score sr)%Q) (results st))
  /\ (forall res vis u rest f sv sys page sys1 content sys2 score sys3,
        u ∉ vis ->
        crawler_crawl c u (snd (emit DEBUG ("Crawling: " ++ u) sys)) = (Ok page, sys1) ->
        extractor_extract c page u sys1 = (Ok content, sys2) ->
        ai_analyze_content_relevance c content instructions u sys2 = (Ok score, sys3) ->
        let st := mkLoop res vis (u :: rest) f sv in
        let '(r, st', sys') := loop_body c instructions min_relevance st sys in
        if float_ge (relevance_score score) min_relevance
        then
          (min_relevance <= relevance_score score)%Q
          /\ results st'
             = (res ++ [mkSearchResult u content (relevance_score score)
                          (topic_match score) (information_density score)
                          (clock sys3)])%list
          /\ match crawler_get_links c (snd (now sys3)) with
             | (Ok links, sys4) =>
                 match ai_suggest_navigation_paths c content links instructions sys4 with
                 | (Ok next_pages, sys5) =>
                     r = None
                     /\ urls_to_visit st'
                        = (rest ++ promising ({[u]} ∪ vis) min_relevance next_pages)%list
                 | (Raise e, _) => r = Some e /\ urls_to_visit st' = rest
                 end
             | (Raise e, _) => r = Some e /\ urls_to_visit st' = rest
             end
        else
          (relevance_score score < min_relevance)%Q
          /\ r = None /\ results st' = res /\ urls_to_visit st' = rest)
  /\ (forall vis next_pages x,
        x ∈ promising vis min_relevance next_pages
        <-> exists p, p ∈ next_pages /\ sg_url p = x /\ (x ∉ vis)
                      /\ (min_relevance < sg_relevance_score p)%Q)
  /\ (crawler_get_links c = Crawler.get_links ->
      (forall res vis u rest f sv sys page sys1 content sys2 score sys3,
         u ∉ vis ->
         crawler_crawl c u (snd (emit DEBUG ("Crawling: " ++ u) sys)) = (Ok page, sys1) ->
         extractor_extract c page u sys1 = (Ok content, sys2) ->
         ai_analyze_content_relevance c content instructions u sys2 = (Ok score, sys3) ->
         (min_relevance <= relevance_score score)%Q ->
         loop_body c instructions min_relevance (mkLoop res vis (u :: rest) f sv) sys
         = (Some (mkExn AttributeError
                    "'WebCrawler' object has no attribute 'get_links'"),
            mkLoop (res ++ [mkSearchResult u content (relevance_score score)
                              (topic_match score) (information_density score)
                              (clock sys3)])
              ({[u]} ∪ vis) rest (f ++ [u]) sv,
            snd (now sys3)))
      /\ (forall url format fuel sys,
            let '(r, st, _) :=
              scrape c dir url instructions max_pages min_relevance format fuel sys in
            (fetched st = [] \/ fetched st = [url])
            /\ (length (results st) <= 1)%nat
            /\ (results st <> [] ->
                r = Some (Raise (mkExn AttributeError
                                   "'WebCrawler' object has no attribute 'get_links'"))))).
Proof.
  split; [|split; [|split]].
  - intros url format fuel sys. unfold scrape.
    destruct (scrape_from _ _ _ _ _ _ _ _ _) as [[r st'] sys'] eqn:Hscrape.
    destruct (crawl_loop c instructions max_pages min_relevance fuel (initial url)
                (snd (emit INFO ("Starting search with instructions: " ++ instructions) sys)))
      as [[o st1] sys1] eqn:Hloop.
    destruct (scrape_from_loop _ _ _ _ _ _ _ _ _ _ _ _ _ _ _ Hloop Hscrape) as (Hr & _).
    rewrite Hr. eapply crawl_loop_results; [|exact Hloop]. constructor.
  - intros res vis u rest f sv sys page sys1 content sys2 score sys3
      Hout Hcrawl Hextract Hscore st.
    unfold loop_body, st. cbn [urls_to_visit with_queue visited_urls].
    destruct (decide (u ∈ vis)) as [|_]; [done|].
    rewrite Hcrawl, Hextract, Hscore.
    destruct (float_ge (relevance_score score) min_relevance) eqn:Hge.
    + cbn [now snd].
      repeat next_call; (split; [by apply float_ge_true|]); done.
    + split; [by apply float_ge_false|]. done.
  - intros vis next_pages x. unfold promising.
    rewrite list_elem_of_fmap. split.
    + intros (p & -> & Hp). apply list_elem_of_filter in Hp as [[Hv Hgt] Hp].
      exists p. repeat split; try done. by apply float_gt_true.
    + intros (p & Hp & <- & Hv & Hgt). exists p. split; [done|].
      apply list_elem_of_filter. repeat split; try done. by apply float_gt_true.
  - intros Hlinks. split.
    + intros res vis u rest f sv sys page sys1 content sys2 score sys3
        Hout Hcrawl Hextract Hscore Hge.
      unfold loop_body. cbn [urls_to_visit with_queue visited_urls].
      destruct (decide (u ∈ vis)) as [|_]; [done|].
      rewrite Hcrawl, Hextract, Hscore, (proj2 (float_ge_true _ _) Hge), Hlinks.
      reflexivity.
    + intros url format fuel sys. unfold scrape.
      destruct (scrape_from _ _ _ _ _ _ _ _ _) as [[r st'] sys'] eqn:Hscrape.
      destruct (crawl_loop c instructions max_pages min_relevance fuel (initial url)
                  (snd (emit INFO ("Starting search with instructions: " ++ instructions) sys)))
        as [[o st1] sys1] eqn:Hloop.
      destruct (scrape_from_loop _ _ _ _ _ _ _ _ _ _ _ _ _ _ _ Hloop Hscrape)
        as (Hr & _ & _ & Hf & Ho).
      destruct (crawl_loop_no_get_links _ _ _ _ _ _ _ _ _ _ Hlinks Hloop)
        as (Hfetched & Hlen & Hfail).
      rewrite Hr, Hf. repeat split; try done.
      intros Hne. rewrite (Hfail Hne) in Ho. by destruct Ho as [-> _].
Qed.

(** C3 on the scenario of the specification with the crawler of the sources:
    A scores 0.9 against the threshold 0.7 and links to B (0.8) and C (0.5);
    A is accepted, and [scrape] raises: B is never enqueued. *)
Lemma threshold_gating_witness :
  let '(r, st, _) :=
    scrape (Demo.scripted_web_crawler Demo.site_abc) "out" "A" "goal" 2 (7 # 10)
      "json" 10 Demo.sys0 in
  r = Some (Raise (mkExn AttributeError
                     "'WebCrawler' object has no attribute 'get_links'"))
  /\ map sr_url (results st) = ["A"]
  /\ fetched st = ["A"]
  /\ urls_to_visit st = [].
Proof.
  pose proof (proj2 (proj2 (proj2 (proj2 (threshold_gating
                                            (Demo.scripted_web_crawler Demo.site_abc)
                                            "out" "goal" 2 (7 # 10))))
                       eq_refl)
                "A" "json" 10 Demo.sys0) as H.
  vm_compute in H. vm_compute.
  destruct H as (_ & _ & Hr). split; [apply Hr; discriminate | done].
Defined.

(** The scenario of the specification with doubles for all the collaborators,
    the crawler answering [get_links], run to its end with a budget of two
    pages: exactly A and B are fetched, both are accepted, C is never
    enqueued. *)
Example scenario_visits_A_and_B :
  let '(r, st, _) :=
    scrape (Demo.scripted Demo.site_abc) "out" "A" "goal" 2 (7 # 10) "json" 10
      Demo.sys0 in
  fetched st = ["A"; "B"]
  /\ map sr_url (results st) = ["A"; "B"]
  /\ urls_to_visit st = []
  /\ exists docs, r = Some (Ok (OutDocs docs)) /\ length docs = 2%nat.
Proof. vm_compute. repeat split. eexists. split; reflexivity. Qed.

(** C1, amended.  In a pass that takes an unvisited URL [u] from the
    frontier, a failure of the fetch, of the extraction or of the scoring is
    not caught inside the loop: the loop stops at that pass, the rest of the
    frontier is left unprocessed, the handler of [scrape] logs
    ["Error during scraping: ..."] and the same exception is raised to the
    caller, so no document is returned. *)
Theorem failure_aborts c dir instructions max_pages min_relevance format fuel
    res vis u rest f sv sys :
  let st := mkLoop res vis (u :: rest) f sv in
  loop_guard max_pages st = true ->
  u ∉ vis ->
  (forall e sys1,
     crawler_crawl c u (snd (emit DEBUG ("Crawling: " ++ u) sys)) = (Raise e, sys1) ->
     scrape_from c dir instructions max_pages min_relevance format (S fuel) st sys
     = (Some (Raise e), mkLoop res vis rest (f ++ [u]) sv,
        snd (emit ERROR ("Error during scraping: " ++ exn_msg e) sys1)))
  /\ (forall page sys1 e sys2,
        crawler_crawl c u (snd (emit DEBUG ("Crawling: " ++ u) sys)) = (Ok page, sys1) ->
        extractor_extract c page u sys1 = (Raise e, sys2) ->
        scrape_from c dir instructions max_pages min_relevance format (S fuel) st sys
        = (Some (Raise e), mkLoop res ({[u]} ∪ vis) rest (f ++ [u]) sv,
           snd (emit ERROR ("Error during scraping: " ++ exn_msg e) sys2)))
  /\ (forall page sys1 content sys2 e sys3,
        crawler_crawl c u (snd (emit DEBUG ("Crawling: " ++ u) sys)) = (Ok page, sys1) ->
        extractor_extract c page u sys1 = (Ok content, sys2) ->
        ai_analyze_content_relevance c content instructions u sys2 = (Raise e, sys3) ->
        scrape_from c dir instructions max_pages min_relevance format (S fuel) st sys
        = (Some (Raise e), mkLoop res ({[u]} ∪ vis) rest (f ++ [u]) sv,
           snd (emit ERROR ("Error during scraping: " ++ exn_msg e) sys3))).
Proof.
  intros st Hg Hout.
  assert (Hbody : forall e st1 sys1,
            loop_body c instructions min_relevance st sys = (Some e, st1, sys1) ->
            scrape_from c dir instructions max_pages min_relevance format (S fuel) st sys
            = (Some (Raise e), st1,
               snd (emit ERROR ("Error during scraping: " ++ exn_msg e) sys1))).
  { intros e st1 sys1 Hb. unfold scrape_from. cbn [crawl_loop]. by rewrite Hg, Hb. }
  repeat split.
  - intros e sys1 Hcrawl. apply Hbody.
    unfold loop_body, st. cbn [urls_to_visit with_queue visited_urls].
    destruct (decide (u ∈ vis)) as [|_]; [done|]. by rewrite Hcrawl.
  - intros page sys1 e sys2 Hcrawl Hextract. apply Hbody.
    unfold loop_body, st. cbn [urls_to_visit with_queue visited_urls].
    destruct (decide (u ∈ vis)) as [|_]; [done|]. by rewrite Hcrawl, Hextract.
  - intros page sys1 content sys2 e sys3 Hcrawl Hextract Hscore. apply Hbody.
    unfold loop_body, st. cbn [urls_to_visit with_queue visited_urls].
    destruct (decide (u ∈ vis)) as [|_]; [done|].
    by rewrite Hcrawl, Hextract, Hscore.
Qed.

(** The amended C1 on the site with a dead link, at the pass that takes B:
    the fetch fails and [scrape_from] raises, leaving C in the frontier. *)
Lemma failure_aborts_witness :
  scrape_from (Demo.scripted Demo.site_dead_link) "out" "goal" 10 (7 # 10) "json" 1
    (mkLoop [] {["A"]} ["B"; "C"] ["A"] []) Demo.sys0
  = (Some (Raise (mkExn RequestException "404 Client Error")),
     mkLoop [] {["A"]} ["C"] ["A"; "B"] [],
     mkSys [] [mkLog DEBUG "Crawling: B";
               mkLog ERROR "Error crawling B: 404 Client Error";
               mkLog ERROR "Error during scraping: 404 Client Error"] 0).
Proof.
  refine (proj1 (failure_aborts (Demo.scripted Demo.site_dead_link) "out" "goal" 10
                   (7 # 10) "json" 0 [] {["A"]} "B" ["C"] ["A"] [] Demo.sys0 _ _)
            (mkExn RequestException "404 Client Error") _ eq_refl).
  - reflexivity.
  - intros H. apply elem_of_singleton in H. discriminate H.
Defined.

(** C1 as stated fails.  On a site whose relevant page A links to the dead
    page B and to C, the crawl is aborted when fetching B fails: [scrape]
    raises the fetch error, C stays in the frontier and is never fetched.
    With the collaborators of the sources and a network that is down,
    [scrape] raises the fetch error of the seed instead of returning. *)
Lemma dead_link_aborts_crawl :
  (let '(r, st, _) :=
     scrape (Demo.scripted Demo.site_dead_link) "out" "A" "goal" 10 (7 # 10)
       "json" 10 Demo.sys0 in
   r = Some (Raise (mkExn RequestException "404 Client Error"))
   /\ urls_to_visit st = ["C"]
   /\ fetched st = ["A"; "B"])
  /\ fst (fst (scrape (rufus (Demo.world Demo.offline PNone) 1000) "out" "A" "goal"
                 10 (7 # 10) "json" 10 Demo.sys0))
     = Some (Raise (mkExn RequestException "connection refused")).
Proof. vm_compute. repeat split. Qed.

(** ** [scrape]: termination, the empty budget, the export ([client.py]) *)

(** X10.  [scrape] always ends, whatever the collaborators do and whatever
    the budget: the frontier grows, but every pass either takes a visited URL
    from it or visits a new one, and the budget bounds the visits.  From some
    number of passes on the outcome is the same, and it is a result or an
    exception. *)
Theorem scrape_terminates c dir url instructions max_pages min_relevance format sys :
  exists fuel0, forall fuel, (fuel0 <= fuel)%nat ->
    scrape c dir url instructions max_pages min_relevance format fuel sys
    = scrape c dir url instructions max_pages min_relevance format fuel0 sys
    /\ exists r, fst (fst (scrape c dir url instructions max_pages min_relevance
                             format fuel0 sys)) = Some r.
Proof.
  destruct (scrape_ends c dir url instructions max_pages min_relevance format sys)
    as [fuel0 H].
  exists fuel0. intros fuel Hle. destruct (H fuel Hle) as [Heq Hr].
  split; [done|].
  destruct (fst (fst (scrape c dir url instructions max_pages min_relevance
                        format fuel0 sys))) as [r|]; [by exists r | done].
Qed.

Lemma crawl_loop_no_budget c instructions max_pages min_relevance fuel url sys :
  (max_pages <= 0)%Z ->
  crawl_loop c instructions max_pages min_relevance fuel (initial url) sys
  = (Completed, initial url, sys).
Proof.
  intros Hle.
  assert (Hg : loop_guard max_pages (initial url) = false).
  { cbn. rewrite size_empty. apply Z.ltb_ge. cbn. lia. }
  destruct fuel; cbn [crawl_loop]; by rewrite Hg.
Qed.

(** X11.  With a budget [max_pages <= 0] the seed is never fetched: the loop
    is not entered, the seed stays in the frontier, and the synthesizer is
    called on the empty list; [scrape] raises what the synthesizer raises,
    and otherwise exports and returns what it gave. *)
Theorem empty_budget_fetches_nothing c dir url instructions max_pages min_relevance
    format fuel sys :
  (max_pages <= 0)%Z ->
  let '(r, st, _) :=
    scrape c dir url instructions max_pages min_relevance format fuel sys in
  fetched st = [] /\ results st = [] /\ visited_urls st = ∅
  /\ urls_to_visit st = [url]
  /\ match synthesizer_synthesize c [] format
             (snd (emit INFO ("Starting search with instructions: " ++ instructions) sys))
     with
     | (Raise e, _) => r = Some (Raise e) /\ saved st = []
     | (Ok documents, _) =>
         (r = Some (Ok documents) \/ exists e, r = Some (Raise e))
         /\ exists file, saved st = [file]
     end.
Proof.
  intros Hle. unfold scrape.
  destruct (scrape_from _ _ _ _ _ _ _ _ _) as [[r st'] sys'] eqn:Hscrape.
  pose proof (crawl_loop_no_budget c instructions max_pages min_relevance fuel url
                (snd (emit INFO ("Starting search with instructions: " ++ instructions) sys))
                Hle) as Hloop.
  destruct (scrape_from_loop _ _ _ _ _ _ _ _ _ _ _ _ _ _ _ Hloop Hscrape)
    as (Hr & Hv & Hq & Hf & _ & Hsyn).
  cbn in Hr, Hv, Hq, Hf, Hsyn. repeat split; try done.
Qed.

Lemma last_emit (lvl : level) (msg : string) (sys : Sys) :
  last (log (snd (emit lvl msg sys))) = Some (mkLog lvl msg).
Proof. cbn. apply last_snoc. Qed.

(** X12.  The export of [scrape].  When [scrape] returns documents,
    [synthesizer.save] was called exactly once, on the file
    [<output_dir>/rufus_results_<timestamp>.<output_format>] with the format
    name as it was given, and the last record logged tells the number of
    documents and that file.  When it raises, [save] was called at most once
    and the last record logged is the error of [scrape]'s handler.  While the
    loop runs nothing is saved. *)
Theorem export_once c dir url instructions max_pages min_relevance format fuel sys :
  let '(r, st, sys') :=
    scrape c dir url instructions max_pages min_relevance format fuel sys in
  let file t := dir ++ "/rufus_results_" ++ clock_strftime c t ++ "." ++ format in
  match r with
  | Some (Ok documents) =>
      exists t, saved st = [file t]
        /\ last (log sys')
           = Some (mkLog INFO ("Search complete. Found "
                               ++ pretty (output_len documents)
                               ++ " relevant documents. Saved to " ++ file t))
  | Some (Raise e) =>
      (saved st = [] \/ exists t, saved st = [file t])
      /\ last (log sys') = Some (mkLog ERROR ("Error during scraping: " ++ exn_msg e))
  | None => saved st = []
  end.
Proof.
  unfold scrape, scrape_from.
  set (sys1 := snd (emit INFO ("Starting search with instructions: " ++ instructions) sys)).
  destruct (crawl_loop c instructions max_pages min_relevance fuel (initial url) sys1)
    as [[o st1] sys2] eqn:Hloop.
  pose proof (crawl_loop_saved _ _ _ _ _ _ _ _ _ _ Hloop) as Hsaved. cbn in Hsaved.
  destruct o as [| |e].
  - done.
  - destruct (synthesizer_synthesize c _ format sys2) as [[documents|e] sys3].
    + destruct (synthesizer_save c documents _ _) as [[[]|e] sys4];
        cbn [scrape_handler with_save saved]; rewrite Hsaved.
      * exists (clock sys3). split; [done|]. apply last_emit.
      * split; [right; by exists (clock sys3) | apply last_emit].
    + cbn [scrape_handler]. split; [by left | apply last_emit].
  - cbn [scrape_handler]. split; [by left | apply last_emit].
Qed.

(** X11 on the scenario of the specification with a budget of no page. *)
Lemma empty_budget_fetches_nothing_witness :
  let '(r, st, _) :=
    scrape (Demo.scripted Demo.site_abc) "out" "A" "goal" 0 (7 # 10) "json" 10
      Demo.sys0 in
  fetched st = [] /\ results st = [] /\ visited_urls st = ∅
  /\ urls_to_visit st = ["A"]
  /\ match synthesizer_synthesize (Demo.scripted Demo.site_abc) [] "json"
             (snd (emit INFO ("Starting search with instructions: " ++ "goal") Demo.sys0))
     with
     | (Raise e, _) => r = Some (Raise e) /\ saved st = []
     | (Ok documents, _) =>
         (r = Some (Ok documents) \/ exists e, r = Some (Raise e))
         /\ exists file, saved st = [file]
     end.
Proof.
  apply (empty_budget_fetches_nothing (Demo.scripted Demo.site_abc) "out" "A" "goal"
           0 (7 # 10) "json" 10 Demo.sys0).
  lia.
Defined.

(** ** The accepted pages ([client.py]) *)

Lemma loop_body_results_inv c instructions min_relevance st sys r st' sys' :
  results_inv st ->
  loop_body c instructions min_relevance st sys = (r, st', sys') ->
  results_inv st'.
Proof.
  intros [Hsub Hvis]. unfold loop_body.
  destruct (urls_to_visit st) as [|u rest]; [intros [= <- <- <-]; by split|].
  cbn [with_queue visited_urls].
  destruct (decide (u ∈ visited_urls st)) as [Hin|Hout];
    [intros [= <- <- <-]; by split|].
  assert (Hskip : map sr_url (results st) `sublist_of` (fetched st ++ [u])%list).
  { by apply sublist_inserts_r. }
  assert (Hgrow : forall sr, sr ∈ results st -> sr_url sr ∈ {[u]} ∪ visited_urls st).
  { intros sr Hsr. apply elem_of_union_r. by apply Hvis. }
  repeat next_call; intros [= <- <- <-]; unfold results_inv; cbn;
    (split;
     [first [exact Hskip
            | rewrite map_app; apply sublist_app; [done | reflexivity]]
     | intros sr Hsr;
       first [by apply Hvis
             | by apply Hgrow
             | apply elem_of_app in Hsr as [Hsr|Hsr];
               [by apply Hgrow
               | apply list_elem_of_singleton in Hsr as ->; cbn; set_solver]]]).
Qed.

Lemma crawl_loop_results_inv c instructions max_pages min_relevance fuel :
  forall st sys o st' sys',
    results_inv st ->
    crawl_loop c instructions max_pages min_relevance fuel st sys = (o, st', sys') ->
    results_inv st'.
Proof.
  induction fuel as [|fuel IH]; intros st sys o st' sys' Hinv; cbn [crawl_loop].
  - destruct (loop_guard max_pages st); intros [= <- <- <-]; done.
  - destruct (loop_guard max_pages st) eqn:Hg; [|intros [= <- <- <-]; done].
    destruct (loop_body c instructions min_relevance st sys) as [[r st1] sys1] eqn:Hbody.
    pose proof (loop_body_results_inv _ _ _ _ _ _ _ _ Hinv Hbody) as Hinv1.
    destruct r as [e|]; [intros [= <- <- <-]; done | by apply IH].
Qed.

Lemma crawl_loop_fetched_NoDup c instructions max_pages min_relevance fuel url sys
    o st sys' :
  crawl_loop c instructions max_pages min_relevance fuel (initial url) sys
  = (o, st, sys') ->
  NoDup (fetched st).
Proof.
  intros Hloop.
  destruct (Z_lt_le_dec max_pages 0) as [Hneg|Hpos].
  - rewrite crawl_loop_no_budget in Hloop by lia.
    injection Hloop as <- <- <-. constructor.
  - by destruct (crawl_loop_inv _ _ _ _ _ _ _ _ _ _ (loop_inv_initial url) Hpos Hloop)
      as (Hnd & _).
Qed.

(** X13.  Whatever the collaborators do and however long the run lasts, the
    accepted pages of [scrape] come from fetched pages, in the order of the
    fetches; no URL gives two results; and every accepted page is in the
    visited set. *)
Theorem results_follow_fetches c dir url instructions max_pages min_relevance
    format fuel sys :
  let '(_, st, _) :=
    scrape c dir url instructions max_pages min_relevance format fuel sys in
  map sr_url (results st) `sublist_of` fetched st
  /\ NoDup (map sr_url (results st))
  /\ forall sr, sr ∈ results st -> sr_url sr ∈ visited_urls st.
Proof.
  unfold scrape.
  destruct (scrape_from _ _ _ _ _ _ _ _ _) as [[r st'] sys'] eqn:Hscrape.
  destruct (crawl_loop c instructions max_pages min_relevance fuel (initial url)
              (snd (emit INFO ("Starting search with instructions: " ++ instructions) sys)))
    as [[o st1] sys1] eqn:Hloop.
  destruct (scrape_from_loop _ _ _ _ _ _ _ _ _ _ _ _ _ _ _ Hloop Hscrape)
    as (Hr & Hv & _ & Hf & _).
  rewrite Hr, Hv, Hf.
  assert (Hinv : results_inv (initial url)).
  { split; [cbn; constructor | intros sr Hsr; cbn in Hsr; by apply elem_of_nil in Hsr]. }
  destruct (crawl_loop_results_inv _ _ _ _ _ _ _ _ _ _ Hinv Hloop) as [Hsub Hvis].
  split; [done|]. split; [|done].
  eapply sublist_NoDup; [|exact Hsub].
  by eapply crawl_loop_fetched_NoDup.
Qed.

(** ** [SearchResult] instances in the synthesizer ([client.py],
    [synthesizer.py]) *)

(** X14.  [scrape] hands its [SearchResult] instances to the synthesizer,
    which subscripts them as dicts.  So [DocumentSynthesizer.synthesize]
    raises [TypeError] on every non-empty result set, in every format, and
    logs it; and a [scrape] that uses this synthesizer returns documents only
    when no page was accepted: with an accepted page it raises that
    [TypeError] once the loop is over, and nothing is saved. *)
Theorem accepted_pages_break_synthesis w c dir url instructions max_pages
    min_relevance format fuel sys :
  synthesizer_synthesize c = Synthesizer.synthesize w ->
  (forall sr srs sys0,
     Synthesizer.synthesize w (map SearchResult_obj (sr :: srs)) format sys0
     = (Raise (mkExn TypeError "object is not subscriptable"),
        mkSys (crawler_links sys0)
          (log sys0 ++ [mkLog ERROR
                          "Error synthesizing documents: object is not subscriptable"])
          (clock sys0)))
  /\ (let '(r, st, _) :=
        scrape c dir url instructions max_pages min_relevance format fuel sys in
      (forall documents, r = Some (Ok documents) -> results st = [])
      /\ (results st <> [] -> saved st = [])).
Proof.
  intros Hsyn. split; [intros; apply synthesize_search_results|].
  unfold scrape, scrape_from.
  set (sys1 := snd (emit INFO ("Starting search with instructions: " ++ instructions) sys)).
  destruct (crawl_loop c instructions max_pages min_relevance fuel (initial url) sys1)
    as [[o st1] sys2] eqn:Hloop.
  pose proof (crawl_loop_saved _ _ _ _ _ _ _ _ _ _ Hloop) as Hsaved. cbn in Hsaved.
  destruct o as [| |e]; [done| |done].
  rewrite Hsyn. destruct (results st1) as [|sr srs] eqn:Hres.
  - destruct (Synthesizer.synthesize w _ format sys2) as [[documents|e] sys3].
    + match goal with |- context [synthesizer_save c documents ?f ?s] =>
        destruct (synthesizer_save c documents f s) as [[[]|e] sys4] end;
        cbn [scrape_handler with_save results]; by rewrite Hres.
    + cbn [scrape_handler]. by rewrite Hres.
  - rewrite synthesize_search_results. cbn [scrape_handler]. by rewrite Hres.
Qed.

(** X14 on the scenario of the specification with the synthesizer of the
    sources: A and B are accepted, so nothing is returned and nothing saved. *)
Lemma accepted_pages_break_synthesis_witness :
  let '(r, st, _) :=
    scrape (Demo.scripted_with Demo.site_abc Samples.quiet) "out" "A" "goal" 2
      (7 # 10) "json" 10 Demo.sys0 in
  (forall documents, r = Some (Ok documents) -> results st = [])
  /\ (results st <> [] -> saved st = []).
Proof.
  apply (accepted_pages_break_synthesis Samples.quiet
           (Demo.scripted_with Demo.site_abc Samples.quiet) "out" "A" "goal" 2
           (7 # 10) "json" 10 Demo.sys0).
  reflexivity.
Defined.

(** ** [scrape] with the extractor of the sources ([client.py], [extractor.py]) *)

(** X19.  A [scrape] whose extractor is a [ContentExtractor()] stops at the
    seed: with a budget of at least one page, the seed is fetched, and then
    either the crawler raised or the extractor did; [scrape] raises, no page
    is accepted, no other URL is fetched and nothing is saved. *)
Theorem bound_extractor_stops_scrape c parse logger_warning dir url instructions
    max_pages min_relevance format fuel sys :
  extractor_extract c
  = ContentExtractor.extract parse (ContentExtractor.__init__ logger_warning) ->
  (1 <= max_pages)%Z ->
  (1 <= fuel)%nat ->
  let '(r, st, sys') :=
    scrape c dir url instructions max_pages min_relevance format fuel sys in
  (exists e, r = Some (Raise e)
             /\ last (log sys') = Some (mkLog ERROR ("Error during scraping: " ++ exn_msg e)))
  /\ fetched st = [url] /\ results st = [] /\ saved st = [].
Proof.
  intros Hext Hpages Hfuel. destruct fuel as [|fuel]; [lia|].
  unfold scrape, scrape_from. cbn [crawl_loop].
  assert (Hg : loop_guard max_pages (initial url) = true).
  { cbn. rewrite size_empty. apply Z.ltb_lt. cbn. lia. }
  rewrite Hg. unfold loop_body. cbn [initial urls_to_visit with_queue visited_urls].
  destruct (decide (url ∈ (∅ : gset string))) as [Hin|_]; [set_solver|].
  next_call.
  - rewrite Hext.
    match goal with |- context [ContentExtractor.extract ?p ?s ?h ?u ?y] =>
      destruct (extract_fresh p logger_warning h u y) as (msg & sys2 & ->) end.
    cbn [scrape_handler]. split; [|done]. eexists. split; [reflexivity|]. apply last_emit.
  - cbn [scrape_handler]. split; [|done]. eexists. split; [reflexivity|]. apply last_emit.
Qed.

(** X19 on a [RufusClient] in the quiet world, with a budget of one page. *)
Lemma bound_extractor_stops_scrape_witness :
  let '(r, st, sys') :=
    scrape Samples.client "out" "A" "goal" 1 (7 # 10) "json" 1 Demo.sys0 in
  (exists e, r = Some (Raise e)
             /\ last (log sys') = Some (mkLog ERROR ("Error during scraping: " ++ exn_msg e)))
  /\ fetched st = ["A"] /\ results st = [] /\ saved st = [].
Proof.
  apply (bound_extractor_stops_scrape Samples.client (bs_parse Samples.quiet)
           (fun msg s => snd (emit WARNING msg s))
           "out" "A" "goal" 1 (7 # 10) "json" 1 Demo.sys0);
    [reflexivity | lia | lia].
Defined.

(** ** Scoring with a textual LLM answer ([engine.py], [client.py]) *)

(** When the LLM answers with a string, [analyze_content_relevance] raises on
    every input and logs the exception. *)
Lemma analyze_raises w max_tokens content query url sys :
  llm_answers_text w ->
  exists e,
    Engine.analyze_content_relevance w max_tokens content query url sys
    = (Raise e, snd (emit ERROR ("Error analyzing content relevance: " ++ exn_msg e) sys)).
Proof.
  intros Htext.
  unfold Engine.analyze_content_relevance, log_and_reraise, try_except, bind, lift, raise.
  destruct (tfidf_cosine w content query) as [ml|e]; [|by exists e].
  destruct (slice_to content max_tokens) as [head|e]; [|by exists e].
  destruct (llm_text w (AnalysisPrompt head query)) as [analysis|e] eqn:Hllm;
    [|by exists e].
  destruct (Htext _ _ Hllm) as [s ->].
  destruct (Engine._information_density content) as [density|e]; [|by exists e].
  destruct (Engine._calculate_topic_match w content query) as [tm|e]; [|by exists e].
  cbn [getitem_str]. by eexists.
Qed.

(** With a scorer that always raises, a pass that does not raise took a
    visited URL, and the results never change. *)
Lemma loop_body_no_score c instructions min_relevance st sys u rest r st' sys' :
  (forall content url s, exists e s',
      ai_analyze_content_relevance c content instructions url s = (Raise e, s')) ->
  urls_to_visit st = u :: rest ->
  loop_body c instructions min_relevance st sys = (r, st', sys') ->
  results st' = results st
  /\ (u ∉ visited_urls st -> r <> None)
  /\ (r = None -> st' = with_queue st rest /\ sys' = sys).
Proof.
  intros Hraise Hq. unfold loop_body. rewrite Hq. cbn [with_queue visited_urls].
  destruct (decide (u ∈ visited_urls st)) as [Hin|Hout].
  { intros [= <- <- <-]. done. }
  destruct (crawler_crawl c u _) as [[page|e] sys1]; [|intros [= <- <- <-]; done].
  destruct (extractor_extract c page u sys1) as [[content|e] sys2];
    [|intros [= <- <- <-]; done].
  destruct (Hraise content u sys2) as (e & s' & ->).
  intros [= <- <- <-]. done.
Qed.

Lemma crawl_loop_no_score c instructions max_pages min_relevance fuel :
  (forall content url s, exists e s',
      ai_analyze_content_relevance c content instructions url s = (Raise e, s')) ->
  forall st sys o st' sys',
    crawl_loop c instructions max_pages min_relevance fuel st sys = (o, st', sys') ->
    results st' = results st
    /\ match o with
       | Failed _ => True
       | _ => visited_urls st' = visited_urls st /\ fetched st' = fetched st /\ sys' = sys
       end.
Proof.
  intros Hraise. induction fuel as [|fuel IH]; intros st sys o st' sys'; cbn [crawl_loop].
  - destruct (loop_guard max_pages st); intros [= <- <- <-]; done.
  - destruct (loop_guard max_pages st) eqn:Hg; [|intros [= <- <- <-]; done].
    destruct (loop_guard_true _ _ Hg) as (u & rest & Hq & _).
    destruct (loop_body c instructions min_relevance st sys) as [[r st1] sys1] eqn:Hbody.
    destruct (loop_body_no_score _ _ _ _ _ _ _ _ _ _ Hraise Hq Hbody) as (Hres & _ & Hnone).
    destruct r as [e|]; [intros [= <- <- <-]; done|].
    destruct (Hnone eq_refl) as [-> ->]. intros Hloop.
    destruct (IH _ _ _ _ _ Hloop) as [Hr Ho]. done.
Qed.

(** C2.  If the text of the LLM answer is a string then (1)
    [analyze_content_relevance] raises on every input, before a
    [ContentScore] is built; (2) when the content is a string with at least
    one token and the TF-IDF and LLM calls return, the exception is the
    [TypeError] of indexing the answer with ['relevance'], logged by the
    engine; (3) with this scorer, whatever the other collaborators are,
    [scrape] never accepts a page: its result set stays empty, it raises as
    soon as one pass is made on a budget of at least one page, and when it
    returns, no page was fetched and what it returns is what the synthesizer
    gives for the empty result list, so with a synthesizer that gives no
    document for no result, [scrape] never returns a document; (4) with the
    synthesizer of the sources [scrape] returns nothing at all, and with the
    collaborators of the sources it raises on every input. *)
Theorem scoring_always_raises w max_tokens :
  llm_answers_text w ->
  (forall content query url sys,
     exists e sys',
       Engine.analyze_content_relevance w max_tokens content query url sys
       = (Raise e, sys'))
  /\ (forall text query url sys ml answer,
        tfidf_cosine w (PStr text) query = Ok ml ->
        llm_text w (AnalysisPrompt (PStr (substring 0 max_tokens text)) query)
        = Ok answer ->
        str_split text <> [] ->
        exists e,
          exn_cls e = TypeError
          /\ Engine.analyze_content_relevance w max_tokens (PStr text) query url sys
             = (Raise e,
                snd (emit ERROR ("Error analyzing content relevance: " ++ exn_msg e) sys)))
  /\ (forall c,
        ai_analyze_content_relevance c = Engine.analyze_content_relevance w max_tokens ->
        forall dir url instructions max_pages min_relevance format fuel sys,
          let '(r, st, _) :=
            scrape c dir url instructions max_pages min_relevance format fuel sys in
          results st = []
          /\ ((0 < max_pages)%Z -> (0 < fuel)%nat -> exists e, r = Some (Raise e))
          /\ (forall out, r = Some (Ok out) ->
                fetched st = []
                /\ exists sys1 sys2,
                     synthesizer_synthesize c [] format sys1 = (Ok out, sys2))
          /\ ((forall sys1 out sys2,
                  synthesizer_synthesize c [] format sys1 = (Ok out, sys2) ->
                  output_len out = 0%nat) ->
              forall out, r = Some (Ok out) -> output_len out = 0%nat))
  /\ (forall c w',
        synthesizer_synthesize c = Synthesizer.synthesize w' ->
        forall dir url instructions max_pages min_relevance format fuel sys out,
          fst (fst (scrape c dir url instructions max_pages min_relevance
                      format fuel sys)) <> Some (Ok out))
  /\ (forall dir url instructions max_pages min_relevance format sys,
        exists fuel0, forall fuel, (fuel0 <= fuel)%nat ->
          exists e,
            fst (fst (scrape (rufus w max_tokens) dir url instructions max_pages
                        min_relevance format fuel sys)) = Some (Raise e)).
Proof.
  intros Htext. split; [|split]; [| |split; [|split]].
  - intros content query url sys.
    destruct (analyze_raises w max_tokens content query url sys Htext) as [e He].
    eauto.
  - intros text query url sys ml answer Htfidf Hllm Htok.
    destruct (Htext _ _ Hllm) as [s ->].
    unfold Engine.analyze_content_relevance, log_and_reraise, try_except, bind, lift, raise.
    rewrite Htfidf. cbn [slice_to]. rewrite Hllm.
    unfold Engine._information_density, Engine._calculate_topic_match.
    cbn [Py.split and_then]. unfold truediv.
    destruct (Z.eqb_spec (Z.of_nat (length (str_split text))) 0) as [E|_].
    { destruct (str_split text); [done | simpl in E; lia]. }
    rewrite Htfidf. eexists. split; [|reflexivity]. reflexivity.
  - intros c Hc dir url instructions max_pages min_relevance format fuel sys.
    assert (Hraise : forall content u s, exists e s',
              ai_analyze_content_relevance c content instructions u s = (Raise e, s')).
    { intros content u s. rewrite Hc.
      destruct (analyze_raises w max_tokens content instructions u s Htext) as [e He].
      eauto. }
    unfold scrape.
    destruct (scrape_from _ _ _ _ _ _ _ _ _) as [[r st'] sys'] eqn:Hscrape.
    destruct (crawl_loop c instructions max_pages min_relevance fuel (initial url)
                (snd (emit INFO ("Starting search with instructions: " ++ instructions) sys)))
      as [[o st1] sys1] eqn:Hloop.
    destruct (scrape_from_loop _ _ _ _ _ _ _ _ _ _ _ _ _ _ _ Hloop Hscrape)
      as (Hr & _ & _ & Hf & Ho).
    destruct (crawl_loop_no_score _ _ _ _ _ Hraise _ _ _ _ _ Hloop) as [Hres Hsame].
    rewrite Hr, Hres, Hf. split; [done|].
    assert (Hret : forall out, r = Some (Ok out) ->
              fetched st1 = []
              /\ exists sys1 sys2,
                   synthesizer_synthesize c [] format sys1 = (Ok out, sys2)).
    { intros out ->. destruct o as [| |e].
      * by destruct Ho as [[=] _].
      * destruct Hsame as (_ & -> & ->). split; [done|].
        destruct Ho as [_ Ho]. rewrite Hres in Ho. cbn [initial results map] in Ho.
        destruct (synthesizer_synthesize c [] format _) as [[documents|e] sys2] eqn:Hsyn.
        -- destruct Ho as [[[= <-]|[e [=]]] _]. eauto.
        -- by destruct Ho as [[=] _].
      * by destruct Ho as [[=] _]. }
    split; [|split; [exact Hret|]].
    + intros Hpos Hfuel. destruct fuel as [|fuel]; [lia|].
      cbn [crawl_loop] in Hloop.
      assert (Hg : loop_guard max_pages (initial url) = true).
      { cbn. apply Z.ltb_lt. rewrite size_empty. lia. }
      rewrite Hg in Hloop.
      destruct (loop_body c instructions min_relevance (initial url) _)
        as [[r0 st0] sys0] eqn:Hbody.
      destruct (loop_body_no_score c instructions min_relevance (initial url) _
                  url [] _ _ _ Hraise eq_refl Hbody) as (_ & Hne & _).
      destruct r0 as [e|]; [|by destruct Hne; [apply not_elem_of_empty|]].
      injection Hloop as <- <- <-. destruct Ho as (-> & _). eauto.
    + intros Hempty out Hout.
      destruct (Hret out Hout) as (_ & s1 & s2 & Hsyn). by eapply Hempty.
  - intros c w' Hc dir url instructions max_pages min_relevance format fuel sys out.
    pose proof (scrape_synthesizer_raises c) as H.
    specialize (H ltac:(intros; rewrite Hc; apply synthesize_raises)
                  dir url instructions max_pages min_relevance format fuel sys).
    destruct (scrape c dir url instructions max_pages min_relevance format fuel sys)
      as [[r st] sys']. cbn [fst].
    destruct H as [_ [->|[e ->]]]; done.
  - intros dir url instructions max_pages min_relevance format sys.
    apply scrape_synthesizer_raises_ends.
    intros. cbn [rufus synthesizer_synthesize]. apply synthesize_raises.
Qed.

(** C2 in a world whose LLM answers with a string, on a content of three
    tokens. *)
Lemma scoring_always_raises_witness :
  llm_answers_text (Demo.world Demo.online (PStr "relevance 0.9"))
  /\ exists e,
       exn_cls e = TypeError
       /\ fst (Engine.analyze_content_relevance
                 (Demo.world Demo.online (PStr "relevance 0.9")) 1000
                 (PStr "a b a") "goal" "A" Demo.sys0)
          = Raise e.
Proof.
  assert (H : llm_answers_text (Demo.world Demo.online (PStr "relevance 0.9"))).
  { intros p v [= <-]. by eexists. }
  split; [exact H|].
  destruct (proj1 (proj2 (scoring_always_raises
                            (Demo.world Demo.online (PStr "relevance 0.9")) 1000 H))
              "a b a" "goal" "A" Demo.sys0 (1 # 2) (PStr "relevance 0.9")
              eq_refl eq_refl ltac:(discriminate)) as (e & Hcls & ->).
  by exists e.
Defined.

(** ** The output format ([synthesizer.py], [synthesize]; [client.py]) *)

Lemma unsupported_tests format :
  ~ supported format ->
  String.eqb (lower format) "json" = false
  /\ String.eqb (lower format) "markdown" = false
  /\ String.eqb (lower format) "text" = false.
Proof.
  unfold supported. intros H.
  repeat split; apply String.eqb_neq; intros E; apply H; auto.
Qed.

(** C9, amended.  For a format name whose lower-case form is none of [json],
    [markdown], [text]: (1) [synthesize] never returns, it raises and logs;
    (2) on page records the exception is
    [ValueError("Unsupported format: <name>")], raised after de-duplication
    and structuring; (3) in [scrape] the format is looked at only when the
    crawl loop has ended, so pages may have been fetched by then; [scrape]
    returns no documents (it raises, or is still crawling) and
    [synthesizer.save] is never called; (4) when the loop ends with no
    accepted page, [scrape] raises that [ValueError], logged by the
    synthesizer and by [scrape]; (5) [scrape] does raise, given enough fuel
    for the loop to end. *)
Theorem unsupported_format_raises_late w format :
  ~ supported format ->
  (forall results sys,
     exists e sys', Synthesizer.synthesize w results format sys = (Raise e, sys'))
  /\ (forall results sys,
        Forall is_page results ->
        exists sys',
          Synthesizer.synthesize w results format sys
          = (Raise (mkExn ValueError ("Unsupported format: " ++ format)), sys'))
  /\ (forall c,
        synthesizer_synthesize c = Synthesizer.synthesize w ->
        forall dir url instructions max_pages min_relevance fuel sys,
          let '(r, st, _) :=
            scrape c dir url instructions max_pages min_relevance format fuel sys in
          saved st = [] /\ (r = None \/ exists e, r = Some (Raise e)))
  /\ (forall c,
        synthesizer_synthesize c = Synthesizer.synthesize w ->
        forall dir url instructions max_pages min_relevance fuel sys st1 sys1,
          crawl_loop c instructions max_pages min_relevance fuel (initial url)
            (snd (emit INFO ("Starting search with instructions: " ++ instructions) sys))
          = (Completed, st1, sys1) ->
          results st1 = [] ->
          scrape c dir url instructions max_pages min_relevance format fuel sys
          = (Some (Raise (mkExn ValueError ("Unsupported format: " ++ format))), st1,
             mkSys (crawler_links sys1)
               (log sys1
                ++ [mkLog ERROR ("Error synthesizing documents: Unsupported format: "
                                 ++ format);
                    mkLog ERROR ("Error during scraping: Unsupported format: "
                                 ++ format)])
               (clock sys1)))
  /\ (forall c,
        synthesizer_synthesize c = Synthesizer.synthesize w ->
        forall dir url instructions max_pages min_relevance sys,
        exists fuel0, forall fuel, (fuel0 <= fuel)%nat ->
          exists e,
            fst (fst (scrape c dir url instructions max_pages min_relevance
                        format fuel sys)) = Some (Raise e)).
Proof.
  intros Hbad. destruct (unsupported_tests format Hbad) as (Hj & Hm & Ht).
  assert (Hout : format_outcome format = mkExn ValueError ("Unsupported format: " ++ format)).
  { unfold format_outcome. by rewrite Hj, Hm, Ht. }
  split; [intros results sys; apply synthesize_raises|].
  split; [|split; [|split]].
  - intros results sys Hpages. rewrite (synthesize_pages w results format sys Hpages), Hout.
    eauto.
  - intros c Hc dir url instructions max_pages min_relevance fuel sys.
    apply (scrape_synthesizer_raises c).
    intros. rewrite Hc. apply synthesize_raises.
  - intros c Hc dir url instructions max_pages min_relevance fuel sys st1 sys1
      Hloop Hempty.
    unfold scrape, scrape_from. rewrite Hloop, Hc, Hempty.
    cbn [map]. rewrite (synthesize_pages w [] format sys1 (List.Forall_nil _)), Hout.
    unfold scrape_handler, emit. cbn. rewrite Nat.add_0_r.
    by rewrite <- app_assoc.
  - intros c Hc dir url instructions max_pages min_relevance sys.
    apply (scrape_synthesizer_raises_ends c).
    intros. rewrite Hc. apply synthesize_raises.
Qed.

(** The amended C9 for the format name [xml], on the empty result list. *)
Lemma unsupported_format_raises_late_witness :
  ~ supported "xml"
  /\ fst (Synthesizer.synthesize (Demo.world Demo.online PNone) [] "xml" Demo.sys0)
     = Raise (mkExn ValueError "Unsupported format: xml").
Proof.
  assert (H : ~ supported "xml").
  { unfold supported. intros [E|[E|E]]; discriminate E. }
  split; [exact H|].
  destruct (proj1 (proj2 (unsupported_format_raises_late
                            (Demo.world Demo.online PNone) "xml" H))
              [] Demo.sys0 (List.Forall_nil _)) as [sys' ->].
  reflexivity.
Defined.

(** C9 as stated fails.  With the format [xml], a site whose only page is
    below the threshold is fetched before [ValueError] is raised; with the
    collaborators of the sources the seed is fetched too, and the exception
    raised is the one of the extraction, not the one of the format; and the
    name [JSON] is not refused as unsupported: it is taken for [json], whose
    formatter is missing. *)
Lemma unsupported_format_checked_after_crawl :
  (let '(r, st, _) :=
     scrape (Demo.scripted_with Demo.site_pruned (Demo.world Demo.online PNone))
       "out" "A" "goal" 100 (7 # 10) "xml" 10 Demo.sys0 in
   r = Some (Raise (mkExn ValueError "Unsupported format: xml"))
   /\ fetched st = ["A"])
  /\ (let '(r, st, _) :=
        scrape (rufus (Demo.world Demo.online (PStr "relevance 0.9")) 1000)
          "out" "A" "goal" 100 (7 # 10) "xml" 10 Demo.sys0 in
      (exists e, r = Some (Raise e) /\ exn_cls e = TypeError)
      /\ fetched st = ["A"])
  /\ fst (fst (scrape (rufus (Demo.world Demo.online (PStr "relevance 0.9")) 1000)
                 "out" "A" "goal" 0 (7 # 10) "JSON" 10 Demo.sys0))
     = Some (Raise (mkExn AttributeError
                      "'DocumentSynthesizer' object has no attribute '_format_json'")).
Proof. vm_compute. repeat split. eexists. split; reflexivity. Qed.

(** ** Several seeds ([client.py], [scrape_multiple]) *)






(** The scenario of the specification: fetching [urlA] fails, the documents of
    [urlB] are returned and the error of [urlA] is logged, not raised. *)
Example scrape_multiple_two_seeds :
  let '(documents, sys) :=
    scrape_multiple (Demo.scripted Demo.site_two_seeds) "out" ["urlA"; "urlB"]
      "goal" 10 (7 # 10) "json" 10 Demo.sys0 in
  documents
  = Some [SearchResult_obj
            (mkSearchResult "urlB" (PStr "page b") (9 # 10) (9 # 10) (9 # 10) 0)]
  /\ last (log sys)
     = Some (mkLog ERROR "Error in parallel scraping: 404 Client Error").
Proof. vm_compute. split; reflexivity. Qed.

(** ** The mean similarity ([helpers.py]) *)

Lemma total_from_bounds (compute_similarity : string -> string -> result Q)
    (extracted_content : string) (lo hi : Q) (keywords : list string) :
  (forall keyword, keyword ∈ keywords ->
     exists q, compute_similarity keyword extracted_content = Ok q
               /\ (lo <= q)%Q /\ (q <= hi)%Q) ->
  forall total_score, exists t,
    Helpers.total_from compute_similarity extracted_content keywords total_score = Ok t
    /\ (total_score + inject_Z (Z.of_nat (length keywords)) * lo <= t)%Q
    /\ (t <= total_score + inject_Z (Z.of_nat (length keywords)) * hi)%Q.
Proof.
  induction keywords as [|keyword keywords IH]; intros Hsim total_score.
  - exists total_score. cbn [Helpers.total_from].
    change (inject_Z (Z.of_nat (length (@nil string)))) with 0%Q.
    split; [done|]. split; lra.
  - destruct (Hsim keyword) as (q & Hq & Hlo & Hhi); [apply list_elem_of_here|].
    destruct (IH (fun k Hk => Hsim k (list_elem_of_further _ _ _ Hk))
                (total_score + q)%Q) as (t & Ht & Htlo & Hthi).
    exists t. cbn [Helpers.total_from]. rewrite Hq. cbn [and_then]. split; [done|].
    cbn [length]. rewrite Nat2Z.inj_succ, <- Z.add_1_r, inject_Z_plus.
    change (inject_Z 1) with 1%Q. split; lra.
Qed.

(** X23.  [score_content] is a mean.  With no keyword it is 0, and nothing is
    divided; with keywords whose similarities to the content all lie between
    [lo] and [hi], it returns a score between [lo] and [hi]. *)
Theorem score_content_mean_bounds (compute_similarity : string -> string -> result Q)
    (extracted_content : string) (lo hi : Q) (keywords : list string) :
  (forall keyword, keyword ∈ keywords ->
     exists q, compute_similarity keyword extracted_content = Ok q
               /\ (lo <= q)%Q /\ (q <= hi)%Q) ->
  exists score,
    Helpers.score_content compute_similarity extracted_content keywords = Ok score
    /\ match keywords with
       | [] => score = 0%Q
       | _ :: _ => (lo <= score)%Q /\ (score <= hi)%Q
       end.
Proof.
  intros Hsim. unfold Helpers.score_content.
  destruct (total_from_bounds _ _ lo hi keywords Hsim 0%Q) as (t & -> & Hlo & Hhi).
  cbn [and_then]. destruct keywords as [|keyword keywords]; [by exists 0%Q|].
  unfold float_div_int.
  set (n := Z.of_nat (length (keyword :: keywords))) in *.
  assert (Hn : (0 < n)%Z) by (unfold n; cbn [length]; lia).
  destruct (Z.eqb_spec n 0) as [Hz|_]; [lia|].
  assert (Hpos : (0 < inject_Z n)%Q).
  { change (inject_Z 0 < inject_Z n)%Q. by rewrite <- Zlt_Qlt. }
  exists (t / inject_Z n)%Q. split; [done|]. split.
  - apply Qle_shift_div_l; [done|]. lra.
  - apply Qle_shift_div_r; [done|]. lra.
Qed.

(** X23 on two keywords of similarity one half. *)
Lemma score_content_mean_bounds_witness :
  exists score,
    Helpers.score_content Samples.similarity "text" ["a"; "b"] = Ok score
    /\ (0 <= score)%Q /\ (score <= 1)%Q.
Proof.
  apply (score_content_mean_bounds Samples.similarity "text" 0 1 ["a"; "b"]).
  intros keyword _. exists (1 # 2)%Q. repeat split; discriminate.
Defined.

